(** * Xenon core hardware model: PCI bridge, SMC and device base

    A shallow embedding of the parts of the Xenon emulator that the
    specification's testable properties talk about:

    - [SystemDevice]  (Base/SystemDevice.h)
    - [PCIBridge]     (Core/PCI/Bridge/PCIBridge.cpp)
    - [SMC]           (Core/PCI/Devices/SMC/SMC.cpp)
    - [Xenos]         (Core/XGPU/Xenos.h, the endianness swaps)
    - [Main]          (Main.cpp, the shutdown handler)

    Machine integers are [Z] with the wrap-around written out, byte
    counts (the [u64 size] arguments) are [nat], memory is a list of
    byte values, and every function that touches memory through a
    pointer returns [None] when the access leaves the object it points
    into. *)

From Stdlib Require Import ZArith Lia Bool.
From stdpp Require Import base list strings.

Local Open Scope Z_scope.

(** ** Base/Types.h: fixed-width integers *)

Module Types.

Definition wrap (bits x : Z) : Z := x mod 2 ^ bits.

Definition u8 (x : Z) : Z := wrap 8 x.
Definition u16 (x : Z) : Z := wrap 16 x.
Definition u32 (x : Z) : Z := wrap 32 x.
Definition u64 (x : Z) : Z := wrap 64 x.

(** Conversion of an integer to [bool]: anything but zero is [true]. *)
Definition to_bool (x : Z) : bool := negb (x =? 0).

End Types.

(** ** Byte-level memory: [memcpy] and little-endian object images *)

Module Mem.

(** The object representation of the low [n] bytes of an integer on the
    little-endian hosts the emulator targets. *)
Fixpoint le_bytes (n : nat) (v : Z) : list Z :=
  match n with
  | O => []
  | S k => v mod 256 :: le_bytes k (v / 256)
  end.

(** The integer whose object representation is [bs]. *)
Fixpoint le_value (bs : list Z) : Z :=
  match bs with
  | [] => 0
  | b :: rest => b + 256 * le_value rest
  end.

(** [memcpy dest src n]: [dest] and [src] are the bytes from the two
    pointers up to the end of the objects they point into.  The first
    [n] bytes of [dest] are replaced by the first [n] bytes of [src];
    running past the end of either object has no defined result. *)
Definition memcpy (dest src : list Z) (n : nat) : option (list Z) :=
  if (n <=? length src)%nat && (n <=? length dest)%nat
  then Some (take n src ++ drop n dest)
  else None.

(** [memcpy(&mem[off], src, n)] seen from the start of [mem]. *)
Definition memcpy_at (mem : list Z) (off : nat) (src : list Z) (n : nat)
  : option (list Z) :=
  if (off <=? length mem)%nat
  then option_map (fun d => take off mem ++ d) (memcpy (drop off mem) src n)
  else None.

(** [memset(dest, c, n)]. *)
Definition memset (dest : list Z) (c : Z) (n : nat) : option (list Z) :=
  if (n <=? length dest)%nat
  then Some (replicate n (c mod 256) ++ drop n dest)
  else None.

Definition is_byte (b : Z) : Prop := 0 <= b < 256.

End Mem.

(** ** Base/SystemDevice.h *)

Module SystemDevice.

Import Types.

Record DeviceInfo := {
  deviceName : string;
  startAddr : Z;
  endAddr : Z;
  socDevice : bool
}.

(** The constructor stores its four arguments; the addresses are [u64]. *)
Definition make (name : string) (startAddress endAddress : Z) (isSOCDevice : bool)
  : DeviceInfo :=
  {| deviceName := name;
     startAddr := u64 startAddress;
     endAddr := u64 endAddress;
     socDevice := isSOCDevice |}.

Definition GetDeviceName (info : DeviceInfo) : string := deviceName info.
Definition GetStartAddress (info : DeviceInfo) : Z := startAddr info.
Definition GetEndAddress (info : DeviceInfo) : Z := endAddr info.

(** [u64 GetSize() { return info.startAddr - info.endAddr; }] *)
Definition GetSize (info : DeviceInfo) : Z := u64 (startAddr info - endAddr info).

Definition IsSOCDevice (info : DeviceInfo) : bool := socDevice info.

End SystemDevice.

(** ** Observable effects

    Calls into collaborators (the interrupt controller, the launcher,
    the log) are recorded, in program order, as a list of events. *)

Module Log.
Inductive Level := Trace | Debug | Info | Warning | Error | Critical.
Inductive Arg := Num (n : Z) | Str (s : string).
End Log.

(** The interrupt priorities named by the [case] labels of
    [RouteInterrupt], in the order of the labels. *)
Inductive Prio :=
| PRIO_CLOCK | PRIO_SATA_ODD | PRIO_SATA_HDD | PRIO_SMM
| PRIO_OHCI_0 | PRIO_OHCI_1 | PRIO_EHCI_0 | PRIO_EHCI_1
| PRIO_XMA | PRIO_AUDIO | PRIO_ENET | PRIO_GRAPHICS | PRIO_XPS | PRIO_SFCX.

Definition all_prios : list Prio :=
  [PRIO_CLOCK; PRIO_SATA_ODD; PRIO_SATA_HDD; PRIO_SMM;
   PRIO_OHCI_0; PRIO_OHCI_1; PRIO_EHCI_0; PRIO_EHCI_1;
   PRIO_XMA; PRIO_AUDIO; PRIO_ENET; PRIO_GRAPHICS; PRIO_XPS; PRIO_SFCX].

(** The members of [smcPCIState]. *)
Inductive SMCReg :=
| uartOutReg | uartInReg | uartStatusReg | uartConfigReg
| smiIntPendingReg | smiIntAckReg | smiIntEnabledReg
| clockIntEnabledReg | clockIntStatusReg
| fifoInStatusReg | fifoOutStatusReg.

(** [SMC_REG_STORE r v]: the SMC thread assigns [v] to the register [r],
    which the guest can read back through the SMC window. *)
Inductive Event :=
| LOG (lvl : Log.Level) (cls fmt : string) (args : list Log.Arg)
| IIC_genInterrupt (prio cpu : Z)
| IIC_cancelInterrupt (prio cpu : Z)
| SMC_REG_STORE (reg : SMCReg) (value : Z)
| PCIBridge_RouteInterrupt (prio : Prio)
| XeMain_Reboot (reason : Z)
| XeRunning_store (value : bool).

Definition is_genInterrupt (e : Event) : bool :=
  match e with IIC_genInterrupt _ _ => true | _ => false end.

Definition is_error_log (e : Event) : bool :=
  match e with LOG Log.Error _ _ _ => true | _ => false end.

(** ** Core/PCI/PCIDevice.h: what the bridge needs from a device

    Modelled from the spec: the header is not among the sources; the
    spec lists the device interface as [Read], [Write], [MemSet],
    [ConfigRead], [ConfigWrite] and [IsAddressMappedInBAR].  A call
    returns the device after the call, the destination buffer for the
    reads, and the events it produced. *)

Class PCIDevice (D : Type) := {
  dev_IsAddressMappedInBAR : D -> Z -> bool;
  dev_Read : D -> Z -> list Z -> nat -> option (D * list Z * list Event);
  dev_Write : D -> Z -> list Z -> nat -> option (D * list Event);
  dev_ConfigRead : D -> Z -> list Z -> nat -> option (D * list Z * list Event);
  dev_ConfigWrite : D -> Z -> list Z -> nat -> option (D * list Event)
}.

(** [MemSet(u64 writeAddress, s32 data, u64 size)] of the same
    interface, which the bridge's [MemSet] forwards to. *)
Class PCIDevice_MemSet (D : Type) := {
  dev_MemSet : D -> Z -> Z -> nat -> option (D * list Event)
}.

(** ** Core/PCI/Bridge/PCIBridge.cpp *)

Module PCIBridge.

Import Types Mem.

(** Modelled from the spec: [PCI_BRIDGE_BASE_ADDRESS] and
    [PCI_BRIDGE_BASE_END_ADDRESS] are macros of PCIBridge.h, which is
    not among the sources; the spec gives the bridge's own window as
    [0xEA00_0000..0xEA00_FFFF]. *)
Definition PCI_BRIDGE_BASE_ADDRESS : Z := 0xEA000000.
Definition PCI_BRIDGE_BASE_END_ADDRESS : Z := 0xEA00FFFF.

(** One priority register: the raw word and the fields derived from it.

    Modelled from the spec: the struct is declared in PCIBridge.h, which
    is not among the sources; the spec gives each source
    [{intEnabled: bit, latched: bit, targetCPU: 6 bits, cpuIRQ: 6 bits,
    raw: u32}] and the general status words as 32-bit words. *)
Record PRIO_REG := {
  hexData : Z;
  intEnabled : bool;
  latched : bool;
  targetCPU : Z;
  cpuIRQ : Z
}.

(** The priority registers that are members of [pciBridgeState]. *)
Inductive PrioRegName :=
| PRIO_REG_CLCK | PRIO_REG_ODD | PRIO_REG_HDD | PRIO_REG_SMM
| PRIO_REG_OHCI0 | PRIO_REG_OHCI1 | PRIO_REG_EHCI0 | PRIO_REG_EHCI1
| PRIO_REG_ENET | PRIO_REG_XMA | PRIO_REG_AUDIO | PRIO_REG_SFCX
| PRIO_REG_GRAPHICS.

Definition PrioRegName_eqb (a b : PrioRegName) : bool :=
  match a, b with
  | PRIO_REG_CLCK, PRIO_REG_CLCK | PRIO_REG_ODD, PRIO_REG_ODD
  | PRIO_REG_HDD, PRIO_REG_HDD | PRIO_REG_SMM, PRIO_REG_SMM
  | PRIO_REG_OHCI0, PRIO_REG_OHCI0 | PRIO_REG_OHCI1, PRIO_REG_OHCI1
  | PRIO_REG_EHCI0, PRIO_REG_EHCI0 | PRIO_REG_EHCI1, PRIO_REG_EHCI1
  | PRIO_REG_ENET, PRIO_REG_ENET | PRIO_REG_XMA, PRIO_REG_XMA
  | PRIO_REG_AUDIO, PRIO_REG_AUDIO | PRIO_REG_SFCX, PRIO_REG_SFCX
  | PRIO_REG_GRAPHICS, PRIO_REG_GRAPHICS => true
  | _, _ => false
  end.

Record PCI_BRIDGE_STATE := {
  REG_EA000000 : Z;
  REG_EA000004 : Z;
  REG_EA00000C : Z;
  prioReg : PrioRegName -> PRIO_REG
}.

(** The registers of the bridge's own window. *)
Inductive BridgeReg :=
| R_EA000000 | R_EA000004 | R_EA00000C | R_PRIO (r : PrioRegName).

(** The [case] labels shared by the switches of [Read] and [Write]. *)
Definition reg_at (address : Z) : option BridgeReg :=
  if address =? 0xEA000000 then Some R_EA000000
  else if address =? 0xEA000004 then Some R_EA000004
  else if address =? 0xEA00000C then Some R_EA00000C
  else if address =? 0xEA000010 then Some (R_PRIO PRIO_REG_CLCK)
  else if address =? 0xEA000014 then Some (R_PRIO PRIO_REG_ODD)
  else if address =? 0xEA000018 then Some (R_PRIO PRIO_REG_HDD)
  else if address =? 0xEA00001C then Some (R_PRIO PRIO_REG_SMM)
  else if address =? 0xEA000020 then Some (R_PRIO PRIO_REG_OHCI0)
  else if address =? 0xEA000024 then Some (R_PRIO PRIO_REG_OHCI1)
  else if address =? 0xEA000028 then Some (R_PRIO PRIO_REG_EHCI0)
  else if address =? 0xEA00002C then Some (R_PRIO PRIO_REG_EHCI1)
  else if address =? 0xEA000038 then Some (R_PRIO PRIO_REG_ENET)
  else if address =? 0xEA00003C then Some (R_PRIO PRIO_REG_XMA)
  else if address =? 0xEA000040 then Some (R_PRIO PRIO_REG_AUDIO)
  else if address =? 0xEA000044 then Some (R_PRIO PRIO_REG_SFCX)
  else None.

(** The 32-bit word a [Read] copies out for each register. *)
Definition reg_word (st : PCI_BRIDGE_STATE) (r : BridgeReg) : Z :=
  match r with
  | R_EA000000 => REG_EA000000 st
  | R_EA000004 => REG_EA000004 st
  | R_EA00000C => REG_EA00000C st
  | R_PRIO p => hexData (prioReg st p)
  end.

Definition set_prioReg (st : PCI_BRIDGE_STATE) (r : PrioRegName) (v : PRIO_REG)
  : PCI_BRIDGE_STATE :=
  {| REG_EA000000 := REG_EA000000 st;
     REG_EA000004 := REG_EA000004 st;
     REG_EA00000C := REG_EA00000C st;
     prioReg := fun r' => if PrioRegName_eqb r r' then v else prioReg st r' |}.

(** The bridge object: register file, its own configuration space (the
    256-byte view) and the attached devices in iteration order. *)
Record Bridge (D : Type) := {
  pciBridgeState : PCI_BRIDGE_STATE;
  pciBridgeConfig : list Z;
  connectedPCIDevices : list (string * D)
}.
Arguments pciBridgeState {D} _.
Arguments pciBridgeConfig {D} _.
Arguments connectedPCIDevices {D} _.

(** Modelled from the spec: the bit-field layout of [PCIE_CONFIG_ADDR]
    (Core/PCI/PCIe.h is not among the sources).  The spec describes the
    composite address as [{busNum:8, devNum:5, funcNum:3, regOffset:8}]
    packed into a 32-bit word, register offset in the low byte. *)
Definition regOffset (hexData : Z) : Z := Z.land hexData 0xFF.
Definition functNum (hexData : Z) : Z := Z.land (Z.shiftr hexData 8) 0x7.
Definition devNum (hexData : Z) : Z := Z.land (Z.shiftr hexData 11) 0x1F.
Definition busNum (hexData : Z) : Z := Z.land (Z.shiftr hexData 16) 0xFF.

Definition XMA_DEV_NUM : Z := 0x0.
Definition CDROM_DEV_NUM : Z := 0x1.
Definition HDD_DEV_NUM : Z := 0x2.
Definition OHCI0_DEV_NUM : Z := 0x4.
Definition EHCI0_DEV_NUM : Z := 0x4.
Definition OHCI1_DEV_NUM : Z := 0x5.
Definition EHCI1_DEV_NUM : Z := 0x5.
Definition FAST_ETH_DEV_NUM : Z := 0x7.
Definition SFC_DEV_NUM : Z := 0x8.
Definition AUDIO_CTRLR_DEV_NUM : Z := 0x9.
Definition SMC_DEV_NUM : Z := 0xA.
Definition _5841_DEV_NUM : Z := 0xF.

(** The device-number switch of [ConfigRead] and [ConfigWrite]: the
    value of [currentDevName] after the switch, or [None] when the
    [default] label is taken.  A function number other than 0 or 1 on
    device 4 or 5 leaves the name empty. *)
Definition currentDevName (configAddr : Z) : option string :=
  let dev := devNum configAddr in
  let fn := functNum configAddr in
  if dev =? XMA_DEV_NUM then Some "XMA"%string
  else if dev =? CDROM_DEV_NUM then Some "CDROM"%string
  else if dev =? HDD_DEV_NUM then Some "HDD"%string
  else if dev =? OHCI0_DEV_NUM then
    if fn =? 0 then Some "OHCI0"%string
    else if fn =? 1 then Some "EHCI0"%string
    else Some EmptyString
  else if dev =? OHCI1_DEV_NUM then
    if fn =? 0 then Some "OHCI1"%string
    else if fn =? 1 then Some "EHCI1"%string
    else Some EmptyString
  else if dev =? FAST_ETH_DEV_NUM then Some "ETHERNET"%string
  else if dev =? SFC_DEV_NUM then Some "SFCX"%string
  else if dev =? AUDIO_CTRLR_DEV_NUM then Some "AUDIOCTRLR"%string
  else if dev =? SMC_DEV_NUM then Some "SMC"%string
  else if dev =? _5841_DEV_NUM then Some "5841"%string
  else None.

(** The first attached device, in iteration order, that satisfies [p]. *)
Fixpoint first_device {D} (p : string -> D -> bool) (devs : list (string * D))
  : option (nat * string * D) :=
  match devs with
  | [] => None
  | (name, dev) :: rest =>
      if p name dev then Some (O, name, dev)
      else match first_device p rest with
           | Some (i, n, d) => Some (S i, n, d)
           | None => None
           end
  end.

Definition set_devices {D} (b : Bridge D) (devs : list (string * D)) : Bridge D :=
  {| pciBridgeState := pciBridgeState b;
     pciBridgeConfig := pciBridgeConfig b;
     connectedPCIDevices := devs |}.

Definition set_state {D} (b : Bridge D) (st : PCI_BRIDGE_STATE) : Bridge D :=
  {| pciBridgeState := st;
     pciBridgeConfig := pciBridgeConfig b;
     connectedPCIDevices := connectedPCIDevices b |}.

Definition set_config {D} (b : Bridge D) (cfg : list Z) : Bridge D :=
  {| pciBridgeState := pciBridgeState b;
     pciBridgeConfig := cfg;
     connectedPCIDevices := connectedPCIDevices b |}.

Section WithPriorities.

(** The numeric values of the [PRIO_*] macros are defined in a header
    that is not among the sources; they are a parameter here.  A C++
    [switch] needs its labels pairwise distinct, which is what the
    theorems assume of [prio_code]. *)
Variable prio_code : Prio -> Z.

(** [switch (prio)]: the label equal to [prio], if any. *)
Definition prio_case (prio : Z) : option Prio :=
  List.find (fun p => prio_code p =? prio) all_prios.

(** The body shared by the cases that consult a priority register. *)
Definition route_if_enabled (st : PCI_BRIDGE_STATE) (r : PrioRegName) (p : Prio)
  : list Event :=
  if intEnabled (prioReg st r)
  then [IIC_genInterrupt (prio_code p) (targetCPU (prioReg st r))]
  else [].

(** [bool PCIBridge::RouteInterrupt(u8 prio, u8 targetCPU)] *)
Definition RouteInterrupt (st : PCI_BRIDGE_STATE) (prio targetCPU : Z)
  : bool * list Event :=
  (false,
   match prio_case prio with
   | Some PRIO_CLOCK => route_if_enabled st PRIO_REG_CLCK PRIO_CLOCK
   | Some PRIO_SATA_ODD => route_if_enabled st PRIO_REG_ODD PRIO_SATA_ODD
   | Some PRIO_SATA_HDD => route_if_enabled st PRIO_REG_HDD PRIO_SATA_HDD
   | Some PRIO_SMM => route_if_enabled st PRIO_REG_SMM PRIO_SMM
   | Some PRIO_OHCI_0 => route_if_enabled st PRIO_REG_OHCI0 PRIO_OHCI_0
   | Some PRIO_OHCI_1 => route_if_enabled st PRIO_REG_OHCI1 PRIO_OHCI_1
   | Some PRIO_EHCI_0 => route_if_enabled st PRIO_REG_EHCI0 PRIO_EHCI_0
   | Some PRIO_EHCI_1 => route_if_enabled st PRIO_REG_EHCI1 PRIO_EHCI_1
   | Some PRIO_XMA => route_if_enabled st PRIO_REG_XMA PRIO_XMA
   | Some PRIO_AUDIO => route_if_enabled st PRIO_REG_AUDIO PRIO_AUDIO
   | Some PRIO_ENET => route_if_enabled st PRIO_REG_ENET PRIO_ENET
   | Some PRIO_GRAPHICS =>
       if negb (targetCPU =? 0xFF)
       then [IIC_genInterrupt (prio_code PRIO_GRAPHICS) targetCPU]
       else [LOG Log.Error "PCIBridge"
               "Routing GFX interrupt without target CPU index." []]
   | Some PRIO_XPS =>
       if negb (targetCPU =? 0xFF)
       then [IIC_genInterrupt (prio_code PRIO_XPS) targetCPU]
       else [LOG Log.Error "PCIBridge"
               "Routing GFX interrupt without target CPU index." []]
   | Some PRIO_SFCX => route_if_enabled st PRIO_REG_SFCX PRIO_SFCX
   | None =>
       [LOG Log.Error "PCIBridge" "Unknown interrupt being routed: 0x{:X}"
          [Log.Num prio]]
   end).

(** The [case] labels of [CancelInterrupt], in the order of the labels:
    there is none for [PRIO_XPS]. *)
Definition cancel_labels : list Prio :=
  [PRIO_CLOCK; PRIO_SATA_ODD; PRIO_SATA_HDD; PRIO_SMM;
   PRIO_OHCI_0; PRIO_OHCI_1; PRIO_EHCI_0; PRIO_EHCI_1;
   PRIO_XMA; PRIO_AUDIO; PRIO_ENET; PRIO_GRAPHICS; PRIO_SFCX].

Definition cancel_case (prio : Z) : option Prio :=
  List.find (fun p => prio_code p =? prio) cancel_labels.

Definition cancel_if_enabled (st : PCI_BRIDGE_STATE) (r : PrioRegName) (p : Prio)
  : list Event :=
  if intEnabled (prioReg st r)
  then [IIC_cancelInterrupt (prio_code p) (targetCPU (prioReg st r))]
  else [].

(** [void PCIBridge::CancelInterrupt(u8 prio)] *)
Definition CancelInterrupt (st : PCI_BRIDGE_STATE) (prio : Z) : list Event :=
  match cancel_case prio with
  | Some PRIO_CLOCK => cancel_if_enabled st PRIO_REG_CLCK PRIO_CLOCK
  | Some PRIO_SATA_ODD => cancel_if_enabled st PRIO_REG_ODD PRIO_SATA_ODD
  | Some PRIO_SATA_HDD => cancel_if_enabled st PRIO_REG_HDD PRIO_SATA_HDD
  | Some PRIO_SMM => cancel_if_enabled st PRIO_REG_SMM PRIO_SMM
  | Some PRIO_OHCI_0 => cancel_if_enabled st PRIO_REG_OHCI0 PRIO_OHCI_0
  | Some PRIO_OHCI_1 => cancel_if_enabled st PRIO_REG_OHCI1 PRIO_OHCI_1
  | Some PRIO_EHCI_0 => cancel_if_enabled st PRIO_REG_EHCI0 PRIO_EHCI_0
  | Some PRIO_EHCI_1 => cancel_if_enabled st PRIO_REG_EHCI1 PRIO_EHCI_1
  | Some PRIO_XMA => cancel_if_enabled st PRIO_REG_XMA PRIO_XMA
  | Some PRIO_AUDIO => cancel_if_enabled st PRIO_REG_AUDIO PRIO_AUDIO
  | Some PRIO_ENET => cancel_if_enabled st PRIO_REG_ENET PRIO_ENET
  | Some PRIO_GRAPHICS => cancel_if_enabled st PRIO_REG_GRAPHICS PRIO_GRAPHICS
  | Some PRIO_SFCX => cancel_if_enabled st PRIO_REG_SFCX PRIO_SFCX
  | Some PRIO_XPS | None =>
      [LOG Log.Error "PCIBridge" "Unknown interrupt being cancelled: 0x{:X}"
         [Log.Num prio]]
  end.

End WithPriorities.

Section WithDevices.

Context {D : Type} `{PCIDevice D}.

Definition in_own_window (address : Z) : bool :=
  (PCI_BRIDGE_BASE_ADDRESS <=? address) && (address <=? PCI_BRIDGE_BASE_END_ADDRESS).

(** [bool PCIBridge::Read(u64 readAddress, u8 *data, u64 size)].
    [data] is the destination buffer as the caller left it; the result
    carries the buffer after the call and the returned flag. *)
Definition Read (b : Bridge D) (readAddress : Z) (data : list Z) (size : nat)
  : option (Bridge D * list Z * bool * list Event) :=
  if in_own_window readAddress then
    match reg_at readAddress with
    | Some r =>
        data' ← memcpy data (le_bytes 4 (reg_word (pciBridgeState b) r)) size;
        Some (b, data', true, [])
    | None =>
        Some (b, data, true,
              [LOG Log.Error "PCIBridge" "Unknown reg being read: 0x{:X}"
                 [Log.Num readAddress]])
    end
  else
    match first_device (fun _ dev => dev_IsAddressMappedInBAR dev (u32 readAddress))
            (connectedPCIDevices b) with
    | Some (i, name, dev) =>
        '(dev', data', evs) ← dev_Read dev readAddress data size;
        Some (set_devices b (<[i := (name, dev')]> (connectedPCIDevices b)),
              data', true, evs)
    | None =>
        data' ← memset data 0xFF size;
        Some (b, data', false, [])
    end.

(** The store into one register of the own window: the raw word takes
    the first [min size 4] bytes of [data]; a priority register also
    has its fields re-derived. *)
Definition store_reg (st : PCI_BRIDGE_STATE) (r : BridgeReg) (data : list Z)
    (size : nat) (enabled latched : bool) (targetCPU cpuIRQ : Z)
  : option PCI_BRIDGE_STATE :=
  w ← memcpy (le_bytes 4 (reg_word st r)) data (Nat.min size 4);
  Some match r with
       | R_EA000000 =>
           {| REG_EA000000 := le_value w; REG_EA000004 := REG_EA000004 st;
              REG_EA00000C := REG_EA00000C st; prioReg := prioReg st |}
       | R_EA000004 =>
           {| REG_EA000000 := REG_EA000000 st; REG_EA000004 := le_value w;
              REG_EA00000C := REG_EA00000C st; prioReg := prioReg st |}
       | R_EA00000C =>
           {| REG_EA000000 := REG_EA000000 st; REG_EA000004 := REG_EA000004 st;
              REG_EA00000C := le_value w; prioReg := prioReg st |}
       | R_PRIO p =>
           set_prioReg st p
             {| hexData := le_value w; intEnabled := enabled; latched := latched;
                targetCPU := targetCPU; cpuIRQ := cpuIRQ |}
       end.

(** [bool PCIBridge::Write(u64 writeAddress, const u8 *data, u64 size)] *)
Definition Write (b : Bridge D) (writeAddress : Z) (data : list Z) (size : nat)
  : option (Bridge D * bool * list Event) :=
  tmpBytes ← memcpy (le_bytes 8 0) data (Nat.min size 8);
  let tmp := le_value tmpBytes in
  let enabled := to_bool (Z.shiftr (Z.land tmp 0x00800000) 20) in
  let latched := to_bool (Z.shiftr (Z.land tmp 0x00200000) 20) in
  let targetCPU := u8 (Z.shiftr (Z.land tmp 0x00003F00) 8) in
  let cpuIRQ := u8 (Z.shiftl (Z.land tmp 0x0000003F) 2) in
  if in_own_window writeAddress then
    match reg_at writeAddress with
    | Some r =>
        st' ← store_reg (pciBridgeState b) r data size enabled latched targetCPU cpuIRQ;
        Some (set_state b st', true, [])
    | None =>
        Some (b, true,
              [LOG Log.Error "PCIBridge" "Unknown reg being written: 0x{:X}, 0x{:X}"
                 [Log.Num writeAddress; Log.Num tmp]])
    end
  else
    match first_device (fun _ dev => dev_IsAddressMappedInBAR dev (u32 writeAddress))
            (connectedPCIDevices b) with
    | Some (i, name, dev) =>
        '(dev', evs) ← dev_Write dev writeAddress data size;
        Some (set_devices b (<[i := (name, dev')]> (connectedPCIDevices b)), true, evs)
    | None => Some (b, false, [])
    end.

(** [bool PCIBridge::ConfigRead(u64 readAddress, u8 *data, u64 size)] *)
Definition ConfigRead (b : Bridge D) (readAddress : Z) (data : list Z) (size : nat)
  : option (Bridge D * list Z * bool * list Event) :=
  let configAddr := u32 readAddress in
  if (busNum configAddr =? 0) && (devNum configAddr =? 0) then
    data' ← memcpy data (drop (Z.to_nat (regOffset configAddr)) (pciBridgeConfig b)) size;
    Some (b, data', true, [])
  else
    match currentDevName configAddr with
    | None =>
        Some (b, data, true,
              [LOG Log.Error "PCIBridge"
                 "Config Space Read: Unknown device accessed: Dev 0x{:X}, Reg 0x{:X}"
                 [Log.Num (devNum configAddr); Log.Num (regOffset configAddr)]])
    | Some devName =>
        match first_device (fun name _ => String.eqb name devName)
                (connectedPCIDevices b) with
        | Some (i, name, dev) =>
            '(dev', data', evs) ← dev_ConfigRead dev readAddress data size;
            Some (set_devices b (<[i := (name, dev')]> (connectedPCIDevices b)),
                  data', true,
                  LOG Log.Trace "PCIBridge" "Config read, device: {} offset = 0x{:X}"
                    [Log.Str name; Log.Num (regOffset configAddr)] :: evs)
        | None =>
            data' ← memset data 0xFF size;
            Some (b, data', false,
                  [LOG Log.Error "PCIBridge" "Read to unimplemented device: {}"
                     [Log.Str devName]])
        end
    end.

(** [bool PCIBridge::ConfigWrite(u64 writeAddress, const u8 *data, u64 size)] *)
Definition ConfigWrite (b : Bridge D) (writeAddress : Z) (data : list Z) (size : nat)
  : option (Bridge D * bool * list Event) :=
  let configAddr := u32 writeAddress in
  if (busNum configAddr =? 0) && (devNum configAddr =? 0) then
    cfg' ← memcpy_at (pciBridgeConfig b) (Z.to_nat (regOffset configAddr)) data size;
    Some (set_config b cfg', true, [])
  else
    match currentDevName configAddr with
    | None =>
        value ← memcpy (le_bytes 8 0) data size;
        Some (b, true,
              [LOG Log.Error "PCIBridge"
                 "Config Space Write: Unknown device accessed: Dev 0x{:X} Func 0x{:X}Reg 0x{:X} data = 0x{:X}"
                 [Log.Num (devNum configAddr); Log.Num (functNum configAddr);
                  Log.Num (regOffset configAddr); Log.Num (le_value value)]])
    | Some devName =>
        match first_device (fun name _ => String.eqb name devName)
                (connectedPCIDevices b) with
        | Some (i, name, dev) =>
            '(dev', evs) ← dev_ConfigWrite dev writeAddress data size;
            Some (set_devices b (<[i := (name, dev')]> (connectedPCIDevices b)), true,
                  LOG Log.Trace "PCIBridge" "Config write to '{}+0x{:X}'"
                    [Log.Str name; Log.Num (regOffset configAddr)] :: evs)
        | None =>
            Some (b, false,
                  [LOG Log.Error "PCIBridge" "Config write to unimplemented device '{}'"
                     [Log.Str devName]])
        end
    end.

End WithDevices.

(** The fields of a priority register as the bits of a 32-bit word
    [w]: [intEnabled] is bit 23, [latched] is bit 21, [targetCPU] is
    bits 8 to 13 and [cpuIRQ] is bits 0 to 5 shifted left by two. *)
Definition decoded (w : Z) : PRIO_REG :=
  {| hexData := w;
     intEnabled := Z.testbit w 23;
     latched := Z.testbit w 21;
     targetCPU := (w / 256) mod 64;
     cpuIRQ := 4 * (w mod 64) |}.

(** A store the guest performs through the bridge. *)
Inductive Store :=
| Store_Write (writeAddress : Z) (data : list Z) (size : nat)
| Store_MemSet (writeAddress data : Z) (size : nat).

Section WithMemSet.

Context {D : Type} `{PCIDevice D} `{PCIDevice_MemSet D}.

(** The [memset] into one register of the own window: the first
    [min size 4] bytes of the raw word are filled with [data]; a priority
    register also has its fields re-derived. *)
Definition fill_reg (st : PCI_BRIDGE_STATE) (r : BridgeReg) (data : Z)
    (size : nat) (enabled latched : bool) (targetCPU cpuIRQ : Z)
  : option PCI_BRIDGE_STATE :=
  w ← memset (le_bytes 4 (reg_word st r)) data (Nat.min size 4);
  Some match r with
       | R_EA000000 =>
           {| REG_EA000000 := le_value w; REG_EA000004 := REG_EA000004 st;
              REG_EA00000C := REG_EA00000C st; prioReg := prioReg st |}
       | R_EA000004 =>
           {| REG_EA000000 := REG_EA000000 st; REG_EA000004 := le_value w;
              REG_EA00000C := REG_EA00000C st; prioReg := prioReg st |}
       | R_EA00000C =>
           {| REG_EA000000 := REG_EA000000 st; REG_EA000004 := REG_EA000004 st;
              REG_EA00000C := le_value w; prioReg := prioReg st |}
       | R_PRIO p =>
           set_prioReg st p
             {| hexData := le_value w; intEnabled := enabled; latched := latched;
                targetCPU := targetCPU; cpuIRQ := cpuIRQ |}
       end.

(** [bool PCIBridge::MemSet(u64 writeAddress, s32 data, u64 size)] *)
Definition MemSet (b : Bridge D) (writeAddress data : Z) (size : nat)
  : option (Bridge D * bool * list Event) :=
  tmpBytes ← memset (le_bytes 8 0) data (Nat.min size 8);
  let tmp := le_value tmpBytes in
  let enabled := to_bool (Z.shiftr (Z.land tmp 0x00800000) 20) in
  let latched := to_bool (Z.shiftr (Z.land tmp 0x00200000) 20) in
  let targetCPU := u8 (Z.shiftr (Z.land tmp 0x00003F00) 8) in
  let cpuIRQ := u8 (Z.shiftl (Z.land tmp 0x0000003F) 2) in
  if in_own_window writeAddress then
    match reg_at writeAddress with
    | Some r =>
        st' ← fill_reg (pciBridgeState b) r data size enabled latched targetCPU cpuIRQ;
        Some (set_state b st', true, [])
    | None =>
        Some (b, true,
              [LOG Log.Error "PCIBridge" "Unknown reg being written: 0x{:X}, 0x{:X}"
                 [Log.Num writeAddress; Log.Num tmp]])
    end
  else
    match first_device (fun _ dev => dev_IsAddressMappedInBAR dev (u32 writeAddress))
            (connectedPCIDevices b) with
    | Some (i, name, dev) =>
        '(dev', evs) ← dev_MemSet dev writeAddress data size;
        Some (set_devices b (<[i := (name, dev')]> (connectedPCIDevices b)), true, evs)
    | None => Some (b, false, [])
    end.

(** The stores of a list performed in turn: the bridge after the last. *)
Fixpoint stores (b : Bridge D) (l : list Store) : option (Bridge D) :=
  match l with
  | [] => Some b
  | Store_Write address data size :: rest =>
      '(b', _, _) ← Write b address data size; stores b' rest
  | Store_MemSet address data size :: rest =>
      '(b', _, _) ← MemSet b address data size; stores b' rest
  end.

End WithMemSet.

(** The priority register that belongs to each wired source.  The
    source shows no register for [PRIO_XPS]; [CancelInterrupt] reads
    [PRIO_REG_GRAPHICS] for [PRIO_GRAPHICS]. *)
Definition source_reg (p : Prio) : option PrioRegName :=
  match p with
  | PRIO_CLOCK => Some PRIO_REG_CLCK
  | PRIO_SATA_ODD => Some PRIO_REG_ODD
  | PRIO_SATA_HDD => Some PRIO_REG_HDD
  | PRIO_SMM => Some PRIO_REG_SMM
  | PRIO_OHCI_0 => Some PRIO_REG_OHCI0
  | PRIO_OHCI_1 => Some PRIO_REG_OHCI1
  | PRIO_EHCI_0 => Some PRIO_REG_EHCI0
  | PRIO_EHCI_1 => Some PRIO_REG_EHCI1
  | PRIO_XMA => Some PRIO_REG_XMA
  | PRIO_AUDIO => Some PRIO_REG_AUDIO
  | PRIO_ENET => Some PRIO_REG_ENET
  | PRIO_GRAPHICS => Some PRIO_REG_GRAPHICS
  | PRIO_XPS => None
  | PRIO_SFCX => Some PRIO_REG_SFCX
  end.

(** "The source's [intEnabled] bit is 0": every register that belongs
    to the source has the bit clear. *)
Definition source_disabled (st : PCI_BRIDGE_STATE) (p : Prio) : Prop :=
  forall r, source_reg p = Some r -> intEnabled (prioReg st r) = false.

Definition is_graphics (p : Prio) : bool :=
  match p with PRIO_GRAPHICS | PRIO_XPS => true | _ => false end.

End PCIBridge.

(** ** A state-and-trace monad with faults

    [M S A]: a computation over a state [S] that may fault (an access
    outside an object), and otherwise returns a result, the new state
    and the events it produced. *)

Module Prog.

Definition M (S A : Type) : Type := S -> option (A * S * list Event).

Definition ret {S A} (a : A) : M S A := fun s => Some (a, s, []).

Definition bind {S A B} (m : M S A) (k : A -> M S B) : M S B :=
  fun s =>
    match m s with
    | None => None
    | Some (a, s1, e1) =>
        match k a s1 with
        | None => None
        | Some (b, s2, e2) => Some (b, s2, e1 ++ e2)
        end
    end.

Definition get {S} : M S S := fun s => Some (s, s, []).
Definition put {S} (s : S) : M S unit := fun _ => Some (tt, s, []).
Definition modify {S} (f : S -> S) : M S unit := fun s => Some (tt, f s, []).
Definition emit {S} (e : Event) : M S unit := fun s => Some (tt, s, [e]).
Definition fault {S A} : M S A := fun _ => None.

Definition lift {S A} (o : option A) : M S A :=
  match o with
  | Some a => ret a
  | None => fault
  end.

End Prog.

Declare Scope prog_scope.
Delimit Scope prog_scope with prog.
Notation "x <- c ;; k" := (Prog.bind c (fun x => k))
  (at level 100, c at next level, right associativity) : prog_scope.
Notation "c ;;; k" := (Prog.bind c (fun _ => k))
  (at level 100, right associativity) : prog_scope.

(** ** Core/PCI/Devices/SMC/SMC.cpp *)

(** The UART backend behind [smcCoreState.uartHandle]. *)
Inductive UartInit :=
| Init_null
| Init_sock (ip : string) (port : Z) (usePrint : bool)
| Init_vcom (selectedComPort : string) (config : Z).

Class HW_UART (U : Type) := {
  uart_Read : U -> U * Z * bool;
  uart_Write : U -> Z -> U;
  uart_ReadStatus : U -> U * Z;
  uart_SetupNeeded : U -> bool;
  uart_Init : U -> UartInit -> U
}.

Module SMC.

Import Types Mem Prog.
Local Open Scope prog_scope.

(** Register offsets *)
Definition UART_BYTE_OUT_REG : Z := 0x10.
Definition UART_BYTE_IN_REG : Z := 0x14.
Definition UART_STATUS_REG : Z := 0x18.
Definition UART_CONFIG_REG : Z := 0x1C.
Definition SMI_INT_STATUS_REG : Z := 0x50.
Definition SMI_INT_ACK_REG : Z := 0x58.
Definition SMI_INT_ENABLED_REG : Z := 0x5C.
Definition CLCK_INT_ENABLED_REG : Z := 0x64.
Definition CLCK_INT_STATUS_REG : Z := 0x6C.
Definition FIFO_IN_DATA_REG : Z := 0x80.
Definition FIFO_IN_STATUS_REG : Z := 0x84.
Definition FIFO_OUT_DATA_REG : Z := 0x90.
Definition FIFO_OUT_STATUS_REG : Z := 0x94.

(** FIFO, SMI and clock definitions *)
Definition FIFO_STATUS_READY : Z := 0x4.
Definition FIFO_STATUS_BUSY : Z := 0x0.
Definition SMI_INT_ENABLED : Z := 0xC.
Definition SMI_INT_NONE : Z := 0x0.
Definition SMI_INT_PENDING : Z := 0x10000000.
Definition CLCK_INT_ENABLED : Z := 0x10000000.
Definition CLCK_INT_READY : Z := 0x1.
Definition CLCK_INT_TAKEN : Z := 0x3.

(** The command identifiers named by the [case] labels of the FIFO
    dispatch, in the order of the labels. *)
Inductive SMC_FIFO_CMD :=
| SMC_PWRON_TYPE | SMC_QUERY_RTC | SMC_QUERY_TEMP_SENS | SMC_QUERY_TRAY_STATE
| SMC_QUERY_AVPACK | SMC_I2C_READ_WRITE | SMC_QUERY_VERSION | SMC_FIFO_TEST
| SMC_QUERY_IR_ADDRESS | SMC_QUERY_TILT_SENSOR | SMC_READ_82_INT | SMC_READ_8E_INT
| SMC_SET_STANDBY | SMC_SET_TIME | SMC_SET_FAN_ALGORITHM | SMC_SET_FAN_SPEED_CPU
| SMC_SET_DVD_TRAY | SMC_SET_POWER_LED | SMC_SET_AUDIO_MUTE | SMC_ARGON_RELATED
| SMC_SET_FAN_SPEED_GPU | SMC_SET_IR_ADDRESS | SMC_SET_DVD_TRAY_SECURE
| SMC_SET_FP_LEDS | SMC_SET_RTC_WAKE | SMC_ANA_RELATED | SMC_SET_ASYNC_OPERATION
| SMC_SET_82_INT | SMC_SET_9F_INT.

Definition all_cmds : list SMC_FIFO_CMD :=
  [SMC_PWRON_TYPE; SMC_QUERY_RTC; SMC_QUERY_TEMP_SENS; SMC_QUERY_TRAY_STATE;
   SMC_QUERY_AVPACK; SMC_I2C_READ_WRITE; SMC_QUERY_VERSION; SMC_FIFO_TEST;
   SMC_QUERY_IR_ADDRESS; SMC_QUERY_TILT_SENSOR; SMC_READ_82_INT; SMC_READ_8E_INT;
   SMC_SET_STANDBY; SMC_SET_TIME; SMC_SET_FAN_ALGORITHM; SMC_SET_FAN_SPEED_CPU;
   SMC_SET_DVD_TRAY; SMC_SET_POWER_LED; SMC_SET_AUDIO_MUTE; SMC_ARGON_RELATED;
   SMC_SET_FAN_SPEED_GPU; SMC_SET_IR_ADDRESS; SMC_SET_DVD_TRAY_SECURE;
   SMC_SET_FP_LEDS; SMC_SET_RTC_WAKE; SMC_ANA_RELATED; SMC_SET_ASYNC_OPERATION;
   SMC_SET_82_INT; SMC_SET_9F_INT].

(** The text the unimplemented commands log. *)
Definition cmd_name (c : SMC_FIFO_CMD) : string :=
  match c with
  | SMC_PWRON_TYPE => "SMC_PWRON_TYPE" | SMC_QUERY_RTC => "SMC_QUERY_RTC"
  | SMC_QUERY_TEMP_SENS => "SMC_QUERY_TEMP_SENS"
  | SMC_QUERY_TRAY_STATE => "SMC_QUERY_TRAY_STATE"
  | SMC_QUERY_AVPACK => "SMC_QUERY_AVPACK"
  | SMC_I2C_READ_WRITE => "SMC_I2C_READ_WRITE"
  | SMC_QUERY_VERSION => "SMC_QUERY_VERSION" | SMC_FIFO_TEST => "SMC_FIFO_TEST"
  | SMC_QUERY_IR_ADDRESS => "SMC_QUERY_IR_ADDRESS"
  | SMC_QUERY_TILT_SENSOR => "SMC_QUERY_TILT_SENSOR"
  | SMC_READ_82_INT => "SMC_READ_82_INT" | SMC_READ_8E_INT => "SMC_READ_8E_INT"
  | SMC_SET_STANDBY => "SMC_SET_STANDBY" | SMC_SET_TIME => "SMC_SET_TIME"
  | SMC_SET_FAN_ALGORITHM => "SMC_SET_FAN_ALGORITHM"
  | SMC_SET_FAN_SPEED_CPU => "SMC_SET_FAN_SPEED_CPU"
  | SMC_SET_DVD_TRAY => "SMC_SET_DVD_TRAY" | SMC_SET_POWER_LED => "SMC_SET_POWER_LED"
  | SMC_SET_AUDIO_MUTE => "SMC_SET_AUDIO_MUTE"
  | SMC_ARGON_RELATED => "SMC_ARGON_RELATED"
  | SMC_SET_FAN_SPEED_GPU => "SMC_SET_FAN_SPEED_GPU"
  | SMC_SET_IR_ADDRESS => "SMC_SET_IR_ADDRESS"
  | SMC_SET_DVD_TRAY_SECURE => "SMC_SET_DVD_TRAY_SECURE"
  | SMC_SET_FP_LEDS => "SMC_SET_FP_LEDS" | SMC_SET_RTC_WAKE => "SMC_SET_RTC_WAKE"
  | SMC_ANA_RELATED => "SMC_ANA_RELATED"
  | SMC_SET_ASYNC_OPERATION => "SMC_SET_ASYNC_OPERATION"
  | SMC_SET_82_INT => "SMC_SET_82_INT" | SMC_SET_9F_INT => "SMC_SET_9F_INT"
  end.

(** The UART back ends [Config::smc.uartSystem] can name; [uart_other]
    is any other string. *)
Inductive UARTSystem := uart_null | uart_print | uart_socket | uart_vcom | uart_other.

(** The part of [smcCoreState] fixed at construction, and whether the
    build defines [_WIN32]. *)
Record SMC_CONFIG := {
  currentUARTSystem : UARTSystem;
  currentCOMPort : string;
  socketIp : string;
  socketPort : Z;
  currAVPackType : Z;
  currPowerOnReason : Z;
  currTrayState : Z;
  win32 : bool
}.

(** The device object.  [hanaState] is the register image the thread
    selected at start-up; [pciDevSizes] and [pciConfigSpace] are the
    members inherited from [PCIDevice] ([pciDevSizes] has the length its
    declaration gives it; an index past it has no defined result).
    [fifoBufferPos] is the cursor
    into [fifoDataBuffer]: it is advanced by 4 without a wrap, since in
    a run without fault it never exceeds 20 (an access with the cursor
    past the buffer has no defined result), whatever width SMC.h gives
    it.

    Modelled from the spec: the members of [smcPCIState] are 32-bit
    words and [fifoDataBuffer] is 16 bytes long (SMC.h is not among the
    sources; the source clears the buffer with [memset(.., 0, 16)]). *)
Record State (U : Type) := {
  config : SMC_CONFIG;
  smcPCIState : SMCReg -> Z;
  fifoDataBuffer : list Z;
  fifoBufferPos : Z;
  uartHandle : U;
  pciConfigSpace : list Z;
  pciDevSizes : list Z;
  hanaState : list Z
}.
Arguments config {U} _.
Arguments smcPCIState {U} _ _.
Arguments fifoDataBuffer {U} _.
Arguments fifoBufferPos {U} _.
Arguments uartHandle {U} _.
Arguments pciConfigSpace {U} _.
Arguments pciDevSizes {U} _.
Arguments hanaState {U} _.

Definition SMCReg_eqb (a b : SMCReg) : bool :=
  match a, b with
  | uartOutReg, uartOutReg | uartInReg, uartInReg
  | uartStatusReg, uartStatusReg | uartConfigReg, uartConfigReg
  | smiIntPendingReg, smiIntPendingReg | smiIntAckReg, smiIntAckReg
  | smiIntEnabledReg, smiIntEnabledReg
  | clockIntEnabledReg, clockIntEnabledReg | clockIntStatusReg, clockIntStatusReg
  | fifoInStatusReg, fifoInStatusReg | fifoOutStatusReg, fifoOutStatusReg => true
  | _, _ => false
  end.

Section Setters.
Context {U : Type}.

Definition set_reg (s : State U) (r : SMCReg) (v : Z) : State U :=
  {| config := config s;
     smcPCIState := fun r' => if SMCReg_eqb r r' then v else smcPCIState s r';
     fifoDataBuffer := fifoDataBuffer s; fifoBufferPos := fifoBufferPos s;
     uartHandle := uartHandle s; pciConfigSpace := pciConfigSpace s;
     pciDevSizes := pciDevSizes s; hanaState := hanaState s |}.

Definition set_fifo (s : State U) (buf : list Z) : State U :=
  {| config := config s; smcPCIState := smcPCIState s;
     fifoDataBuffer := buf; fifoBufferPos := fifoBufferPos s;
     uartHandle := uartHandle s; pciConfigSpace := pciConfigSpace s;
     pciDevSizes := pciDevSizes s; hanaState := hanaState s |}.

Definition set_pos (s : State U) (pos : Z) : State U :=
  {| config := config s; smcPCIState := smcPCIState s;
     fifoDataBuffer := fifoDataBuffer s; fifoBufferPos := pos;
     uartHandle := uartHandle s; pciConfigSpace := pciConfigSpace s;
     pciDevSizes := pciDevSizes s; hanaState := hanaState s |}.

Definition set_uart (s : State U) (h : U) : State U :=
  {| config := config s; smcPCIState := smcPCIState s;
     fifoDataBuffer := fifoDataBuffer s; fifoBufferPos := fifoBufferPos s;
     uartHandle := h; pciConfigSpace := pciConfigSpace s;
     pciDevSizes := pciDevSizes s; hanaState := hanaState s |}.

Definition set_configSpace (s : State U) (cfg : list Z) : State U :=
  {| config := config s; smcPCIState := smcPCIState s;
     fifoDataBuffer := fifoDataBuffer s; fifoBufferPos := fifoBufferPos s;
     uartHandle := uartHandle s; pciConfigSpace := cfg;
     pciDevSizes := pciDevSizes s; hanaState := hanaState s |}.

Definition set_hana (s : State U) (h : list Z) : State U :=
  {| config := config s; smcPCIState := smcPCIState s;
     fifoDataBuffer := fifoDataBuffer s; fifoBufferPos := fifoBufferPos s;
     uartHandle := uartHandle s; pciConfigSpace := pciConfigSpace s;
     pciDevSizes := pciDevSizes s; hanaState := h |}.

End Setters.

(** The [case] labels of the register switch in [Read] and in [Write]:
    every other offset takes the [default] label. *)
Definition read_labels : list Z :=
  [UART_BYTE_OUT_REG; UART_STATUS_REG; UART_CONFIG_REG; SMI_INT_STATUS_REG;
   SMI_INT_ACK_REG; SMI_INT_ENABLED_REG; FIFO_IN_STATUS_REG; FIFO_OUT_STATUS_REG;
   FIFO_OUT_DATA_REG].

Definition write_labels : list Z :=
  [UART_BYTE_IN_REG; UART_CONFIG_REG; SMI_INT_STATUS_REG; SMI_INT_ACK_REG;
   SMI_INT_ENABLED_REG; CLCK_INT_ENABLED_REG; CLCK_INT_STATUS_REG;
   FIFO_IN_STATUS_REG; FIFO_OUT_STATUS_REG; FIFO_IN_DATA_REG].

(** The registers that both [Read] and [Write] copy, with their offsets. *)
Definition read_write_registers : list (Z * SMCReg) :=
  [(UART_CONFIG_REG, uartConfigReg); (SMI_INT_STATUS_REG, smiIntPendingReg);
   (SMI_INT_ACK_REG, smiIntAckReg); (SMI_INT_ENABLED_REG, smiIntEnabledReg);
   (FIFO_IN_STATUS_REG, fifoInStatusReg); (FIFO_OUT_STATUS_REG, fifoOutStatusReg)].

(** The registers that [Write] copies and [Read] has no case for. *)
Definition write_only_registers : list (Z * SMCReg) :=
  [(CLCK_INT_ENABLED_REG, clockIntEnabledReg); (CLCK_INT_STATUS_REG, clockIntStatusReg)].

(** The loop of the BAR size discovery in [ConfigWrite]:
    [for (int idx = 2; idx < 31; idx++) { tmp &= ~x; x <<= 1;
       if (x >= pciDevSizes[regOffset]) break; }]
    with [rounds] the iterations that are left; [tmp] and [x] are [u64]. *)
Fixpoint bar_loop (rounds : nat) (tmp x devSize : Z) : Z :=
  match rounds with
  | O => tmp
  | S k =>
      let tmp := Z.land tmp (u64 (Z.lnot x)) in
      let x := u64 (Z.shiftl x 1) in
      if x >=? devSize then tmp else bar_loop k tmp x devSize
  end.

(** The word with bits [1 .. j-1] of [0xFFFFFFFF] cleared: the value of
    [tmp] when the loop's [x] is [2^j]. *)
Definition cleared_below (j : Z) : Z := 2 ^ 32 + 1 - 2 ^ j.

(** The value stored for a BAR on the write of [0xFFFFFFFF]. *)
Definition bar_size_discovery (tmp devSize : Z) : Z :=
  Z.land (bar_loop 29 tmp 2 devSize) (u64 (Z.lnot 0x3)).

(** The word [ConfigWrite] stores for a write of [tmp] to a BAR whose
    [pciDevSizes] entry is [devSize]: the two nested [if]s of the source. *)
Definition bar_store (devSize tmp : Z) : Z :=
  if negb (devSize =? 0)
  then if tmp =? 0xFFFFFFFF then bar_size_discovery tmp devSize else tmp
  else tmp.

(** [Config::eConsoleRevision], with the enumerators the switches name. *)
Inductive eConsoleRevision :=
| Xenon | Zephyr | Falcon | Jasper | Trinity | Corona | Corona4GB | Winchester.

(** [reinterpret_cast<u8*>(words)[i] = v] on an array of [u32]: byte
    [i mod 4] of the little-endian image of word [i / 4]. *)
Definition store_u8 (words : list Z) (i : nat) (v : Z) : option (list Z) :=
  w ← words !! (i / 4)%nat;
  Some (<[(i / 4)%nat := le_value (<[(i mod 4)%nat := u8 v]> (le_bytes 4 w))]> words).

(** The start of [smcMainThread]: the HANA image for the console
    revision.  [FAT_HANA_State] and [HANA_State] are the tables of
    HANA_State.h, which is not among the sources; they are parameters. *)
Definition select_hana (rev : eConsoleRevision) (FAT_HANA_State HANA_State : list Z)
  : option (list Z) :=
  let hanaState :=
    match rev with
    | Xenon | Zephyr | Falcon | Jasper => FAT_HANA_State
    | Trinity | Corona | Corona4GB | Winchester => HANA_State
    end in
  match rev with
  | Xenon => store_u8 hanaState 0xFE 0x01
  | Zephyr => Some hanaState
  | Falcon => store_u8 hanaState 0xFE 0x21
  | Jasper => store_u8 hanaState 0xFE 0x21
  | Trinity => store_u8 hanaState 0xFE 0x23
  | Corona4GB | Corona => store_u8 hanaState 0xFE 0x23
  | Winchester => store_u8 hanaState 0xFE 0x23
  end.

(** The byte the second switch stores for each revision, if any. *)
Definition revision_byte (rev : eConsoleRevision) : option Z :=
  match rev with
  | Xenon => Some 0x01
  | Zephyr => None
  | Falcon | Jasper => Some 0x21
  | Trinity | Corona | Corona4GB | Winchester => Some 0x23
  end.

(** The table the first switch selects. *)
Definition is_fat (rev : eConsoleRevision) : bool :=
  match rev with
  | Xenon | Zephyr | Falcon | Jasper => true
  | Trinity | Corona | Corona4GB | Winchester => false
  end.

Section WithBackend.

Context {U : Type} `{HW_UART U}.

(** The numeric values of the [SMC_FIFO_CMD] enumerators are declared in
    SMC.h, which is not among the sources; they are a parameter.  The
    labels of a C++ [switch] are pairwise distinct, which is what the
    theorems assume of [cmd_code]. *)
Variable cmd_code : SMC_FIFO_CMD -> Z.

Local Abbreviation SMCProg := (M (State U)).

Definition log (lvl : Log.Level) (cls fmt : string) (args : list Log.Arg) : SMCProg unit :=
  emit (LOG lvl cls fmt args).

(** [memcpy(data, &smcPCIState.r, size)] *)
Definition copy_from_reg (r : SMCReg) (data : list Z) (size : nat) : SMCProg (list Z) :=
  s <- get ;;
  lift (memcpy data (le_bytes 4 (smcPCIState s r)) size).

(** [memcpy(&smcPCIState.r, data, size)] *)
Definition copy_to_reg (r : SMCReg) (data : list Z) (size : nat) : SMCProg unit :=
  s <- get ;;
  w <- lift (memcpy (le_bytes 4 (smcPCIState s r)) data size) ;;
  put (set_reg s r (le_value w)).

(** [&smcCoreState.fifoDataBuffer[pos]]: the bytes of the buffer from
    the cursor on; there is none when the cursor is past the end. *)
Definition buffer_from (buf : list Z) (pos : Z) : option (list Z) :=
  if (0 <=? pos) && (pos <=? Z.of_nat (length buf))
  then Some (drop (Z.to_nat pos) buf)
  else None.

(** [void SMC::setupUART(u32 uartConfig)] *)
Definition setupUART (uartConfig : Z) : SMCProg unit :=
  log Log.Info "UART" "Initializing..." [] ;;;
  s <- get ;;
  let c := config s in
  let sock usePrint := Init_sock (socketIp c) (socketPort c) usePrint in
  match currentUARTSystem c, win32 c with
  | uart_null, _ => put (set_uart s (uart_Init (uartHandle s) Init_null))
  | uart_print, _ => put (set_uart s (uart_Init (uartHandle s) (sock true)))
  | uart_socket, _ => put (set_uart s (uart_Init (uartHandle s) (sock false)))
  | uart_vcom, true =>
      put (set_uart s (uart_Init (uartHandle s)
                         (Init_vcom (currentCOMPort c) (u32 uartConfig))))
  | _, _ =>
      log Log.Critical "UART" "Invalid UART type! Defaulting to null." [] ;;;
      put (set_uart s (uart_Init (uartHandle s) Init_null))
  end.

(** [void SMC::Read(u64 readAddress, u8 *data, u64 size)]; the result is
    the destination buffer after the call. *)
Definition Read (readAddress : Z) (data : list Z) (size : nat) : SMCProg (list Z) :=
  let regOffset := u8 readAddress in
  if regOffset =? UART_BYTE_OUT_REG then
    s <- get ;;
    let '(h, byte, retVal) := uart_Read (uartHandle s) in
    put (set_reg (set_uart s h) uartOutReg (u32 byte)) ;;;
    if retVal then copy_from_reg uartOutReg data size else ret data
  else if regOffset =? UART_STATUS_REG then
    s <- get ;;
    let '(h, status) := uart_ReadStatus (uartHandle s) in
    put (set_reg (set_uart s h) uartStatusReg (u32 status)) ;;;
    s <- get ;;
    (if uart_SetupNeeded (uartHandle s) then setupUART 0x1E6 else ret tt) ;;;
    copy_from_reg uartStatusReg data size
  else if regOffset =? UART_CONFIG_REG then copy_from_reg uartConfigReg data size
  else if regOffset =? SMI_INT_STATUS_REG then copy_from_reg smiIntPendingReg data size
  else if regOffset =? SMI_INT_ACK_REG then copy_from_reg smiIntAckReg data size
  else if regOffset =? SMI_INT_ENABLED_REG then copy_from_reg smiIntEnabledReg data size
  else if regOffset =? FIFO_IN_STATUS_REG then copy_from_reg fifoInStatusReg data size
  else if regOffset =? FIFO_OUT_STATUS_REG then copy_from_reg fifoOutStatusReg data size
  else if regOffset =? FIFO_OUT_DATA_REG then
    s <- get ;;
    src <- lift (buffer_from (fifoDataBuffer s) (fifoBufferPos s)) ;;
    data' <- lift (memcpy data src size) ;;
    put (set_pos s (fifoBufferPos s + 4)) ;;;
    ret data'
  else
    log Log.Error "SMC" "Unknown register being read, offset 0x{:X}"
      [Log.Num regOffset] ;;;
    ret data.

(** [void SMC::ConfigRead(u64 readAddress, u8 *data, u64 size)] *)
Definition ConfigRead (readAddress : Z) (data : list Z) (size : nat) : SMCProg (list Z) :=
  log Log.Info "SMC" "ConfigRead: Address = 0x{:X}, size = 0x{:X}."
    [Log.Num readAddress; Log.Num (Z.of_nat size)] ;;;
  s <- get ;;
  lift (memcpy data (drop (Z.to_nat (u8 readAddress)) (pciConfigSpace s)) size).

(** [void SMC::Write(u64 writeAddress, const u8 *data, u64 size)] *)
Definition Write (writeAddress : Z) (data : list Z) (size : nat) : SMCProg unit :=
  let regOffset := u8 writeAddress in
  if regOffset =? UART_BYTE_IN_REG then
    copy_to_reg uartInReg data size ;;;
    first <- lift (data !! O) ;;
    s <- get ;;
    put (set_uart s (uart_Write (uartHandle s) first))
  else if regOffset =? UART_CONFIG_REG then
    copy_to_reg uartConfigReg data size ;;;
    s <- get ;;
    if uart_SetupNeeded (uartHandle s) then
      tmp <- lift (memcpy (le_bytes 8 0) data size) ;;
      setupUART (le_value tmp)
    else ret tt
  else if regOffset =? SMI_INT_STATUS_REG then copy_to_reg smiIntPendingReg data size
  else if regOffset =? SMI_INT_ACK_REG then copy_to_reg smiIntAckReg data size
  else if regOffset =? SMI_INT_ENABLED_REG then copy_to_reg smiIntEnabledReg data size
  else if regOffset =? CLCK_INT_ENABLED_REG then copy_to_reg clockIntEnabledReg data size
  else if regOffset =? CLCK_INT_STATUS_REG then copy_to_reg clockIntStatusReg data size
  else if regOffset =? FIFO_IN_STATUS_REG then
    copy_to_reg fifoInStatusReg data size ;;;
    s <- get ;;
    if smcPCIState s fifoInStatusReg =? FIFO_STATUS_READY then
      buf <- lift (memset (fifoDataBuffer s) 0 16) ;;
      put (set_pos (set_fifo s buf) 0)
    else ret tt
  else if regOffset =? FIFO_OUT_STATUS_REG then
    copy_to_reg fifoOutStatusReg data size ;;;
    s <- get ;;
    if smcPCIState s fifoOutStatusReg =? FIFO_STATUS_READY then
      put (set_pos s 0)
    else ret tt
  else if regOffset =? FIFO_IN_DATA_REG then
    s <- get ;;
    dest <- lift (buffer_from (fifoDataBuffer s) (fifoBufferPos s)) ;;
    dest' <- lift (memcpy dest data size) ;;
    put (set_pos
           (set_fifo s (take (Z.to_nat (fifoBufferPos s)) (fifoDataBuffer s) ++ dest'))
           (fifoBufferPos s + 4))
  else
    tmp <- lift (memcpy (le_bytes 8 0) data size) ;;
    log Log.Error "SMC" "Unknown register being written, offset 0x{:X}, data 0x{:X}"
      [Log.Num regOffset; Log.Num (le_value tmp)].

(** [void SMC::ConfigWrite(u64 writeAddress, const u8 *data, u64 size)] *)
Definition ConfigWrite (writeAddress : Z) (data : list Z) (size : nat) : SMCProg unit :=
  tmpBytes <- lift (memcpy (le_bytes 8 0) data size) ;;
  let tmp := le_value tmpBytes in
  log Log.Debug "SMC" "ConfigWrite: Address = 0x{:X}, Data = 0x{:X}, size = 0x{:X}."
    [Log.Num writeAddress; Log.Num tmp; Log.Num (Z.of_nat size)] ;;;
  let off := u8 writeAddress in
  s <- get ;;
  tmp <- (if (off >=? 0x10) && (off <? 0x34) then
            let regOffset := Z.shiftr (off - 0x10) 2 in
            devSize <- lift (pciDevSizes s !! Z.to_nat regOffset) ;;
            let tmp := bar_store devSize tmp in
            ret (if off =? 0x30 then 0 else tmp)
          else ret tmp) ;;
  cfg <- lift (memcpy_at (pciConfigSpace s) (Z.to_nat off) (le_bytes 8 tmp) size) ;;
  put (set_configSpace s cfg).

(** [memset(&smcPCIState.r, data, size)] *)
Definition fill_reg (r : SMCReg) (data : Z) (size : nat) : SMCProg unit :=
  s <- get ;;
  w <- lift (memset (le_bytes 4 (smcPCIState s r)) data size) ;;
  put (set_reg s r (le_value w)).

(** [void SMC::MemSet(u64 writeAddress, s32 data, u64 size)] *)
Definition MemSet (writeAddress data : Z) (size : nat) : SMCProg unit :=
  let regOffset := u8 writeAddress in
  if regOffset =? UART_CONFIG_REG then fill_reg uartConfigReg data size
  else if regOffset =? UART_BYTE_IN_REG then fill_reg uartInReg data size
  else if regOffset =? SMI_INT_STATUS_REG then fill_reg smiIntPendingReg data size
  else if regOffset =? SMI_INT_ACK_REG then fill_reg smiIntAckReg data size
  else if regOffset =? SMI_INT_ENABLED_REG then fill_reg smiIntEnabledReg data size
  else if regOffset =? CLCK_INT_ENABLED_REG then fill_reg clockIntEnabledReg data size
  else if regOffset =? CLCK_INT_STATUS_REG then fill_reg clockIntStatusReg data size
  else if regOffset =? FIFO_IN_STATUS_REG then
    fill_reg fifoInStatusReg data size ;;;
    s <- get ;;
    if smcPCIState s fifoInStatusReg =? FIFO_STATUS_READY then
      buf <- lift (memset (fifoDataBuffer s) 0 16) ;;
      put (set_pos (set_fifo s buf) 0)
    else ret tt
  else if regOffset =? FIFO_OUT_STATUS_REG then
    fill_reg fifoOutStatusReg data size ;;;
    s <- get ;;
    if smcPCIState s fifoOutStatusReg =? FIFO_STATUS_READY then
      put (set_pos s 0)
    else ret tt
  else if regOffset =? FIFO_IN_DATA_REG then
    s <- get ;;
    dest <- lift (buffer_from (fifoDataBuffer s) (fifoBufferPos s)) ;;
    dest' <- lift (memset dest data size) ;;
    put (set_pos
           (set_fifo s (take (Z.to_nat (fifoBufferPos s)) (fifoDataBuffer s) ++ dest'))
           (fifoBufferPos s + 4))
  else
    tmp <- lift (memset (le_bytes 8 0) data size) ;;
    log Log.Error "SMC" "Unknown register being written, offset 0x{:X}, data 0x{:X}"
      [Log.Num regOffset; Log.Num (le_value tmp)].

(** *** The FIFO command processing of [smcMainThread] *)

(** [smcCoreState.fifoDataBuffer[i]] as an rvalue and as an lvalue. *)
Definition byte_at (i : nat) : SMCProg Z :=
  s <- get ;;
  lift (fifoDataBuffer s !! i).

Definition set_byte (i : nat) (v : Z) : SMCProg unit :=
  s <- get ;;
  if (i <? length (fifoDataBuffer s))%nat
  then put (set_fifo s (<[i := u8 v]> (fifoDataBuffer s)))
  else fault.

(** [hanaState[i]] as an rvalue and as an lvalue; the elements are [u32]. *)
Definition hana_at (i : Z) : SMCProg Z :=
  s <- get ;;
  lift (hanaState s !! Z.to_nat i).

Definition set_hana_at (i v : Z) : SMCProg unit :=
  s <- get ;;
  if (Z.to_nat i <? length (hanaState s))%nat
  then put (set_hana s (<[Z.to_nat i := u32 v]> (hanaState s)))
  else fault.

(** [hanaState[smcCoreState.fifoDataBuffer[6]]] *)
Definition hana_at_byte6 : SMCProg Z :=
  i <- byte_at 6 ;;
  hana_at i.

(** [memset(&smcCoreState.fifoDataBuffer, 0, 16)] *)
Definition zero_buffer : SMCProg unit :=
  s <- get ;;
  buf <- lift (memset (fifoDataBuffer s) 0 16) ;;
  put (set_fifo s buf).

(** [smcPCIState.r = v] in the thread. *)
Definition store (r : SMCReg) (v : Z) : SMCProg unit :=
  modify (fun s => set_reg s r v) ;;;
  emit (SMC_REG_STORE r v).

(** [switch (smcCoreState.fifoDataBuffer[0])]: the label equal to the
    byte, if any. *)
Definition cmd_case (id : Z) : option SMC_FIFO_CMD :=
  List.find (fun c => cmd_code c =? id) all_cmds.

(** [fifoDataBuffer[6] + (fifoDataBuffer[3] == 0x8D ? 0x200 : 0x100)] *)
Definition i2c_address : SMCProg Z :=
  b6 <- byte_at 6 ;;
  b3 <- byte_at 3 ;;
  ret (b6 + (if b3 =? 0x8D then 0x200 else 0x100)).

(** [case SMC_I2C_READ_WRITE: switch (fifoDataBuffer[1])] *)
Definition i2c_read_write : SMCProg unit :=
  sub <- byte_at 1 ;;
  if sub =? 0x3 then
    log Log.Info "SMC" "[I2C] Requested DDC Lock." [] ;;;
    set_byte 0 (cmd_code SMC_I2C_READ_WRITE) ;;;
    set_byte 1 0
  else if sub =? 0x5 then
    log Log.Info "SMC" "[I2C] Requested DDC Unlock." [] ;;;
    set_byte 0 (cmd_code SMC_I2C_READ_WRITE) ;;;
    set_byte 1 0
  else if sub =? 0x10 then
    set_byte 0 (cmd_code SMC_I2C_READ_WRITE) ;;;
    set_byte 1 0x0 ;;;
    b5 <- byte_at 5 ;;
    if b5 =? 0xF0 then
      (h <- hana_at_byte6 ;; set_byte 4 (Z.land h 0xFF)) ;;;
      (h <- hana_at_byte6 ;; set_byte 5 (Z.land (Z.shiftr h 8) 0xFF)) ;;;
      (h <- hana_at_byte6 ;; set_byte 6 (Z.land (Z.shiftr h 16) 0xFF)) ;;;
      (h <- hana_at_byte6 ;; set_byte 7 (Z.land (Z.shiftr h 24) 0xFF))
    else
      addr <- i2c_address ;;
      if addr =? 0x102 then
        set_byte 3 0x53 ;;;
        set_byte 4 0x92 ;;;
        set_byte 5 0 ;;;
        set_byte 6 0
      else
        log Log.Warning "SMC"
          "[I2C] Reading from I2C at address {:#x}, unimplemented, returning 0."
          [Log.Num addr] ;;;
        set_byte 3 0 ;;;
        set_byte 4 0 ;;;
        set_byte 5 0 ;;;
        set_byte 6 0
  else if sub =? 0x11 then
    b6 <- byte_at 6 ;;
    log Log.Warning "SMC" "[I2C] DDC Read (STUB). Address = {:#x}, returning 0."
      [Log.Num (b6 + 0x1D0)] ;;;
    set_byte 0 (cmd_code SMC_I2C_READ_WRITE) ;;;
    set_byte 1 0 ;;;
    set_byte 3 0 ;;;
    set_byte 4 0 ;;;
    set_byte 5 0 ;;;
    set_byte 6 0
  else if sub =? 0x20 then
    addr <- i2c_address ;;
    b7 <- byte_at 7 ;;
    log Log.Warning "SMC" "[I2C] Write (STUB). Address = {:#x}, value = {:#x}."
      [Log.Num addr; Log.Num b7] ;;;
    set_byte 0 (cmd_code SMC_I2C_READ_WRITE) ;;;
    set_byte 1 0
  else if sub =? 0x21 then
    b6 <- byte_at 6 ;;
    b7 <- byte_at 7 ;;
    log Log.Warning "SMC" "[I2C] DDC Write (STUB). Address = {:#x}, value = {:#x}."
      [Log.Num (b6 + 0x1D0); Log.Num b7] ;;;
    set_byte 0 (cmd_code SMC_I2C_READ_WRITE) ;;;
    set_byte 1 0
  else if sub =? 0x60 then
    set_byte 0 (cmd_code SMC_I2C_READ_WRITE) ;;;
    set_byte 1 0x0 ;;;
    i <- byte_at 6 ;;
    b8 <- byte_at 8 ;;
    b9 <- byte_at 9 ;;
    b10 <- byte_at 10 ;;
    b11 <- byte_at 11 ;;
    set_hana_at i
      (Z.lor (Z.lor (Z.lor b8 (Z.shiftl b9 8)) (Z.shiftl b10 16)) (Z.shiftl b11 24))
  else
    log Log.Warning "SMC" "SMC_I2C_READ_WRITE: Unimplemented command 0x{:X}"
      [Log.Num sub] ;;;
    set_byte 0 (cmd_code SMC_I2C_READ_WRITE) ;;;
    set_byte 1 0x1.

(** [switch (smcCoreState.fifoDataBuffer[0])]; the result is the value
    of [noResponse] after the switch.  The commands whose case only logs
    "Unimplemented SMC_FIFO_CMD: <name>" share the last [Some] branch. *)
Definition dispatch_command : SMCProg bool :=
  id <- byte_at 0 ;;
  match cmd_case id with
  | Some SMC_PWRON_TYPE =>
      zero_buffer ;;;
      set_byte 0 (cmd_code SMC_PWRON_TYPE) ;;;
      s <- get ;;
      set_byte 1 (currPowerOnReason (config s)) ;;;
      ret false
  | Some SMC_QUERY_RTC =>
      zero_buffer ;;;
      set_byte 0 (cmd_code SMC_QUERY_RTC) ;;;
      set_byte 1 0 ;;;
      ret false
  | Some SMC_QUERY_TEMP_SENS =>
      set_byte 0 (cmd_code SMC_QUERY_TEMP_SENS) ;;;
      set_byte 1 0x24 ;;;
      set_byte 2 0x1B ;;;
      set_byte 3 0x2F ;;;
      set_byte 4 0xA4 ;;;
      set_byte 5 0x2C ;;;
      set_byte 6 0x24 ;;;
      set_byte 7 0x26 ;;;
      set_byte 8 0x2C ;;;
      log Log.Warning "SMC"
        "SMC_FIFO_CMD: SMC_QUERY_TEMP_SENS: {:#d}, {:#d}, {:#d}, {:#d}"
        [Log.Num (0x241b / 255); Log.Num (0x2FA4 / 255);
         Log.Num (0x2C24 / 255); Log.Num (0x262C / 255)] ;;;
      ret false
  | Some SMC_QUERY_TRAY_STATE =>
      set_byte 0 (cmd_code SMC_QUERY_TRAY_STATE) ;;;
      s <- get ;;
      set_byte 1 (currTrayState (config s)) ;;;
      ret false
  | Some SMC_QUERY_AVPACK =>
      set_byte 0 (cmd_code SMC_QUERY_AVPACK) ;;;
      s <- get ;;
      set_byte 1 (currAVPackType (config s)) ;;;
      ret false
  | Some SMC_I2C_READ_WRITE =>
      i2c_read_write ;;;
      ret false
  | Some SMC_QUERY_VERSION =>
      set_byte 0 (cmd_code SMC_QUERY_VERSION) ;;;
      set_byte 1 0x41 ;;;
      set_byte 2 0x02 ;;;
      set_byte 3 0x03 ;;;
      ret false
  | Some SMC_SET_STANDBY =>
      set_byte 0 (cmd_code SMC_SET_STANDBY) ;;;
      b1 <- byte_at 1 ;;
      (if b1 =? 0x01 then
         log Log.Info "SMC" "[Standby] Requested shutdown" [] ;;;
         emit (XeRunning_store false)
       else if b1 =? 0x04 then
         log Log.Info "SMC" "[Standby] Requested reboot" [] ;;;
         b2 <- byte_at 2 ;;
         emit (XeMain_Reboot b2)
       else
         log Log.Warning "SMC"
           "Unimplemented SMC_FIFO_CMD Subtype in SMC_SET_STANDBY: 0x{:02X}"
           [Log.Num b1]) ;;;
      ret false
  | Some SMC_SET_FP_LEDS =>
      log Log.Warning "SMC" "Unimplemented SMC_FIFO_CMD: SMC_SET_FP_LEDS" [] ;;;
      ret true
  | Some c =>
      log Log.Warning "SMC" ("Unimplemented SMC_FIFO_CMD: " +:+ cmd_name c) [] ;;;
      ret false
  | None =>
      log Log.Warning "SMC" "Unknown SMC_FIFO_CMD: ID = 0x{:X}" [Log.Num id] ;;;
      ret false
  end.

(** The block guarded by [if (smcPCIState.fifoInStatusReg == FIFO_STATUS_BUSY)]. *)
Definition process_fifo_command : SMCProg unit :=
  store fifoOutStatusReg FIFO_STATUS_BUSY ;;;
  store fifoInStatusReg FIFO_STATUS_READY ;;;
  noResponse <- dispatch_command ;;
  store fifoOutStatusReg FIFO_STATUS_READY ;;;
  s <- get ;;
  if to_bool (Z.land (smcPCIState s smiIntEnabledReg) SMI_INT_ENABLED)
     && Bool.eqb noResponse false
  then
    store smiIntPendingReg SMI_INT_PENDING ;;;
    emit (PCIBridge_RouteInterrupt PRIO_SMM)
  else ret tt.

(** The FIFO half of one turn of the thread's loop. *)
Definition smcFifoStep : SMCProg unit :=
  s <- get ;;
  if smcPCIState s fifoInStatusReg =? FIFO_STATUS_BUSY
  then process_fifo_command
  else ret tt.

(** The clock half of one turn of the thread's loop.  Time is counted
    in ticks of the steady clock: [timerNow] is the reading taken before
    the checks, [restart] the reading taken when the timer is restarted
    and [period] the duration [500ms].  The result is [timerStart] after
    the turn. *)
Definition smcClockStep (period timerStart timerNow restart : Z) : SMCProg Z :=
  s <- get ;;
  if smcPCIState s clockIntEnabledReg =? CLCK_INT_ENABLED then
    if smcPCIState s clockIntStatusReg =? CLCK_INT_READY then
      if timerNow >=? timerStart + period then
        store clockIntStatusReg CLCK_INT_TAKEN ;;;
        emit (PCIBridge_RouteInterrupt PRIO_CLOCK) ;;;
        ret restart
      else ret timerStart
    else ret timerStart
  else ret timerStart.

(** Whether the step raises the SMI interrupt for the command byte [id]:
    the condition of the last [if] of the block. *)
Definition smi_raised (s : State U) (id : Z) : bool :=
  to_bool (Z.land (smcPCIState s smiIntEnabledReg) SMI_INT_ENABLED)
  && negb (id =? cmd_code SMC_SET_FP_LEDS).

(** One turn of the thread's loop: the FIFO half, then the clock half. *)
Definition smcTurn (period timerStart timerNow restart : Z) : SMCProg Z :=
  smcFifoStep ;;;
  smcClockStep period timerStart timerNow restart.

(** Turns of the loop one after the other, one for each pair of clock
    readings [(timerNow, restart)]; the result is [timerStart] after the
    last. *)
Fixpoint smcTurns (period : Z) (readings : list (Z * Z)) (timerStart : Z)
  : SMCProg Z :=
  match readings with
  | [] => ret timerStart
  | (timerNow, restart) :: rest =>
      started <- smcTurn period timerStart timerNow restart ;;
      smcTurns period rest started
  end.

(** *** The response, byte by byte

    What the [switch] leaves in [fifoDataBuffer] for each command, as a
    function of the message: the bytes each case assigns, the others as
    the message has them. *)

(** [case SMC_I2C_READ_WRITE] on the message [buf] with the HANA image
    [hana].  Sub-operation [0x10] with byte 5 = [0xF0] reads the register
    named by byte 6 for bytes 4, 5 and 6, and for byte 7 the register
    named by the new byte 6. *)
Definition i2c_response (hana buf : list Z) : list Z :=
  let id := nth 0 buf 0 in
  let sub := nth 1 buf 0 in
  let succeeded := <[1%nat := 0]> (<[0%nat := id]> buf) in
  let zeroed := <[6%nat := 0]> (<[5%nat := 0]> (<[4%nat := 0]> (<[3%nat := 0]> succeeded))) in
  if sub =? 0x3 then succeeded
  else if sub =? 0x5 then succeeded
  else if sub =? 0x10 then
    if nth 5 buf 0 =? 0xF0 then
      let h := nth (Z.to_nat (nth 6 buf 0)) hana 0 in
      let b6 := Z.land (Z.shiftr h 16) 0xFF in
      let h' := nth (Z.to_nat b6) hana 0 in
      <[7%nat := Z.land (Z.shiftr h' 24) 0xFF]>
        (<[6%nat := b6]>
           (<[5%nat := Z.land (Z.shiftr h 8) 0xFF]>
              (<[4%nat := Z.land h 0xFF]> succeeded)))
    else if nth 6 buf 0 + (if nth 3 buf 0 =? 0x8D then 0x200 else 0x100) =? 0x102 then
      <[6%nat := 0]> (<[5%nat := 0]> (<[4%nat := 0x92]> (<[3%nat := 0x53]> succeeded)))
    else zeroed
  else if sub =? 0x11 then zeroed
  else if sub =? 0x20 then succeeded
  else if sub =? 0x21 then succeeded
  else if sub =? 0x60 then succeeded
  else <[1%nat := 0x1]> (<[0%nat := id]> buf).

(** The buffer after the [switch] on the state [s]: byte 0 is the
    command byte in every case. *)
Definition response (s : State U) : list Z :=
  let buf := fifoDataBuffer s in
  let id := nth 0 buf 0 in
  match cmd_case id with
  | Some SMC_PWRON_TYPE =>
      id :: u8 (currPowerOnReason (config s)) :: replicate 14 0
  | Some SMC_QUERY_RTC => id :: replicate 15 0
  | Some SMC_QUERY_TEMP_SENS =>
      id :: [0x24; 0x1B; 0x2F; 0xA4; 0x2C; 0x24; 0x26; 0x2C] ++ drop 9 buf
  | Some SMC_QUERY_TRAY_STATE => id :: u8 (currTrayState (config s)) :: drop 2 buf
  | Some SMC_QUERY_AVPACK => id :: u8 (currAVPackType (config s)) :: drop 2 buf
  | Some SMC_I2C_READ_WRITE => i2c_response (hanaState s) buf
  | Some SMC_QUERY_VERSION => id :: [0x41; 0x02; 0x03] ++ drop 4 buf
  | _ => buf
  end.

End WithBackend.

(** The commands whose case does more than log: every other identifier
    leaves the message in the buffer as it is. *)
Definition implemented (c : SMC_FIFO_CMD) : bool :=
  match c with
  | SMC_PWRON_TYPE | SMC_QUERY_RTC | SMC_QUERY_TEMP_SENS | SMC_QUERY_TRAY_STATE
  | SMC_QUERY_AVPACK | SMC_I2C_READ_WRITE | SMC_QUERY_VERSION | SMC_SET_STANDBY => true
  | _ => false
  end.

(** The sub-operations [case SMC_I2C_READ_WRITE] has a label for. *)
Definition i2c_known (sub : Z) : bool :=
  existsb (Z.eqb sub) [0x3; 0x5; 0x10; 0x11; 0x20; 0x21; 0x60].

(** A device state as the declarations size it: a FIFO buffer of 16
    bytes and a HANA image of 256 words. *)
Definition well_formed {U : Type} (s : State U) : Prop :=
  length (fifoDataBuffer s) = 16%nat /\
  Forall is_byte (fifoDataBuffer s) /\
  length (hanaState s) = 256%nat.

(** The events by which the thread hands the FIFO over to the guest:
    its register stores and the interrupt request. *)
Definition is_handover (e : Event) : bool :=
  match e with
  | SMC_REG_STORE _ _ | PCIBridge_RouteInterrupt _ => true
  | _ => false
  end.

(** [steady m Q]: on a well-formed state [m] runs without fault, keeps
    the state well formed, leaves the registers and the configuration
    alone, produces no hand-over event and returns a value in [Q]. *)
Definition steady {U A : Type} (m : M (State U) A) (Q : A -> Prop) : Prop :=
  forall s, well_formed s ->
    exists a s' evs,
      m s = Some (a, s', evs) /\
      well_formed s' /\
      smcPCIState s' = smcPCIState s /\
      config s' = config s /\
      forallb (fun e => negb (is_handover e)) evs = true /\
      Q a.

(** [runs ok P m Q]: from a state in [P], [m] runs without fault,
    produces only events accepted by [ok], and ends with a result and a
    state in [Q]. *)
Definition runs {U A : Type} (ok : Event -> bool) (P : State U -> Prop)
    (m : M (State U) A) (Q : A -> State U -> Prop) : Prop :=
  forall s, P s ->
    exists a s' evs,
      m s = Some (a, s', evs) /\ forallb ok evs = true /\ Q a s'.

(** The events by which a command switches the console off or restarts it. *)
Definition is_power_event (e : Event) : bool :=
  match e with
  | XeRunning_store _ | XeMain_Reboot _ => true
  | _ => false
  end.

(** The events of the clock half of a turn: the store to
    [CLCK_INT_STATUS] and the request of the clock interrupt. *)
Definition is_clock_event (e : Event) : bool :=
  match e with
  | SMC_REG_STORE clockIntStatusReg _ | PCIBridge_RouteInterrupt PRIO_CLOCK => true
  | _ => false
  end.

End SMC.

(** ** The guest's side of the SMC protocol

    The access sequences of the FIFO protocol, as the guest performs
    them through [SMC::Read] and [SMC::Write]. *)

Module Guest.

Import Types Mem Prog SMC.
Local Open Scope prog_scope.

Section WithBackend.

Context {U : Type} `{HW_UART U}.

Local Abbreviation SMCProg := (M (State U)).

(** A 32-bit store of [v] to the register at [addr]. *)
Definition write32 (addr v : Z) : SMCProg unit :=
  Write addr (le_bytes 4 v) 4.

(** A 32-bit load from the register at [addr] into a zeroed buffer. *)
Definition read32 (addr : Z) : SMCProg (list Z) :=
  Read addr [0; 0; 0; 0] 4.

(** 32-bit stores of each chunk, in turn, to the same register. *)
Fixpoint write_each (addr : Z) (chunks : list (list Z)) : SMCProg unit :=
  match chunks with
  | [] => ret tt
  | c :: rest => Write addr c 4 ;;; write_each addr rest
  end.

(** [n] 32-bit loads from the same register; the bytes read, in order. *)
Fixpoint read_times (addr : Z) (n : nat) : SMCProg (list Z) :=
  match n with
  | O => ret []
  | S k =>
      d <- read32 addr ;;
      ds <- read_times addr k ;;
      ret (d ++ ds)
  end.

(** The 16 bytes of a message cut into the four words the guest writes. *)
Definition words (msg : list Z) : list (list Z) :=
  [take 4 msg; take 4 (drop 4 msg); take 4 (drop 8 msg); take 4 (drop 12 msg)].

(** Guest to SMC: announce, four data words, hand over. *)
Definition send (msg : list Z) : SMCProg unit :=
  write32 FIFO_IN_STATUS_REG FIFO_STATUS_READY ;;;
  write_each FIFO_IN_DATA_REG (words msg) ;;;
  write32 FIFO_IN_STATUS_REG FIFO_STATUS_BUSY.

(** SMC to guest: reset the cursor, four data words. *)
Definition receive : SMCProg (list Z) :=
  write32 FIFO_OUT_STATUS_REG FIFO_STATUS_READY ;;;
  read_times FIFO_OUT_DATA_REG 4.

Variable cmd_code : SMC_FIFO_CMD -> Z.

(** One command: the guest sends, the SMC thread takes its turn, the
    guest collects the response. *)
Definition transact (msg : list Z) : SMCProg (list Z) :=
  send msg ;;;
  smcFifoStep cmd_code ;;;
  receive.

(** A 32-bit configuration write followed by a read of the same place:
    the value read. *)
Definition config_write_read (addr v : Z) : SMCProg Z :=
  ConfigWrite addr (le_bytes 4 v) 4 ;;;
  d <- ConfigRead addr [0; 0; 0; 0] 4 ;;
  ret (le_value d).

(** BAR discovery on one configuration register, then a normal write
    of [v]: the two values read back. *)
Definition probe_bar (addr v : Z) : SMCProg (Z * Z) :=
  mask <- config_write_read addr 0xFFFFFFFF ;;
  back <- config_write_read addr v ;;
  ret (mask, back).

End WithBackend.

(** The message that writes the word [b8 | b9<<8 | b10<<16 | b11<<24]
    to HANA register [i] (sub-operation [0x60]) and the message that
    reads HANA register [i] (sub-operation [0x10], byte 5 = [0xF0]);
    [id] is the identifier of [SMC_I2C_READ_WRITE]. *)
Definition smbus_write_msg (id i b8 b9 b10 b11 : Z) : list Z :=
  [id; 0x60; 0; 0; 0; 0; i; 0; b8; b9; b10; b11; 0; 0; 0; 0].

Definition smbus_read_msg (id i : Z) : list Z :=
  [id; 0x10; 0; 0; 0; 0xF0; i; 0; 0; 0; 0; 0; 0; 0; 0; 0].

(** The 32-bit word the write assembles from bytes 8 to 11. *)
Definition smbus_word (b8 b9 b10 b11 : Z) : Z :=
  u32 (Z.lor (Z.lor (Z.lor b8 (Z.shiftl b9 8)) (Z.shiftl b10 16)) (Z.shiftl b11 24)).

(** Offset of [BARk] in the configuration header. *)
Definition BAR (k : Z) : Z := 0x10 + 4 * k.

(** The size mask of the specification: [~(size-1) & 0xFFFFFFFC] on
    32-bit words. *)
Definition spec_size_mask (size : Z) : Z :=
  Z.land (u32 (Z.lnot (size - 1))) 0xFFFFFFFC.

(** The exponent of [size] rounded up to a power of two, no less than
    [2^2] and no more than [2^30]. *)
Definition rounded_exponent (size : Z) : Z :=
  Z.min 30 (Z.max 2 (Z.log2_up size)).

End Guest.

(** ** Core/XGPU/Xenos.h: endianness swaps *)

Module Xenos.
Import Types.

(** [enum class eEndian : u32] *)
Definition xeNone : Z := 0.
Definition xe8in16 : Z := 1.
Definition xe8in32 : Z := 2.
Definition xe16in32 : Z := 3.

(** [inline uint16_t xeEndianSwap(uint16_t value, eEndian endianness)]:
    the result and what is logged.  The operands are promoted to 32-bit
    integers and the result is converted back to [uint16_t]. *)
Definition xeEndianSwap16 (value endianness : Z) : Z * list Event :=
  if endianness =? xeNone then (value, [])
  else if endianness =? xe8in16 then
    (u16 (Z.lor (Z.land (Z.shiftl value 8) 0xFF00FF00)
                (Z.land (Z.shiftr value 8) 0x00FF00FF)), [])
  else
    (value,
     [LOG Log.Error "Xenos" "GPUSwap: Invalid endianness was passed in." []]).

Section WithByteswap.

(** [byteswap_be<u32>] is declared in Base/Types.h, which is not among
    the sources; it is a parameter. *)
Variable byteswap_be : Z -> Z.

(** [inline uint32_t xeEndianSwap(uint32_t value, eEndian endianness)] *)
Definition xeEndianSwap32 (value endianness : Z) : Z :=
  if endianness =? xe8in16 then
    Z.lor (Z.land (u32 (Z.shiftl value 8)) 0xFF00FF00)
          (Z.land (Z.shiftr value 8) 0x00FF00FF)
  else if endianness =? xe8in32 then byteswap_be value
  else if endianness =? xe16in32 then
    Z.lor (Z.land (Z.shiftr value 16) 0xFFFF) (u32 (Z.shiftl value 16))
  else value.

End WithByteswap.

End Xenos.

(** ** Main.cpp: the shutdown handler *)

Module Main.

(** What the handler does to the outside: [Base::exit] and
    [Base::fexit] (declared in Base/Exit.h, which is not among the
    sources), the wait, [XeMain::Shutdown] and the console messages. *)
Inductive HostEvent :=
| Base_exit (code : Z)
| Base_fexit (code : Z)
| sleep_for_15s
| XeMain_Shutdown
| printf (text : string).

(** The globals the handler writes: [hupflag] and [XeRunning]. *)
Record Globals := {
  hupflag : Z;
  XeRunning : bool
}.

(** [s32 globalShutdownHandler()].  [paused] is [XePaused] as read on
    entry and [signaled] is [XeShutdonSignaled] as read after the wait;
    [exit_code] and [fexit_code] are what [Base::exit(-1)] and
    [Base::fexit(-1)] return, should they return. *)
Definition globalShutdownHandler (exit_code fexit_code : Z) (paused signaled : bool)
    (g : Globals) : Z * Globals * list HostEvent :=
  if paused then (exit_code, g, [Base_exit (-1)])
  else if hupflag g =? 0 then
    let g1 := {| hupflag := 1; XeRunning := false |} in
    if signaled then
      (exit_code, g1,
       [printf "\nAttempting to clean shutdown...\n"; sleep_for_15s;
        printf "This was called because after 15s, and a shutdown call, it still hasn't shutdown.\n";
        printf "Something likely hung. If you have issues, please make a GitHub Issue report with this message in it\n";
        Base_exit (-1)])
    else
      (0, g1,
       [printf "\nAttempting to clean shutdown...\n"; sleep_for_15s; XeMain_Shutdown])
  else
    (fexit_code, g,
     [printf "\nUnable to clean shutdown!\n";
      printf "Press Crtl+C again to forcefully exit...\n";
      Base_fexit (-1)]).

(** The handler run once per signal, in turn, with the values of
    [XePaused] and [XeShutdonSignaled] each run finds. *)
Fixpoint signals (exit_code fexit_code : Z) (inputs : list (bool * bool))
    (g : Globals) : Globals * list HostEvent :=
  match inputs with
  | [] => (g, [])
  | (paused, signaled) :: rest =>
      let '(_, g1, e1) := globalShutdownHandler exit_code fexit_code paused signaled g in
      let '(g2, e2) := signals exit_code fexit_code rest g1 in
      (g2, e1 ++ e2)
  end.

Definition is_Shutdown (e : HostEvent) : bool :=
  match e with XeMain_Shutdown => true | _ => false end.

End Main.

(** ** Sample instances

    Concrete collaborators and states on which the model is run. *)

Module Sample.

Import Types Mem SMC.

(** A sample assignment of pairwise distinct priority codes. *)
Definition prio_code (p : Prio) : Z :=
  match p with
  | PRIO_SMM => 0x14 | PRIO_SFCX => 0x18 | PRIO_SATA_HDD => 0x20
  | PRIO_SATA_ODD => 0x24 | PRIO_OHCI_0 => 0x2C | PRIO_EHCI_0 => 0x30
  | PRIO_OHCI_1 => 0x34 | PRIO_EHCI_1 => 0x38 | PRIO_XMA => 0x40
  | PRIO_AUDIO => 0x44 | PRIO_ENET => 0x4C | PRIO_XPS => 0x54
  | PRIO_GRAPHICS => 0x58 | PRIO_CLOCK => 0x74
  end.

(** A sample assignment of pairwise distinct command identifiers. *)
Definition cmd_code (c : SMC_FIFO_CMD) : Z :=
  match c with
  | SMC_PWRON_TYPE => 0x01 | SMC_QUERY_RTC => 0x04 | SMC_QUERY_TEMP_SENS => 0x07
  | SMC_QUERY_TRAY_STATE => 0x0A | SMC_QUERY_AVPACK => 0x0F
  | SMC_I2C_READ_WRITE => 0x11 | SMC_QUERY_VERSION => 0x12 | SMC_FIFO_TEST => 0x13
  | SMC_QUERY_IR_ADDRESS => 0x16 | SMC_QUERY_TILT_SENSOR => 0x17
  | SMC_READ_82_INT => 0x1E | SMC_READ_8E_INT => 0x20 | SMC_SET_STANDBY => 0x82
  | SMC_SET_TIME => 0x85 | SMC_SET_FAN_ALGORITHM => 0x88
  | SMC_SET_FAN_SPEED_CPU => 0x89 | SMC_SET_DVD_TRAY => 0x8B
  | SMC_SET_POWER_LED => 0x8C | SMC_SET_AUDIO_MUTE => 0x8D
  | SMC_ARGON_RELATED => 0x90 | SMC_SET_FAN_SPEED_GPU => 0x94
  | SMC_SET_IR_ADDRESS => 0x95 | SMC_SET_DVD_TRAY_SECURE => 0x98
  | SMC_SET_FP_LEDS => 0x99 | SMC_SET_RTC_WAKE => 0x9A | SMC_ANA_RELATED => 0x9B
  | SMC_SET_ASYNC_OPERATION => 0x9C | SMC_SET_82_INT => 0x9D
  | SMC_SET_9F_INT => 0x9F
  end.

(** A UART back end that discards what is written and never has input. *)
#[global] Instance HW_UART_NULL : HW_UART unit := {|
  uart_Read := fun h => (h, 0, false);
  uart_Write := fun h _ => h;
  uart_ReadStatus := fun h => (h, 0);
  uart_SetupNeeded := fun _ => false;
  uart_Init := fun h _ => h
|}.

(** A bus without devices. *)
#[global] Instance no_device : PCIDevice Empty_set := {|
  dev_IsAddressMappedInBAR := fun (d : Empty_set) _ => match d with end;
  dev_Read := fun (d : Empty_set) _ _ _ => match d with end;
  dev_Write := fun (d : Empty_set) _ _ _ => match d with end;
  dev_ConfigRead := fun (d : Empty_set) _ _ _ => match d with end;
  dev_ConfigWrite := fun (d : Empty_set) _ _ _ => match d with end
|}.

#[global] Instance no_device_MemSet : PCIDevice_MemSet Empty_set := {|
  dev_MemSet := fun (d : Empty_set) _ _ _ => match d with end
|}.

Definition smc_config : SMC_CONFIG :=
  {| currentUARTSystem := uart_null; currentCOMPort := "COM2";
     socketIp := "127.0.0.1"; socketPort := 7000;
     currAVPackType := 0x1F; currPowerOnReason := 0x11; currTrayState := 0x60;
     win32 := false |}.

(** An SMC with the given BAR sizes and HANA image, its thread started
    ([fifoInStatusReg] is [FIFO_STATUS_READY]), configuration space and
    FIFO buffer cleared. *)
Definition smc (devSizes hana : list Z) : State unit :=
  {| config := smc_config;
     smcPCIState := fun r => match r with fifoInStatusReg => FIFO_STATUS_READY | _ => 0 end;
     fifoDataBuffer := replicate 16 0;
     fifoBufferPos := 0;
     uartHandle := tt;
     pciConfigSpace := replicate 256 0;
     pciDevSizes := devSizes;
     hanaState := hana |}.

(** The SMC as its constructor sizes it: [pciDevSizes[0] = 0x100]. *)
Definition smc0 : State unit := smc [0x100; 0; 0; 0; 0; 0] (replicate 256 0).

(** [smc0] with SMI interrupts enabled and a message handed over: the
    16 bytes are in the buffer and [fifoInStatusReg] is [FIFO_STATUS_BUSY]. *)
Definition smc_busy (msg : list Z) : State unit :=
  set_reg
    (set_fifo (set_reg smc0 smiIntEnabledReg SMI_INT_ENABLED) msg)
    fifoInStatusReg FIFO_STATUS_BUSY.

(** The bridge after construction, nothing attached, every priority
    register clear. *)
Definition bridge_state : PCIBridge.PCI_BRIDGE_STATE :=
  {| PCIBridge.REG_EA000000 := 0;
     PCIBridge.REG_EA000004 := 0;
     PCIBridge.REG_EA00000C := 0x7CFF;
     PCIBridge.prioReg := fun _ =>
       {| PCIBridge.hexData := 0; PCIBridge.intEnabled := false;
          PCIBridge.latched := false; PCIBridge.targetCPU := 0;
          PCIBridge.cpuIRQ := 0 |} |}.

Definition bridge : PCIBridge.Bridge Empty_set :=
  {| PCIBridge.pciBridgeState := bridge_state;
     PCIBridge.pciBridgeConfig := replicate 256 0;
     PCIBridge.connectedPCIDevices := [] |}.

(** The bridge after the guest has written [0x00800200] to the SMM
    priority register: the source is enabled and targets CPU 2. *)
Definition bridge_smm : PCIBridge.Bridge Empty_set :=
  PCIBridge.set_state bridge
    (PCIBridge.set_prioReg bridge_state PCIBridge.PRIO_REG_SMM
       (PCIBridge.decoded 0x00800200)).

(** [smc0] with the clock interrupt enabled and ready. *)
Definition smc_clock : State unit :=
  set_reg (set_reg smc0 clockIntEnabledReg CLCK_INT_ENABLED)
    clockIntStatusReg CLCK_INT_READY.

(** The messages of the HANA round trip: write [0xDEADBEEF] to register
    [0x12], then read register [0x12]. *)
Definition hana_write_msg : list Z :=
  Guest.smbus_write_msg (cmd_code SMC_I2C_READ_WRITE) 0x12 0xEF 0xBE 0xAD 0xDE.

Definition hana_read_msg : list Z :=
  Guest.smbus_read_msg (cmd_code SMC_I2C_READ_WRITE) 0x12.

End Sample.

(** * Properties *)

(** ** Fixed-width integers and byte images *)

Module TypesFacts.
Import Types.

Lemma u8_range x : 0 <= u8 x < 256.
Proof. unfold u8, wrap. apply Z.mod_pos_bound. reflexivity. Qed.

Lemma u8_small x : 0 <= x < 256 -> u8 x = x.
Proof. intros H. unfold u8, wrap. apply Z.mod_small. simpl. lia. Qed.

Lemma u64_small x : 0 <= x < 2 ^ 64 -> u64 x = x.
Proof. intros H. unfold u64, wrap. now apply Z.mod_small. Qed.

End TypesFacts.

Module MemFacts.
Import Types Mem.

Lemma le_bytes_length n v : length (le_bytes n v) = n.
Proof. revert v. induction n as [|n IH]; intros v; simpl; [reflexivity|]. now rewrite IH. Qed.

Lemma le_bytes_is_byte n v : Forall is_byte (le_bytes n v).
Proof.
  revert v. induction n as [|n IH]; intros v; simpl; constructor.
  - unfold is_byte. apply Z.mod_pos_bound. reflexivity.
  - apply IH.
Qed.

Lemma le_value_le_bytes n v :
  le_value (le_bytes n v) = v mod 2 ^ (8 * Z.of_nat n).
Proof.
  revert v. induction n as [|n IH]; intros v.
  - simpl. now rewrite Z.mod_1_r.
  - cbn [le_bytes le_value]. rewrite IH.
    replace (8 * Z.of_nat (S n)) with (8 + 8 * Z.of_nat n) by lia.
    rewrite Z.pow_add_r by lia. change (2 ^ 8) with 256.
    rewrite Z.rem_mul_r by lia. reflexivity.
Qed.

Lemma le_bytes_le_value bs :
  Forall is_byte bs -> le_bytes (length bs) (le_value bs) = bs.
Proof.
  induction 1 as [|b bs Hb _ IH]; [reflexivity|].
  cbn [length le_value le_bytes]. unfold is_byte in Hb.
  replace ((b + 256 * le_value bs) / 256) with (le_value bs)
    by (replace (b + 256 * le_value bs) with (b + le_value bs * 256) by lia;
        rewrite Z.div_add by lia; rewrite Z.div_small by lia; lia).
  rewrite IH. f_equal.
  replace (b + 256 * le_value bs) with (b + le_value bs * 256) by lia.
  rewrite Z.mod_add by lia. now apply Z.mod_small.
Qed.

Lemma memcpy_length dest src n d :
  memcpy dest src n = Some d -> length d = length dest.
Proof.
  unfold memcpy. destruct (n <=? length src)%nat eqn:E1; [|discriminate].
  destruct (n <=? length dest)%nat eqn:E2; [|discriminate].
  simpl. intros [= <-].
  apply Nat.leb_le in E1, E2.
  rewrite length_app, length_take, length_drop. lia.
Qed.

Lemma memcpy_at_length mem off src n m :
  memcpy_at mem off src n = Some m -> length m = length mem.
Proof.
  unfold memcpy_at. destruct (off <=? length mem)%nat eqn:E; [|discriminate].
  destruct (memcpy (drop off mem) src n) as [d|] eqn:Ed; [|discriminate].
  simpl. intros [= <-]. apply memcpy_length in Ed.
  apply Nat.leb_le in E.
  rewrite length_app, length_take, Ed, length_drop. lia.
Qed.

(** What was copied in with [memcpy_at] is what a later [memcpy] out of
    the same place returns. *)
Lemma memcpy_at_read_back mem off src n m out :
  memcpy_at mem off src n = Some m ->
  length out = n ->
  memcpy out (drop off m) n = Some (take n src).
Proof.
  unfold memcpy_at. destruct (off <=? length mem)%nat eqn:E; [|discriminate].
  apply Nat.leb_le in E.
  unfold memcpy at 1.
  destruct (n <=? length src)%nat eqn:E1; [|discriminate].
  destruct (n <=? length (drop off mem))%nat eqn:E2; [|discriminate].
  simpl. intros [= <-] Hout.
  apply Nat.leb_le in E1, E2. rewrite length_drop in E2.
  rewrite drop_app_length' by (rewrite length_take; lia).
  unfold memcpy.
  assert (Hlen : (n <=? length (take n src ++ drop n (drop off mem)))%nat = true).
  { apply Nat.leb_le. rewrite length_app, length_take. lia. }
  rewrite Hlen. assert (Ho : (n <=? length out)%nat = true) by (apply Nat.leb_le; lia).
  rewrite Ho. simpl.
  rewrite take_app_length' by (rewrite length_take; lia).
  rewrite drop_ge by lia. now rewrite app_nil_r.
Qed.

End MemFacts.

(** A [switch] over pairwise distinct labels selects the label that
    equals the scrutinee. *)
Lemma find_code {A} (code : A -> Z) (all : list A) (x : A) :
  (forall a b, code a = code b -> a = b) ->
  In x all ->
  List.find (fun y => code y =? code x) all = Some x.
Proof.
  intros Hinj. induction all as [|a all IH]; intros Hin; [destruct Hin|].
  cbn [List.find]. destruct (code a =? code x) eqn:E.
  - apply Z.eqb_eq in E. apply Hinj in E. now subst.
  - destruct Hin as [->|Hin]; [rewrite Z.eqb_refl in E; discriminate|].
    now apply IH.
Qed.

Lemma find_code_sound {A} (code : A -> Z) (all : list A) (v : Z) (x : A) :
  List.find (fun y => code y =? v) all = Some x -> code x = v.
Proof.
  intros Hf. apply List.find_some in Hf as [_ Hf]. now apply Z.eqb_eq.
Qed.

(** ** SystemDevice *)

Module SystemDeviceFacts.
Import Types SystemDevice.

(** The difference is taken in the wrong direction: for a range with
    [startAddr < endAddr] the result is the two's complement of the
    length. *)
Lemma GetSize_wraps_below (info : DeviceInfo) :
  0 <= startAddr info -> startAddr info < endAddr info -> endAddr info < 2 ^ 64 ->
  GetSize info = 2 ^ 64 - (endAddr info - startAddr info).
Proof.
  intros H0 Hlt Hmax. unfold GetSize, u64, wrap.
  replace (startAddr info - endAddr info)
    with (2 ^ 64 - (endAddr info - startAddr info) + (-1) * 2 ^ 64) by lia.
  rewrite Z.mod_add by lia. apply Z.mod_small. lia.
Qed.

(** C10, as amended: for a device whose range has [startAddr < endAddr],
    [GetSize] returns [startAddr - endAddr] modulo [2^64], that is
    [2^64 - (endAddr - startAddr)]; this is the length of the range only
    when the range is exactly [2^63] bytes long. *)
Theorem GetSize_is_reversed_difference (info : DeviceInfo) :
  0 <= startAddr info -> startAddr info < endAddr info -> endAddr info < 2 ^ 64 ->
  GetSize info = u64 (startAddr info - endAddr info) /\
  GetSize info = 2 ^ 64 - (endAddr info - startAddr info) /\
  (GetSize info = endAddr info - startAddr info <->
   endAddr info - startAddr info = 2 ^ 63).
Proof.
  intros H0 Hlt Hmax. split; [reflexivity|].
  pose proof (GetSize_wraps_below info H0 Hlt Hmax) as E.
  split; [exact E|]. rewrite E. lia.
Qed.

Lemma GetSize_is_reversed_difference_witness :
  GetSize (make "NAND" 0xC8000000 0xCC000000 false) = 2 ^ 64 - 0x4000000.
Proof.
  pose proof (GetSize_is_reversed_difference
                (make "NAND" 0xC8000000 0xCC000000 false)) as W.
  destruct W as (_ & W & _); [vm_compute; discriminate | reflexivity | reflexivity |].
  exact W.
Defined.

(** C10, as stated, fails on a range of [2^63] bytes: there the wrapped
    difference and the length coincide. *)
Lemma GetSize_half_range_is_length :
  startAddr (make "half" 0 (2 ^ 63) false) < endAddr (make "half" 0 (2 ^ 63) false) /\
  GetSize (make "half" 0 (2 ^ 63) false)
  = endAddr (make "half" 0 (2 ^ 63) false) - startAddr (make "half" 0 (2 ^ 63) false).
Proof. split; reflexivity. Qed.

End SystemDeviceFacts.

(** ** PCIBridge: interrupt routing *)

Module RouteFacts.
Import Types PCIBridge.

Lemma all_prios_complete (p : Prio) : In p all_prios.
Proof. destruct p; simpl; tauto. Qed.

Lemma sample_prio_code_inj (a b : Prio) :
  Sample.prio_code a = Sample.prio_code b -> a = b.
Proof. destruct a, b; simpl; intros E; try reflexivity; discriminate E. Qed.

Section WithPriorities.

Variable prio_code : Prio -> Z.
Hypothesis prio_code_inj : forall a b, prio_code a = prio_code b -> a = b.

Lemma prio_case_code (p : Prio) : prio_case prio_code (prio_code p) = Some p.
Proof. apply find_code; [exact prio_code_inj | apply all_prios_complete]. Qed.

(** A source with a priority register raises its interrupt exactly when
    the register's [intEnabled] is set, whatever the caller's override. *)
Lemma RouteInterrupt_registered (st : PCI_BRIDGE_STATE) (p : Prio) (r : PrioRegName)
    (override : Z) :
  is_graphics p = false ->
  source_reg p = Some r ->
  RouteInterrupt prio_code st (prio_code p) override
  = (false, route_if_enabled prio_code st r p).
Proof.
  intros Hg Hr. unfold RouteInterrupt. rewrite prio_case_code.
  destruct p; simpl in Hg, Hr; try discriminate Hg;
    injection Hr as <-; reflexivity.
Qed.

Lemma RouteInterrupt_graphics (st : PCI_BRIDGE_STATE) (p : Prio) (override : Z) :
  is_graphics p = true ->
  RouteInterrupt prio_code st (prio_code p) override
  = (false,
     if negb (override =? 0xFF)
     then [IIC_genInterrupt (prio_code p) override]
     else [LOG Log.Error "PCIBridge"
             "Routing GFX interrupt without target CPU index." []]).
Proof.
  intros Hg. unfold RouteInterrupt. rewrite prio_case_code.
  destruct p; simpl in Hg; try discriminate Hg; reflexivity.
Qed.

End WithPriorities.

(** C1, as amended: for every wired source other than [GRAPHICS] and
    [XPS], if the source's [intEnabled] bit is 0 then [RouteInterrupt],
    for any override, produces no [IIC.genInterrupt] call (it produces
    nothing at all); for [GRAPHICS] and [XPS] the bridge state is not
    consulted, so the outcome is the same for every state. *)
Theorem RouteInterrupt_disabled_source_is_silent
    (prio_code : Prio -> Z) (st : PCI_BRIDGE_STATE) (p : Prio) (override : Z) :
  (forall a b, prio_code a = prio_code b -> a = b) ->
  (is_graphics p = false ->
   source_disabled st p ->
   RouteInterrupt prio_code st (prio_code p) override = (false, []) /\
   forall prio cpu,
     ~ In (IIC_genInterrupt prio cpu)
         (snd (RouteInterrupt prio_code st (prio_code p) override))) /\
  (is_graphics p = true ->
   forall st',
     RouteInterrupt prio_code st' (prio_code p) override
     = RouteInterrupt prio_code st (prio_code p) override).
Proof.
  intros Hinj. split.
  - intros Hg Hdis.
    assert (E : RouteInterrupt prio_code st (prio_code p) override = (false, [])).
    { destruct (source_reg p) as [r|] eqn:Hr.
      - rewrite (RouteInterrupt_registered prio_code Hinj st p r override Hg Hr).
        unfold route_if_enabled. now rewrite (Hdis r Hr).
      - destruct p; simpl in Hg, Hr; discriminate. }
    split; [exact E|]. intros prio cpu. rewrite E. simpl. tauto.
  - intros Hg st'. now rewrite !(RouteInterrupt_graphics prio_code Hinj _ p override Hg).
Qed.

Lemma RouteInterrupt_disabled_source_is_silent_witness :
  source_disabled Sample.bridge_state PRIO_SMM /\
  RouteInterrupt Sample.prio_code Sample.bridge_state (Sample.prio_code PRIO_SMM) 0xFF
  = (false, []).
Proof.
  assert (Hdis : source_disabled Sample.bridge_state PRIO_SMM).
  { intros r _. reflexivity. }
  split; [exact Hdis|].
  destruct (RouteInterrupt_disabled_source_is_silent
              Sample.prio_code Sample.bridge_state PRIO_SMM 0xFF
              sample_prio_code_inj) as [W _].
  destruct (W eq_refl Hdis) as [E _]. exact E.
Defined.

(** C1, as stated, fails for the graphics source: with every
    [intEnabled] bit clear, [RouteInterrupt(PRIO_GRAPHICS, 2)] still
    reaches the interrupt controller. *)
Lemma RouteInterrupt_graphics_ignores_intEnabled :
  source_disabled Sample.bridge_state PRIO_GRAPHICS /\
  RouteInterrupt Sample.prio_code Sample.bridge_state
    (Sample.prio_code PRIO_GRAPHICS) 2
  = (false, [IIC_genInterrupt (Sample.prio_code PRIO_GRAPHICS) 2]).
Proof. split; [intros r _; reflexivity | reflexivity]. Qed.

(** C8: for [GRAPHICS] and [XPS], the sentinel override [0xFF] produces
    no [IIC.genInterrupt] call, only an error log; any other override
    produces exactly the call [genInterrupt(prio, override)], with the
    caller's override as the target. *)
Theorem RouteInterrupt_graphics_uses_override
    (prio_code : Prio -> Z) (st : PCI_BRIDGE_STATE) (p : Prio) (override : Z) :
  (forall a b, prio_code a = prio_code b -> a = b) ->
  is_graphics p = true ->
  RouteInterrupt prio_code st (prio_code p) 0xFF
  = (false, [LOG Log.Error "PCIBridge"
               "Routing GFX interrupt without target CPU index." []]) /\
  (forall prio cpu,
     ~ In (IIC_genInterrupt prio cpu)
         (snd (RouteInterrupt prio_code st (prio_code p) 0xFF))) /\
  (override <> 0xFF ->
   RouteInterrupt prio_code st (prio_code p) override
   = (false, [IIC_genInterrupt (prio_code p) override])).
Proof.
  intros Hinj Hg. rewrite !(RouteInterrupt_graphics prio_code Hinj st p _ Hg).
  split; [reflexivity|]. split.
  - intros prio cpu [E|[]]. discriminate E.
  - intros Hne. apply Z.eqb_neq in Hne. now rewrite Hne.
Qed.

Lemma RouteInterrupt_graphics_uses_override_witness :
  RouteInterrupt Sample.prio_code Sample.bridge_state (Sample.prio_code PRIO_XPS) 0xFF
  = (false, [LOG Log.Error "PCIBridge"
               "Routing GFX interrupt without target CPU index." []]) /\
  RouteInterrupt Sample.prio_code Sample.bridge_state (Sample.prio_code PRIO_XPS) 3
  = (false, [IIC_genInterrupt (Sample.prio_code PRIO_XPS) 3]).
Proof.
  destruct (RouteInterrupt_graphics_uses_override
              Sample.prio_code Sample.bridge_state PRIO_XPS 3
              sample_prio_code_inj eq_refl) as (W1 & _ & W2).
  split; [exact W1 | apply W2; discriminate].
Defined.

End RouteFacts.

(** ** PCIBridge: configuration space and the bridge's own window *)

Module BridgeFacts.
Import Types Mem MemFacts PCIBridge.

Section WithDevices.

Context {D : Type} `{PCIDevice D}.

(** A device number outside the table takes the [default] label: the
    call logs, returns [true] and does not touch the buffer. *)
Lemma ConfigRead_unknown_devNum (b : Bridge D) (address : Z) (data : list Z) (size : nat) :
  (busNum (u32 address) =? 0) && (devNum (u32 address) =? 0) = false ->
  currentDevName (u32 address) = None ->
  ConfigRead b address data size
  = Some (b, data, true,
          [LOG Log.Error "PCIBridge"
             "Config Space Read: Unknown device accessed: Dev 0x{:X}, Reg 0x{:X}"
             [Log.Num (devNum (u32 address)); Log.Num (regOffset (u32 address))]]).
Proof. intros Hown Hname. unfold ConfigRead. now rewrite Hown, Hname. Qed.

(** A table entry whose device is not attached: the buffer is filled
    with [0xFF] and the call returns [false]. *)
Lemma ConfigRead_not_connected (b : Bridge D) (address : Z) (data : list Z)
    (size : nat) (name : string) :
  (busNum (u32 address) =? 0) && (devNum (u32 address) =? 0) = false ->
  currentDevName (u32 address) = Some name ->
  first_device (fun n _ => String.eqb n name) (connectedPCIDevices b) = None ->
  (size <= length data)%nat ->
  ConfigRead b address data size
  = Some (b, replicate size 0xFF ++ drop size data, false,
          [LOG Log.Error "PCIBridge" "Read to unimplemented device: {}"
             [Log.Str name]]).
Proof.
  intros Hown Hname Hdev Hsize. unfold ConfigRead. rewrite Hown, Hname, Hdev.
  unfold memset. apply Nat.leb_le in Hsize. now rewrite Hsize.
Qed.

(** A configuration write that selects no attached device changes
    nothing and logs an error, on both paths. *)
Lemma ConfigWrite_unknown_devNum (b : Bridge D) (address : Z) (data : list Z) (size : nat) :
  (busNum (u32 address) =? 0) && (devNum (u32 address) =? 0) = false ->
  currentDevName (u32 address) = None ->
  (size <= 8)%nat -> (size <= length data)%nat ->
  exists ev, ConfigWrite b address data size = Some (b, true, [ev]) /\
             is_error_log ev = true.
Proof.
  intros Hown Hname H8 Hsize. unfold ConfigWrite. rewrite Hown, Hname.
  unfold memcpy. rewrite le_bytes_length.
  apply Nat.leb_le in H8, Hsize. rewrite H8, Hsize. simpl.
  eexists. split; reflexivity.
Qed.

Lemma ConfigWrite_not_connected (b : Bridge D) (address : Z) (data : list Z)
    (size : nat) (name : string) :
  (busNum (u32 address) =? 0) && (devNum (u32 address) =? 0) = false ->
  currentDevName (u32 address) = Some name ->
  first_device (fun n _ => String.eqb n name) (connectedPCIDevices b) = None ->
  ConfigWrite b address data size
  = Some (b, false,
          [LOG Log.Error "PCIBridge" "Config write to unimplemented device '{}'"
             [Log.Str name]]).
Proof. intros Hown Hname Hdev. unfold ConfigWrite. now rewrite Hown, Hname, Hdev. Qed.

(** An address of the own window that is no register: the read logs and
    leaves the buffer as it was. *)
Lemma Read_unknown_reg (b : Bridge D) (address : Z) (data : list Z) (size : nat) :
  in_own_window address = true ->
  reg_at address = None ->
  Read b address data size
  = Some (b, data, true,
          [LOG Log.Error "PCIBridge" "Unknown reg being read: 0x{:X}"
             [Log.Num address]]).
Proof. intros Hwin Hreg. unfold Read. now rewrite Hwin, Hreg. Qed.

Lemma Write_unknown_reg (b : Bridge D) (address : Z) (data : list Z) (size : nat) :
  in_own_window address = true ->
  reg_at address = None ->
  (Nat.min size 8 <= length data)%nat ->
  exists tmp,
    Write b address data size
    = Some (b, true,
            [LOG Log.Error "PCIBridge" "Unknown reg being written: 0x{:X}, 0x{:X}"
               [Log.Num address; Log.Num tmp]]).
Proof.
  intros Hwin Hreg Hsize. unfold Write, memcpy. rewrite le_bytes_length.
  assert (E1 : (Nat.min size 8 <=? length data)%nat = true) by (apply Nat.leb_le; lia).
  assert (E2 : (Nat.min size 8 <=? 8)%nat = true) by (apply Nat.leb_le; lia).
  rewrite E1, E2. simpl. rewrite Hwin, Hreg. eexists. reflexivity.
Qed.

End WithDevices.

(** C7, the failing input: a configuration read of device number 3,
    which is not in the device table, on a bus with nothing attached.
    The call reports success and the caller's buffer is left as it was,
    not filled with [0xFF]. *)
Theorem ConfigRead_devNum3_leaves_buffer :
  devNum (u32 0x1800) = 3 /\
  ConfigRead Sample.bridge 0x1800 [0; 0; 0; 0] 4
  = Some (Sample.bridge, [0; 0; 0; 0], true,
          [LOG Log.Error "PCIBridge"
             "Config Space Read: Unknown device accessed: Dev 0x{:X}, Reg 0x{:X}"
             [Log.Num 3; Log.Num 0]]).
Proof. split; reflexivity. Qed.

(** The sibling path, for comparison: device number 0xA (the SMC) with
    nothing attached fills the buffer with [0xFF] and reports failure. *)
Lemma ConfigRead_absent_SMC_fills_FF :
  ConfigRead Sample.bridge 0x5000 [0; 0; 0; 0] 4
  = Some (Sample.bridge, [0xFF; 0xFF; 0xFF; 0xFF], false,
          [LOG Log.Error "PCIBridge" "Read to unimplemented device: {}"
             [Log.Str "SMC"]]).
Proof. reflexivity. Qed.

End BridgeFacts.

(** ** Running programs of the state-and-trace monad *)

Module ProgFacts.
Import Prog.
Local Open Scope prog_scope.

Lemma bind_run {S A B} (m : M S A) (k : A -> M S B) s a s1 e1 :
  m s = Some (a, s1, e1) ->
  bind m k s = match k a s1 with
               | None => None
               | Some (b, s2, e2) => Some (b, s2, e1 ++ e2)
               end.
Proof. intros E. unfold bind. now rewrite E. Qed.

Lemma bind_fault {S A B} (m : M S A) (k : A -> M S B) s :
  m s = None -> bind m k s = None.
Proof. intros E. unfold bind. now rewrite E. Qed.

Lemma bind_ok {S A B} (m : M S A) (k : A -> M S B) s a s1 e1 b s2 e2 :
  m s = Some (a, s1, e1) ->
  k a s1 = Some (b, s2, e2) ->
  bind m k s = Some (b, s2, e1 ++ e2).
Proof. intros E1 E2. rewrite (bind_run m k s a s1 e1 E1). now rewrite E2. Qed.

End ProgFacts.

(** ** SMC: registers outside the switch *)

Module SMCRegisterFacts.
Import Types Mem MemFacts Prog ProgFacts SMC.
Local Open Scope prog_scope.

Lemma not_label (x a : Z) (l : list Z) :
  ~ In x (a :: l) -> (x =? a) = false /\ ~ In x l.
Proof.
  intros Hn. split.
  - apply Z.eqb_neq. intros ->. apply Hn. now left.
  - intros Hin. apply Hn. now right.
Qed.

Ltac split_labels H :=
  repeat (let E := fresh "E" in apply not_label in H as [E H]; rewrite ?E).

Section WithBackend.

Context {U : Type} `{HW_UART U}.

(** A read at an offset that is none of the switch's labels logs an
    error and hands the buffer back as it was; the device is unchanged. *)
Lemma Read_unknown_register (s : State U) (address : Z) (data : list Z) (size : nat) :
  ~ In (u8 address) read_labels ->
  Read address data size s
  = Some (data, s,
          [LOG Log.Error "SMC" "Unknown register being read, offset 0x{:X}"
             [Log.Num (u8 address)]]).
Proof.
  intros Hn. unfold Read, read_labels in *. split_labels Hn. reflexivity.
Qed.

(** A write at an offset that is none of the switch's labels logs an
    error and leaves the device unchanged. *)
Lemma Write_unknown_register (s : State U) (address : Z) (data : list Z) (size : nat) :
  ~ In (u8 address) write_labels ->
  (size <= 8)%nat -> (size <= length data)%nat ->
  exists tmp,
    Write address data size s
    = Some (tt, s,
            [LOG Log.Error "SMC"
               "Unknown register being written, offset 0x{:X}, data 0x{:X}"
               [Log.Num (u8 address); Log.Num tmp]]).
Proof.
  intros Hn H8 Hlen. unfold Write, write_labels in *. split_labels Hn.
  assert (Hcpy : memcpy (le_bytes 8 0) data size
                 = Some (take size data ++ drop size (le_bytes 8 0))).
  { unfold memcpy. rewrite le_bytes_length.
    apply Nat.leb_le in H8, Hlen. now rewrite H8, Hlen. }
  eexists. erewrite bind_run by (unfold lift; rewrite Hcpy; reflexivity).
  reflexivity.
Qed.

End WithBackend.

End SMCRegisterFacts.

(** ** Unimplemented registers *)

Module UnknownRegister.
Import Types Mem PCIBridge.

(** C6, as amended: an MMIO read inside a device's window at an address
    that is no register of the device, one that neither its [Read] nor
    its [Write] has a case for, logs at error level and leaves the
    destination buffer exactly as the caller passed it (nothing is
    written to it, so it holds zeros only if the caller had cleared it);
    the corresponding write logs at error level and leaves the device
    unchanged.  This holds for the bridge's own window, where the two
    switches have the same labels, and for the SMC. *)
Theorem unknown_register_access_leaves_buffer_and_state
    {D : Type} `{PCIDevice D} {U : Type} `{HW_UART U}
    (b : Bridge D) (s : SMC.State U) (address : Z) (data : list Z) (size : nat) :
  (in_own_window address = true -> reg_at address = None ->
   (exists ev, Read b address data size = Some (b, data, true, [ev]) /\
               is_error_log ev = true) /\
   ((Nat.min size 8 <= length data)%nat ->
    exists ev, Write b address data size = Some (b, true, [ev]) /\
               is_error_log ev = true)) /\
  (~ In (u8 address) SMC.read_labels -> ~ In (u8 address) SMC.write_labels ->
   (exists ev, SMC.Read address data size s = Some (data, s, [ev]) /\
               is_error_log ev = true) /\
   ((size <= 8)%nat -> (size <= length data)%nat ->
    exists ev, SMC.Write address data size s = Some (tt, s, [ev]) /\
               is_error_log ev = true)).
Proof.
  split.
  - intros Hwin Hreg. split.
    + eexists. split; [apply BridgeFacts.Read_unknown_reg; assumption | reflexivity].
    + intros Hlen.
      destruct (BridgeFacts.Write_unknown_reg b address data size Hwin Hreg Hlen)
        as [tmp E].
      eexists. split; [exact E | reflexivity].
  - intros Hr Hw. split.
    + eexists.
      split; [apply SMCRegisterFacts.Read_unknown_register; assumption | reflexivity].
    + intros H8 Hlen.
      destruct (SMCRegisterFacts.Write_unknown_register s address data size Hw H8 Hlen)
        as [tmp E].
      eexists. split; [exact E | reflexivity].
Qed.

(** A read and a write of the bridge's own window at [0xEA000008], and of
    the SMC at offset [0x20]. *)
Lemma unknown_register_access_leaves_buffer_and_state_witness :
  (exists ev, Read Sample.bridge 0xEA000008 [1; 2; 3; 4] 4
              = Some (Sample.bridge, [1; 2; 3; 4], true, [ev]) /\
              is_error_log ev = true) /\
  (exists ev, Write Sample.bridge 0xEA000008 [1; 2; 3; 4] 4
              = Some (Sample.bridge, true, [ev]) /\
              is_error_log ev = true) /\
  (exists ev, SMC.Read 0xEA001020 [1; 2; 3; 4] 4 Sample.smc0
              = Some ([1; 2; 3; 4], Sample.smc0, [ev]) /\
              is_error_log ev = true) /\
  (exists ev, SMC.Write 0xEA001020 [1; 2; 3; 4] 4 Sample.smc0
              = Some (tt, Sample.smc0, [ev]) /\
              is_error_log ev = true).
Proof.
  destruct (unknown_register_access_leaves_buffer_and_state
              Sample.bridge Sample.smc0 0xEA000008 [1; 2; 3; 4] 4)
    as (W1 & _).
  destruct (unknown_register_access_leaves_buffer_and_state
              Sample.bridge Sample.smc0 0xEA001020 [1; 2; 3; 4] 4)
    as (_ & W2).
  destruct (W1 eq_refl eq_refl) as [R1 R2].
  assert (Hr : ~ In (u8 0xEA001020) SMC.read_labels)
    by (vm_compute; intuition discriminate).
  assert (Hw : ~ In (u8 0xEA001020) SMC.write_labels)
    by (vm_compute; intuition discriminate).
  destruct (W2 Hr Hw) as [R3 R4].
  split; [exact R1|]. split; [apply R2; simpl; lia|].
  split; [exact R3 | apply R4; simpl; lia].
Defined.

(** C6, as stated, fails: a read of the bridge's own window at
    [0xEA000008], which is no register, into a buffer that holds
    [1, 2, 3, 4] leaves [1, 2, 3, 4] there, not zeros. *)
Lemma Read_unknown_reg_does_not_zero :
  in_own_window 0xEA000008 = true /\
  reg_at 0xEA000008 = None /\
  Read Sample.bridge 0xEA000008 [1; 2; 3; 4] 4
  = Some (Sample.bridge, [1; 2; 3; 4], true,
          [LOG Log.Error "PCIBridge" "Unknown reg being read: 0x{:X}"
             [Log.Num 0xEA000008]]).
Proof. repeat split. Qed.

End UnknownRegister.

(** ** SMC: configuration space and BAR discovery *)

Module ConfigFacts.
Import Types Mem MemFacts Prog ProgFacts SMC Guest.
Local Open Scope prog_scope.

Lemma le_bytes_take (n m : nat) (v : Z) :
  take n (le_bytes (n + m) v) = le_bytes n v.
Proof.
  revert v. induction n as [|n IH]; intros v; [reflexivity|].
  simpl. now rewrite IH.
Qed.

Lemma word_high_zero (v : Z) : 0 <= v < 2 ^ 32 -> v / 256 / 256 / 256 / 256 = 0.
Proof.
  intros Hv. rewrite !Z.div_div by lia. apply Z.div_small.
  change (256 * 256 * 256 * 256) with (2 ^ 32). lia.
Qed.

(** [u64 tmp = 0; memcpy(&tmp, data, 4)] with [data] the image of a
    32-bit word gives that word. *)
Lemma tmp_of_word (v : Z) :
  0 <= v < 2 ^ 32 ->
  exists bs, memcpy (le_bytes 8 0) (le_bytes 4 v) 4 = Some bs /\ le_value bs = v.
Proof.
  intros Hv. eexists. split; [reflexivity|].
  change (take 4 (le_bytes 4 v) ++ drop 4 (le_bytes 8 0))
    with (le_bytes 4 v ++ [0; 0; 0; 0]).
  assert (E : le_bytes 4 v ++ [0; 0; 0; 0] = le_bytes 8 v).
  { cbn [le_bytes app]. rewrite (word_high_zero v Hv). reflexivity. }
  rewrite E, le_value_le_bytes. apply Z.mod_small.
  change (2 ^ (8 * Z.of_nat 8)) with (2 ^ 64). lia.
Qed.

Lemma in_bar_range (k : Z) :
  0 <= k < 6 -> k = 0 \/ k = 1 \/ k = 2 \/ k = 3 \/ k = 4 \/ k = 5.
Proof. lia. Qed.

Lemma bar_in_window (k : Z) :
  0 <= k < 6 -> (BAR k >=? 0x10) && (BAR k <? 0x34) = true.
Proof. intros Hk. unfold BAR. apply andb_true_iff. split; lia. Qed.

Lemma bar_index (k : Z) : 0 <= k < 6 -> Z.shiftr (BAR k - 0x10) 2 = k.
Proof.
  intros Hk. unfold BAR. rewrite Z.shiftr_div_pow2 by lia.
  replace (16 + 4 * k - 16) with (k * 2 ^ 2) by lia. apply Z.div_mul. lia.
Qed.

Lemma bar_not_rom (k : Z) : 0 <= k < 6 -> (BAR k =? 0x30) = false.
Proof. intros Hk. unfold BAR. lia. Qed.

Section WithBackend.

Context {U : Type} `{HW_UART U}.

Lemma ConfigRead_run (s : State U) (address : Z) (data : list Z) (size : nat) :
  ConfigRead address data size s
  = match memcpy data (drop (Z.to_nat (u8 address)) (pciConfigSpace s)) size with
    | Some d =>
        Some (d, s,
              [LOG Log.Info "SMC" "ConfigRead: Address = 0x{:X}, size = 0x{:X}."
                 [Log.Num address; Log.Num (Z.of_nat size)]])
    | None => None
    end.
Proof.
  unfold ConfigRead, log, bind, emit, get, lift. simpl.
  destruct (memcpy _ _ _); reflexivity.
Qed.

(** A 32-bit write to [BARk]: the word stored is [bar_store]. *)
Lemma ConfigWrite_BAR_run (s : State U) (address k v devSize : Z) :
  0 <= k < 6 ->
  u8 address = BAR k ->
  pciDevSizes s !! Z.to_nat k = Some devSize ->
  0 <= v < 2 ^ 32 ->
  ConfigWrite address (le_bytes 4 v) 4 s
  = match memcpy_at (pciConfigSpace s) (Z.to_nat (BAR k))
            (le_bytes 8 (bar_store devSize v)) 4 with
    | Some cfg =>
        Some (tt, set_configSpace s cfg,
              [LOG Log.Debug "SMC"
                 "ConfigWrite: Address = 0x{:X}, Data = 0x{:X}, size = 0x{:X}."
                 [Log.Num address; Log.Num v; Log.Num 4]])
    | None => None
    end.
Proof.
  intros Hk Haddr Hsize Hv.
  destruct (tmp_of_word v Hv) as (bs & Hbs & Hval).
  unfold ConfigWrite.
  erewrite bind_run by (unfold lift; rewrite Hbs; reflexivity).
  cbv beta zeta. rewrite Hval, Haddr.
  erewrite bind_run by reflexivity.
  erewrite bind_run by reflexivity.
  rewrite (bar_in_window k Hk), (bar_index k Hk), (bar_not_rom k Hk).
  erewrite (bind_run (bind _ _))
    by (erewrite bind_run by (unfold lift; rewrite Hsize; reflexivity); reflexivity).
  unfold bind, lift, put.
  destruct (memcpy_at _ _ _ _); reflexivity.
Qed.

(** A 32-bit write to [BARk] followed by a 32-bit read of [BARk]
    returns the word that was stored. *)
Lemma config_write_read_BAR (s : State U) (address k v devSize : Z) :
  0 <= k < 6 ->
  u8 address = BAR k ->
  pciDevSizes s !! Z.to_nat k = Some devSize ->
  0 <= v < 2 ^ 32 ->
  length (pciConfigSpace s) = 256%nat ->
  exists cfg evs,
    config_write_read address v s
    = Some (bar_store devSize v mod 2 ^ 32, set_configSpace s cfg, evs) /\
    length cfg = 256%nat.
Proof.
  intros Hk Haddr Hsize Hv Hlen.
  pose proof (ConfigWrite_BAR_run s address k v devSize Hk Haddr Hsize Hv) as Hw.
  destruct (memcpy_at (pciConfigSpace s) (Z.to_nat (BAR k))
              (le_bytes 8 (bar_store devSize v)) 4) as [cfg|] eqn:Hcfg.
  - exists cfg. eexists. split; [|now rewrite (memcpy_at_length _ _ _ _ _ Hcfg)].
    unfold config_write_read.
    rewrite (bind_run _ _ _ _ _ _ Hw).
    pose proof (memcpy_at_read_back _ _ _ _ _ [0; 0; 0; 0] Hcfg eq_refl) as Hr.
    rewrite (le_bytes_take 4 4) in Hr.
    erewrite bind_run
      by (rewrite ConfigRead_run, Haddr; simpl pciConfigSpace; rewrite Hr; reflexivity).
    unfold ret. rewrite le_value_le_bytes. reflexivity.
  - exfalso. unfold memcpy_at, memcpy in Hcfg. rewrite le_bytes_length in Hcfg.
    rewrite length_drop, Hlen in Hcfg.
    destruct (in_bar_range k Hk) as [-> | [-> | [-> | [-> | [-> | ->]]]]];
      discriminate Hcfg.
Qed.

End WithBackend.

(** A decidable property checked on [0 .. N-1] holds on that range. *)
Lemma checked_below (P : Z -> bool) (N : nat) :
  forallb P (map Z.of_nat (seq 0 N)) = true ->
  forall n, 0 <= n < Z.of_nat N -> P n = true.
Proof.
  intros Hall n Hn. rewrite List.forallb_forall in Hall. apply Hall.
  apply List.in_map_iff. exists (Z.to_nat n). split; [lia|].
  apply List.in_seq. lia.
Qed.

(** One round of the loop: [tmp &= ~x] clears bit [j], [x <<= 1]. *)
Lemma bar_round_tmp (j : Z) :
  1 <= j <= 30 ->
  Z.land (cleared_below j) (u64 (Z.lnot (2 ^ j))) = cleared_below (j + 1).
Proof.
  intros Hj. apply Z.eqb_eq.
  pose proof (checked_below
                (fun e => (e =? 0)
                          || (Z.land (cleared_below e) (u64 (Z.lnot (2 ^ e)))
                              =? cleared_below (e + 1))) 31 eq_refl j ltac:(lia))
    as Hc.
  apply orb_true_iff in Hc as [Hc|Hc]; [lia | exact Hc].
Qed.

Lemma bar_round_x (j : Z) : 0 <= j <= 30 -> u64 (Z.shiftl (2 ^ j) 1) = 2 ^ (j + 1).
Proof.
  intros Hj. rewrite Z.shiftl_mul_pow2 by lia.
  rewrite <- Z.pow_add_r by lia. apply TypesFacts.u64_small.
  split; [apply Z.pow_nonneg; lia | apply Z.pow_lt_mono_r; lia].
Qed.

(** The loop from [x = 2^j] with [r + 1] rounds left clears the bits up
    to the exponent of the size rounded up, or up to its last round. *)
Lemma bar_loop_closed (size : Z) :
  0 < size ->
  forall (r : nat) (j : Z),
    1 <= j -> j + Z.of_nat (S r) <= 30 ->
    bar_loop (S r) (cleared_below j) (2 ^ j) size
    = cleared_below (Z.max (j + 1) (Z.min (Z.log2_up size) (j + Z.of_nat (S r)))).
Proof.
  intros Hsize. induction r as [|r IH]; intros j Hj Hfit.
  - cbn [bar_loop]. rewrite bar_round_tmp by lia.
    replace (Z.max (j + 1) (Z.min (Z.log2_up size) (j + Z.of_nat 1))) with (j + 1) by lia.
    now destruct (_ >=? _).
  - remember (S r) as r' eqn:Er. cbn [bar_loop].
    rewrite bar_round_tmp, bar_round_x by lia.
    destruct (2 ^ (j + 1) >=? size) eqn:Ecmp.
    + assert (Hle : Z.log2_up size <= j + 1)
        by (apply Z.log2_up_le_pow2; [exact Hsize | lia]).
      f_equal. lia.
    + assert (Hgt : ~ Z.log2_up size <= j + 1).
      { intros Hle. apply Z.log2_up_le_pow2 in Hle; [lia | exact Hsize]. }
      subst r'. rewrite IH by lia. f_equal. lia.
Qed.

Lemma bar_final_mask (e : Z) :
  2 <= e <= 30 ->
  Z.land (cleared_below e) (u64 (Z.lnot 0x3)) = spec_size_mask (2 ^ e).
Proof.
  intros He. apply Z.eqb_eq.
  pose proof (checked_below
                (fun e => (e <? 2)
                          || (Z.land (cleared_below e) (u64 (Z.lnot 0x3))
                              =? spec_size_mask (2 ^ e))) 31 eq_refl e ltac:(lia))
    as Hc.
  apply orb_true_iff in Hc as [Hc|Hc]; [lia | exact Hc].
Qed.

(** What the discovery stores, for every size: the specification's mask
    of the size rounded up to a power of two between [4] and [2^30]. *)
Lemma bar_size_discovery_closed (size : Z) :
  0 < size ->
  bar_size_discovery 0xFFFFFFFF size = spec_size_mask (2 ^ rounded_exponent size).
Proof.
  intros Hsize. unfold bar_size_discovery.
  change 0xFFFFFFFF with (cleared_below 1). change 2 with (2 ^ 1) at 1.
  rewrite (bar_loop_closed size Hsize 28 1) by lia.
  replace (Z.max (1 + 1) (Z.min (Z.log2_up size) (1 + Z.of_nat 29)))
    with (rounded_exponent size) by (unfold rounded_exponent; lia).
  apply bar_final_mask. unfold rounded_exponent. lia.
Qed.

Lemma spec_size_mask_small (e : Z) :
  0 <= e <= 30 -> spec_size_mask (2 ^ e) mod 2 ^ 32 = spec_size_mask (2 ^ e).
Proof.
  intros He. apply Z.eqb_eq.
  apply (checked_below
           (fun e => spec_size_mask (2 ^ e) mod 2 ^ 32 =? spec_size_mask (2 ^ e))
           31 eq_refl e).
  lia.
Qed.

(** On a power of two up to [2^30] the rounding changes nothing the
    mask can see. *)
Lemma rounded_mask_pow2 (n : Z) :
  0 <= n <= 30 ->
  spec_size_mask (2 ^ rounded_exponent (2 ^ n)) = spec_size_mask (2 ^ n).
Proof.
  intros Hn. unfold rounded_exponent. rewrite Z.log2_up_pow2 by lia.
  replace (Z.min 30 (Z.max 2 n)) with (Z.max 2 n) by lia.
  apply Z.eqb_eq.
  apply (checked_below
           (fun e => spec_size_mask (2 ^ Z.max 2 e) =? spec_size_mask (2 ^ e))
           31 eq_refl n).
  lia.
Qed.

Lemma bar_store_discovery (size : Z) :
  0 < size -> bar_store size 0xFFFFFFFF = spec_size_mask (2 ^ rounded_exponent size).
Proof.
  intros Hsize. unfold bar_store.
  assert (Hpos : (size =? 0) = false) by lia.
  rewrite Hpos. simpl negb. cbv iota.
  change (0xFFFFFFFF =? 0xFFFFFFFF) with true. cbv iota.
  now apply bar_size_discovery_closed.
Qed.

Lemma bar_store_normal (devSize v : Z) : v <> 0xFFFFFFFF -> bar_store devSize v = v.
Proof.
  intros Hv. unfold bar_store. apply Z.eqb_neq in Hv. rewrite Hv.
  now destruct (negb (devSize =? 0)).
Qed.

Lemma bar_store_unimplemented (v : Z) : bar_store 0 v = v.
Proof. reflexivity. Qed.

(** C3, as amended: for every BAR index [k] with [barSizes[k] != 0], a
    32-bit [ConfigWrite] of [0xFFFFFFFF] to [BARk] followed by a
    [ConfigRead] of [BARk] returns [~(P-1) & 0xFFFFFFFC], where [P] is
    [barSizes[k]] rounded up to a power of two, no less than 4 and no
    more than [2^30]; whenever [barSizes[k]] is a power of two up to
    [2^30] this is [~(barSizes[k]-1) & 0xFFFFFFFC].  After a following
    normal (other than [0xFFFFFFFF]) 32-bit write the next read returns
    the value written. *)
Theorem BAR_discovery_rounds_size_up
    {U : Type} `{HW_UART U} (s : State U) (address k size v : Z) :
  0 <= k < 6 ->
  u8 address = BAR k ->
  pciDevSizes s !! Z.to_nat k = Some size ->
  0 < size ->
  length (pciConfigSpace s) = 256%nat ->
  0 <= v < 2 ^ 32 ->
  v <> 0xFFFFFFFF ->
  (exists s' evs,
     probe_bar address v s
     = Some ((spec_size_mask (2 ^ rounded_exponent size), v), s', evs)) /\
  (forall n, 0 <= n <= 30 -> size = 2 ^ n ->
     spec_size_mask (2 ^ rounded_exponent size) = spec_size_mask size).
Proof.
  intros Hk Haddr Hsize Hpos Hlen Hv Hnormal. split.
  - destruct (config_write_read_BAR s address k 0xFFFFFFFF size Hk Haddr Hsize)
      as (cfg1 & evs1 & E1 & Hlen1); [lia | exact Hlen |].
    rewrite (bar_store_discovery size Hpos) in E1.
    rewrite spec_size_mask_small in E1 by (unfold rounded_exponent; lia).
    destruct (config_write_read_BAR (set_configSpace s cfg1) address k v size
                Hk Haddr Hsize Hv Hlen1)
      as (cfg2 & evs2 & E2 & _).
    rewrite (bar_store_normal _ v Hnormal), Z.mod_small in E2 by lia.
    unfold probe_bar.
    rewrite (bind_run _ _ _ _ _ _ E1), (bind_run _ _ _ _ _ _ E2).
    eexists. eexists. reflexivity.
  - intros n Hn ->. now apply rounded_mask_pow2.
Qed.

(** The scenario of the specification: [barSizes[0] = 0x1000] gives the
    discovery read [0xFFFFF000]. *)
Lemma BAR_discovery_rounds_size_up_witness :
  exists s' evs,
    probe_bar (BAR 0) 0xE0000000 (Sample.smc [0x1000; 0; 0; 0; 0; 0] [])
    = Some ((0xFFFFF000, 0xE0000000), s', evs).
Proof.
  destruct (BAR_discovery_rounds_size_up
              (Sample.smc [0x1000; 0; 0; 0; 0; 0] []) (BAR 0) 0 0x1000 0xE0000000)
    as [W _]; first [reflexivity | discriminate | lia | idtac].
  exact W.
Defined.

(** C3, as stated, fails on sizes the loop does not round as the
    formula does: for [barSizes[0] = 9] the discovery read returns
    [0xFFFFFFF0] where the formula gives [0xFFFFFFF4], and for
    [barSizes[0] = 2^31] the loop stops after its last round and the
    read returns [0xC0000000] where the formula gives [0x80000000]. *)
Lemma BAR_discovery_differs_from_formula :
  (option_map (fun r => fst (fst r))
     (config_write_read (BAR 0) 0xFFFFFFFF (Sample.smc [9; 0; 0; 0; 0; 0] []))
   = Some 0xFFFFFFF0 /\
   spec_size_mask 9 = 0xFFFFFFF4) /\
  (option_map (fun r => fst (fst r))
     (config_write_read (BAR 0) 0xFFFFFFFF
        (Sample.smc [0x80000000; 0; 0; 0; 0; 0] []))
   = Some 0xC0000000 /\
   spec_size_mask 0x80000000 = 0x80000000).
Proof. repeat split; vm_compute; reflexivity. Qed.

(** C5, what the code does: for a BAR index [k] with [barSizes[k] = 0]
    a 32-bit [ConfigWrite] stores the written value as it is,
    [0xFFFFFFFF] included, and the following [ConfigRead] of [BARk]
    returns that value, not zero: the size discovery is guarded by
    [pciDevSizes[regOffset] != 0] and nothing clears [tmp] when the
    guard fails, as the same function does for offset [0x30]. *)
Theorem unimplemented_BAR_reads_back_written_value
    {U : Type} `{HW_UART U} (s : State U) (address k v : Z) :
  0 <= k < 6 ->
  u8 address = BAR k ->
  pciDevSizes s !! Z.to_nat k = Some 0 ->
  length (pciConfigSpace s) = 256%nat ->
  0 <= v < 2 ^ 32 ->
  exists s' evs, config_write_read address v s = Some (v, s', evs).
Proof.
  intros Hk Haddr Hsize Hlen Hv.
  destruct (config_write_read_BAR s address k v 0 Hk Haddr Hsize Hv Hlen)
    as (cfg & evs & E & _).
  rewrite bar_store_unimplemented, Z.mod_small in E by lia.
  eexists. eexists. exact E.
Qed.

(** The failing input: on the SMC as it is constructed
    ([pciDevSizes[1] = 0]) a write of [0xFFFFFFFF] to [BAR1] reads back
    as [0xFFFFFFFF]. *)
Lemma unimplemented_BAR_reads_back_written_value_witness :
  exists s' evs,
    config_write_read (BAR 1) 0xFFFFFFFF Sample.smc0 = Some (0xFFFFFFFF, s', evs).
Proof.
  apply (unimplemented_BAR_reads_back_written_value Sample.smc0 (BAR 1) 1 0xFFFFFFFF);
    first [reflexivity | lia].
Defined.

(** The same by evaluation, and for another value and BAR: every BAR of
    size 0 returns what was last written to it. *)
Lemma unimplemented_BAR_reads_nonzero :
  pciDevSizes Sample.smc0 !! 1%nat = Some 0 /\
  option_map (fun r => fst (fst r))
    (config_write_read (BAR 1) 0xFFFFFFFF Sample.smc0)
  = Some 0xFFFFFFFF /\
  pciDevSizes Sample.smc0 !! 3%nat = Some 0 /\
  option_map (fun r => fst (fst r))
    (config_write_read (BAR 3) 0x12345678 Sample.smc0)
  = Some 0x12345678.
Proof. repeat split; vm_compute; reflexivity. Qed.

End ConfigFacts.

(** ** SMC: the FIFO cursor *)

Module FifoFacts.
Import Types Mem MemFacts Prog ProgFacts SMC Guest.
Local Open Scope prog_scope.

(** Decide the comparisons of the register switch once the offset is known. *)
Ltac decide_labels :=
  repeat match goal with
         | |- context [if (?a =? ?b) then _ else _] =>
             let r := eval vm_compute in (a =? b) in
             lazymatch r with true => idtac | false => idtac end;
             change (a =? b) with r; cbv iota
         end.

Section WithBackend.

Context {U : Type} `{HW_UART U}.

Lemma buffer_from_inside (buf : list Z) (pos : Z) :
  0 <= pos <= Z.of_nat (length buf) ->
  buffer_from buf pos = Some (drop (Z.to_nat pos) buf).
Proof.
  intros Hp. unfold buffer_from.
  assert (E1 : (0 <=? pos) = true) by lia.
  assert (E2 : (pos <=? Z.of_nat (length buf)) = true) by lia.
  now rewrite E1, E2.
Qed.

Lemma buffer_from_outside (buf : list Z) (pos : Z) :
  Z.of_nat (length buf) < pos -> buffer_from buf pos = None.
Proof.
  intros Hp. unfold buffer_from.
  assert (E2 : (pos <=? Z.of_nat (length buf)) = false) by lia.
  rewrite E2. now rewrite andb_false_r.
Qed.

(** A 32-bit write to [FIFO_IN_DATA] with the cursor at most 12 stores
    the word at the cursor and advances the cursor by 4. *)
Lemma Write_fifo_data (s : State U) (address : Z) (data : list Z) :
  u8 address = FIFO_IN_DATA_REG ->
  length (fifoDataBuffer s) = 16%nat ->
  0 <= fifoBufferPos s <= 12 ->
  (4 <= length data)%nat ->
  exists buf,
    Write address data 4 s = Some (tt, set_pos (set_fifo s buf) (fifoBufferPos s + 4), []) /\
    length buf = 16%nat.
Proof.
  intros Haddr Hlen Hpos Hdata. unfold Write. rewrite Haddr. decide_labels.
  erewrite bind_run by reflexivity.
  erewrite bind_run
    by (unfold lift; rewrite buffer_from_inside by lia; reflexivity).
  assert (Hcpy : memcpy (drop (Z.to_nat (fifoBufferPos s)) (fifoDataBuffer s)) data 4
                 = Some (take 4 data
                         ++ drop 4 (drop (Z.to_nat (fifoBufferPos s)) (fifoDataBuffer s)))).
  { unfold memcpy. rewrite length_drop, Hlen.
    assert (E1 : (4 <=? length data)%nat = true) by (apply Nat.leb_le; lia).
    assert (E2 : (4 <=? 16 - Z.to_nat (fifoBufferPos s))%nat = true)
      by (apply Nat.leb_le; lia).
    now rewrite E1, E2. }
  erewrite bind_run by (unfold lift; rewrite Hcpy; reflexivity).
  eexists. split; [reflexivity|].
  rewrite !length_app, !length_take, !length_drop, Hlen. lia.
Qed.

(** A 32-bit read of [FIFO_OUT_DATA] with the cursor at most 12 copies
    the word at the cursor and advances the cursor by 4. *)
Lemma Read_fifo_data (s : State U) (address : Z) (data : list Z) :
  u8 address = FIFO_OUT_DATA_REG ->
  length (fifoDataBuffer s) = 16%nat ->
  0 <= fifoBufferPos s <= 12 ->
  (4 <= length data)%nat ->
  Read address data 4 s
  = Some (take 4 (drop (Z.to_nat (fifoBufferPos s)) (fifoDataBuffer s)) ++ drop 4 data,
          set_pos s (fifoBufferPos s + 4), []).
Proof.
  intros Haddr Hlen Hpos Hdata. unfold Read. rewrite Haddr. decide_labels.
  erewrite bind_run by reflexivity.
  erewrite bind_run
    by (unfold lift; rewrite buffer_from_inside by lia; reflexivity).
  assert (Hcpy : memcpy data (drop (Z.to_nat (fifoBufferPos s)) (fifoDataBuffer s)) 4
                 = Some (take 4 (drop (Z.to_nat (fifoBufferPos s)) (fifoDataBuffer s))
                         ++ drop 4 data)).
  { unfold memcpy. rewrite length_drop, Hlen.
    assert (E1 : (4 <=? length data)%nat = true) by (apply Nat.leb_le; lia).
    assert (E2 : (4 <=? 16 - Z.to_nat (fifoBufferPos s))%nat = true)
      by (apply Nat.leb_le; lia).
    now rewrite E2, E1. }
  erewrite bind_run by (unfold lift; rewrite Hcpy; reflexivity).
  reflexivity.
Qed.

(** With the cursor past 12 there are fewer than four bytes left: the
    copy leaves the buffer.  Neither function checks the cursor. *)
Lemma fifo_data_overrun (s : State U) (wAddr rAddr : Z) (data out : list Z) :
  u8 wAddr = FIFO_IN_DATA_REG ->
  u8 rAddr = FIFO_OUT_DATA_REG ->
  length (fifoDataBuffer s) = 16%nat ->
  12 < fifoBufferPos s ->
  Write wAddr data 4 s = None /\ Read rAddr out 4 s = None.
Proof.
  intros Hw Hr Hlen Hpos.
  assert (Hsrc : forall a b,
             match buffer_from (fifoDataBuffer s) (fifoBufferPos s) with
             | Some src => memcpy a src 4 = None /\ memcpy src b 4 = None
             | None => True
             end).
  { intros a b. destruct (Z_le_gt_dec (fifoBufferPos s) 16) as [Hle|Hgt].
    - rewrite buffer_from_inside by lia. unfold memcpy.
      rewrite length_drop, Hlen.
      assert (E : (4 <=? 16 - Z.to_nat (fifoBufferPos s))%nat = false)
        by (apply Nat.leb_gt; lia).
      rewrite E. split; [now rewrite andb_false_l | now rewrite andb_false_r].
    - rewrite buffer_from_outside by lia. exact I. }
  split.
  - unfold Write. rewrite Hw. decide_labels.
    specialize (Hsrc data data). unfold bind, get, lift, ret, fault.
    destruct (buffer_from (fifoDataBuffer s) (fifoBufferPos s)) as [src|];
      [rewrite (proj2 Hsrc)|]; reflexivity.
  - unfold Read. rewrite Hr. decide_labels.
    specialize (Hsrc out out). unfold bind, get, lift, ret, fault.
    destruct (buffer_from (fifoDataBuffer s) (fifoBufferPos s)) as [src|];
      [rewrite (proj1 Hsrc)|]; reflexivity.
Qed.

(** The reset the guest is expected to perform: a 32-bit write of
    [FIFO_STATUS_READY] to [FIFO_IN_STATUS] clears the buffer and puts
    the cursor back to 0; the same write to [FIFO_OUT_STATUS] puts the
    cursor back to 0 and keeps the buffer. *)
Lemma fifo_status_write_resets_cursor (s : State U) (inAddr outAddr : Z) :
  u8 inAddr = FIFO_IN_STATUS_REG ->
  u8 outAddr = FIFO_OUT_STATUS_REG ->
  length (fifoDataBuffer s) = 16%nat ->
  (exists s',
     write32 inAddr FIFO_STATUS_READY s = Some (tt, s', []) /\
     fifoBufferPos s' = 0 /\
     fifoDataBuffer s' = replicate 16 0) /\
  (exists s',
     write32 outAddr FIFO_STATUS_READY s = Some (tt, s', []) /\
     fifoBufferPos s' = 0 /\
     fifoDataBuffer s' = fifoDataBuffer s).
Proof.
  intros Hin Hout Hlen. split.
  - unfold write32, Write. rewrite Hin. decide_labels.
    erewrite bind_run by reflexivity.
    erewrite bind_run by reflexivity.
    cbn [smcPCIState set_reg SMCReg_eqb].
    change (le_value _ =? FIFO_STATUS_READY) with true. cbv iota.
    unfold memset. cbn [fifoDataBuffer set_reg]. rewrite Hlen.
    eexists. split; [reflexivity|]. split; [reflexivity|].
    cbn [fifoDataBuffer set_pos set_fifo]. rewrite drop_ge by lia. reflexivity.
  - unfold write32, Write. rewrite Hout. decide_labels.
    erewrite bind_run by reflexivity.
    erewrite bind_run by reflexivity.
    cbn [smcPCIState set_reg SMCReg_eqb].
    change (le_value _ =? FIFO_STATUS_READY) with true. cbv iota.
    eexists. split; [reflexivity|]. split; reflexivity.
Qed.

(** Consecutive 32-bit writes to [FIFO_IN_DATA] succeed as long as the
    cursor stays inside the buffer, and move it by 4 each. *)
Lemma write_each_advances (address : Z) (chunks : list (list Z)) :
  u8 address = FIFO_IN_DATA_REG ->
  Forall (fun c => length c = 4%nat) chunks ->
  forall s : State U,
    length (fifoDataBuffer s) = 16%nat ->
    0 <= fifoBufferPos s ->
    fifoBufferPos s + 4 * Z.of_nat (length chunks) <= 16 ->
    exists s',
      write_each address chunks s = Some (tt, s', []) /\
      fifoBufferPos s' = fifoBufferPos s + 4 * Z.of_nat (length chunks) /\
      length (fifoDataBuffer s') = 16%nat.
Proof.
  intros Haddr Hchunks. induction Hchunks as [|c chunks Hc _ IH]; intros s Hlen H0 Hfit.
  - exists s. simpl. repeat split; [lia | exact Hlen].
  - cbn [length] in Hfit.
    destruct (Write_fifo_data s address c Haddr Hlen) as (buf & Ew & Hbuf); [lia | lia |].
    destruct (IH (set_pos (set_fifo s buf) (fifoBufferPos s + 4)))
      as (s' & Es & Hpos' & Hlen'); [exact Hbuf | simpl; lia | simpl; lia |].
    exists s'. cbn [write_each].
    rewrite (bind_ok _ _ _ _ _ _ _ _ _ Ew Es).
    repeat split; [|exact Hlen']. rewrite Hpos'. cbn [length]. simpl fifoBufferPos. lia.
Qed.

(** Consecutive 32-bit reads of [FIFO_OUT_DATA] likewise. *)
Lemma read_times_advances (address : Z) (n : nat) :
  u8 address = FIFO_OUT_DATA_REG ->
  forall s : State U,
    length (fifoDataBuffer s) = 16%nat ->
    0 <= fifoBufferPos s ->
    fifoBufferPos s + 4 * Z.of_nat n <= 16 ->
    exists bytes,
      read_times address n s
      = Some (bytes, set_pos s (fifoBufferPos s + 4 * Z.of_nat n), []) /\
      length bytes = (4 * n)%nat.
Proof.
  intros Haddr. induction n as [|n IH]; intros s Hlen H0 Hfit.
  - exists []. split; [|reflexivity]. cbn [read_times]. unfold ret.
    replace (fifoBufferPos s + 4 * Z.of_nat 0) with (fifoBufferPos s) by lia.
    now destruct s.
  - pose proof (Read_fifo_data s address [0; 0; 0; 0] Haddr Hlen) as Er.
    destruct (IH (set_pos s (fifoBufferPos s + 4))) as (bytes & Es & Hbytes);
      [exact Hlen | simpl; lia | simpl; lia |].
    eexists. cbn [read_times]. unfold read32.
    rewrite (bind_run _ _ _ _ _ _ (Er ltac:(lia) ltac:(simpl; lia))).
    rewrite (bind_run _ _ _ _ _ _ Es). unfold ret. simpl.
    replace (fifoBufferPos s + 4 + 4 * Z.of_nat n)
      with (fifoBufferPos s + 4 * Z.of_nat (S n)) by lia.
    split; [reflexivity|].
    rewrite length_app, app_nil_r, length_take, length_drop, Hlen, Hbytes. lia.
Qed.

End WithBackend.

(** C9: starting with the cursor at 0, four consecutive 32-bit writes
    to [FIFO_IN_DATA] (or four 32-bit reads of [FIFO_OUT_DATA]) succeed
    and leave the cursor [fifoBufferPos] at 16; with no status write in
    between to reset it, the next 32-bit access of either kind indexes
    past the 16-byte buffer, and since neither [SMC::Read] nor
    [SMC::Write] checks the cursor the access has no defined result. *)
Theorem fifo_cursor_overruns_after_four_accesses
    {U : Type} `{HW_UART U} (s : State U) (wAddr rAddr : Z) (c1 c2 c3 c4 : list Z) :
  u8 wAddr = FIFO_IN_DATA_REG ->
  u8 rAddr = FIFO_OUT_DATA_REG ->
  length (fifoDataBuffer s) = 16%nat ->
  fifoBufferPos s = 0 ->
  length c1 = 4%nat -> length c2 = 4%nat -> length c3 = 4%nat -> length c4 = 4%nat ->
  (exists s',
     write_each wAddr [c1; c2; c3; c4] s = Some (tt, s', []) /\
     fifoBufferPos s' = 16 /\
     forall data out,
       Write wAddr data 4 s' = None /\ Read rAddr out 4 s' = None) /\
  (exists bytes s',
     read_times rAddr 4 s = Some (bytes, s', []) /\
     fifoBufferPos s' = 16 /\
     forall data out,
       Write wAddr data 4 s' = None /\ Read rAddr out 4 s' = None).
Proof.
  intros Hw Hr Hlen Hpos L1 L2 L3 L4. split.
  - destruct (write_each_advances wAddr [c1; c2; c3; c4] Hw) with (s := s)
      as (s' & Es & Hpos' & Hlen'); [repeat constructor; assumption | exact Hlen | lia
                                    | rewrite Hpos; simpl; lia |].
    exists s'. split; [exact Es|]. rewrite Hpos in Hpos'. simpl in Hpos'.
    split; [exact Hpos'|].
    intros data out. apply fifo_data_overrun; [exact Hw | exact Hr | exact Hlen' | lia].
  - destruct (read_times_advances rAddr 4 Hr s Hlen) as (bytes & Es & _);
      [lia | rewrite Hpos; simpl; lia |].
    exists bytes. eexists. split; [exact Es|]. rewrite Hpos. simpl fifoBufferPos.
    split; [reflexivity|].
    intros data out. apply fifo_data_overrun;
      [exact Hw | exact Hr | exact Hlen | simpl; lia].
Qed.

(** On the SMC after start-up: four words go in, the fifth write has no
    defined result. *)
Lemma fifo_cursor_overruns_after_four_accesses_witness :
  option_map (fun r => fifoBufferPos (snd (fst r)))
    (write_each FIFO_IN_DATA_REG
       [[1; 2; 3; 4]; [5; 6; 7; 8]; [9; 10; 11; 12]; [13; 14; 15; 16]] Sample.smc0)
  = Some 16 /\
  write_each FIFO_IN_DATA_REG
    [[1; 2; 3; 4]; [5; 6; 7; 8]; [9; 10; 11; 12]; [13; 14; 15; 16]; [17; 18; 19; 20]]
    Sample.smc0
  = None.
Proof.
  destruct (fifo_cursor_overruns_after_four_accesses
              Sample.smc0 FIFO_IN_DATA_REG FIFO_OUT_DATA_REG
              [1; 2; 3; 4] [5; 6; 7; 8] [9; 10; 11; 12] [13; 14; 15; 16])
    as [(s' & Es & Hpos & Hnext) _]; try reflexivity.
  split.
  - rewrite Es. simpl. now rewrite Hpos.
  - change (write_each FIFO_IN_DATA_REG
              [[1; 2; 3; 4]; [5; 6; 7; 8]; [9; 10; 11; 12]; [13; 14; 15; 16];
               [17; 18; 19; 20]] Sample.smc0)
      with (Prog.bind
              (write_each FIFO_IN_DATA_REG
                 [[1; 2; 3; 4]; [5; 6; 7; 8]; [9; 10; 11; 12]; [13; 14; 15; 16]])
              (fun _ => Prog.bind (Write FIFO_IN_DATA_REG [17; 18; 19; 20] 4)
                          (fun _ => Prog.ret tt)) Sample.smc0).
    rewrite (bind_run _ _ _ _ _ _ Es).
    rewrite (bind_fault _ _ _ (proj1 (Hnext [17; 18; 19; 20] []))). reflexivity.
Defined.

End FifoFacts.

(** ** SMC: the FIFO command processing of the thread *)

Module ThreadFacts.
Import Types Mem MemFacts Prog ProgFacts SMC.
Local Open Scope prog_scope.

Lemma all_cmds_complete (c : SMC_FIFO_CMD) : In c all_cmds.
Proof. destruct c; simpl; tauto. Qed.

Lemma sample_cmd_code_inj (a b : SMC_FIFO_CMD) :
  Sample.cmd_code a = Sample.cmd_code b -> a = b.
Proof. destruct a, b; simpl; intros E; try reflexivity; discriminate E. Qed.

(** The routine parts of a [steady] conclusion once the run is explicit:
    what is left is that the state is well formed and the result. *)
Ltac steady_split :=
  split; [reflexivity
         | split; [
           | split; [reflexivity
                    | split; [reflexivity | split; [reflexivity | ]]]]].

Section WithBackend.

Context {U : Type} `{HW_UART U}.

Local Abbreviation SMCProg := (M (State U)).

Lemma steady_ret {A} (x : A) : steady (U := U) (ret x) (fun a => a = x).
Proof. intros s Hwf. exists x, s, []. steady_split; [exact Hwf | reflexivity]. Qed.

Lemma steady_ret_any {A} (x : A) : steady (U := U) (ret x) (fun _ => True).
Proof. intros s Hwf. exists x, s, []. steady_split; [exact Hwf | exact I]. Qed.

Lemma steady_get : steady (U := U) get (fun _ => True).
Proof. intros s Hwf. exists s, s, []. steady_split; [exact Hwf | exact I]. Qed.

Lemma steady_emit (e : Event) :
  is_handover e = false -> steady (U := U) (emit e) (fun _ => True).
Proof.
  intros He s Hwf. exists tt, s, [e]. unfold emit.
  split; [reflexivity|]. split; [exact Hwf|]. repeat (split; [reflexivity|]).
  split; [|exact I]. simpl. now rewrite He.
Qed.

Lemma steady_log lvl cls fmt args :
  steady (U := U) (log lvl cls fmt args) (fun _ => True).
Proof. now apply steady_emit. Qed.

Lemma steady_bind {A B} (m : SMCProg A) (k : A -> SMCProg B) (Q : A -> Prop)
    (R : B -> Prop) :
  steady m Q -> (forall a, Q a -> steady (k a) R) -> steady (bind m k) R.
Proof.
  intros Hm Hk s Hwf.
  destruct (Hm s Hwf) as (a & s1 & e1 & E1 & Hwf1 & Hr1 & Hc1 & Hq1 & HQ).
  destruct (Hk a HQ s1 Hwf1) as (b & s2 & e2 & E2 & Hwf2 & Hr2 & Hc2 & Hq2 & HR).
  exists b, s2, (e1 ++ e2). rewrite (bind_ok _ _ _ _ _ _ _ _ _ E1 E2).
  split; [reflexivity|]. split; [exact Hwf2|].
  split; [congruence|]. split; [congruence|]. split; [|exact HR].
  rewrite forallb_app. now rewrite Hq1, Hq2.
Qed.

Lemma steady_byte_at (i : nat) : (i < 16)%nat -> steady (U := U) (byte_at i) is_byte.
Proof.
  intros Hi s Hwf. pose proof Hwf as (Hlen & Hbytes & Hhana).
  destruct (lookup_lt_is_Some_2 (fifoDataBuffer s) i) as [b Hb]; [lia|].
  exists b, s, []. unfold byte_at.
  erewrite bind_run by reflexivity. unfold lift. rewrite Hb.
  steady_split; [exact Hwf|].
  exact (Forall_lookup_1 _ _ _ _ Hbytes Hb).
Qed.

Lemma steady_set_byte (i : nat) (v : Z) :
  (i < 16)%nat -> steady (U := U) (set_byte i v) (fun _ => True).
Proof.
  intros Hi s Hwf. destruct Hwf as (Hlen & Hbytes & Hhana).
  exists tt, (set_fifo s (<[i := u8 v]> (fifoDataBuffer s))), [].
  unfold set_byte. erewrite bind_run by reflexivity.
  assert (E : (i <? length (fifoDataBuffer s))%nat = true) by (apply Nat.ltb_lt; lia).
  rewrite E. steady_split; [|exact I].
  split; [|split]; simpl.
  - now rewrite length_insert.
  - apply Forall_insert; [assumption | apply TypesFacts.u8_range].
  - exact Hhana.
Qed.

Lemma steady_hana_at (i : Z) : is_byte i -> steady (U := U) (hana_at i) (fun _ => True).
Proof.
  intros Hi s Hwf. pose proof Hwf as (Hlen & Hbytes & Hhana). unfold is_byte in Hi.
  destruct (lookup_lt_is_Some_2 (hanaState s) (Z.to_nat i)) as [h Hh]; [lia|].
  exists h, s, []. unfold hana_at.
  erewrite bind_run by reflexivity. unfold lift. rewrite Hh.
  steady_split; [exact Hwf | exact I].
Qed.

Lemma steady_set_hana_at (i v : Z) :
  is_byte i -> steady (U := U) (set_hana_at i v) (fun _ => True).
Proof.
  intros Hi s Hwf. destruct Hwf as (Hlen & Hbytes & Hhana). unfold is_byte in Hi.
  exists tt, (set_hana s (<[Z.to_nat i := u32 v]> (hanaState s))), [].
  unfold set_hana_at. erewrite bind_run by reflexivity.
  assert (E : (Z.to_nat i <? length (hanaState s))%nat = true)
    by (apply Nat.ltb_lt; lia).
  rewrite E. steady_split; [|exact I].
  split; [|split]; simpl; try assumption.
  now rewrite length_insert.
Qed.

Lemma steady_zero_buffer : steady (U := U) zero_buffer (fun _ => True).
Proof.
  intros s Hwf. destruct Hwf as (Hlen & Hbytes & Hhana).
  exists tt, (set_fifo s (replicate 16 0 ++ drop 16 (fifoDataBuffer s))), [].
  unfold zero_buffer. erewrite bind_run by reflexivity.
  unfold memset. rewrite Hlen. simpl Nat.leb. cbv iota.
  erewrite bind_run by reflexivity.
  steady_split; [|exact I].
  split; [|split]; cbn [fifoDataBuffer hanaState set_fifo]; try assumption.
  - rewrite length_app, length_replicate, length_drop. lia.
  - apply Forall_app. split; [|now apply Forall_drop].
    apply Forall_replicate. unfold is_byte. simpl. lia.
Qed.

End WithBackend.

(** Discharge a [steady] goal by following the program's structure. *)
Ltac steady :=
  lazymatch goal with
  | |- steady (bind _ _) _ => eapply steady_bind; [steady | intros; steady]
  | |- steady (if ?c then _ else _) _ => destruct c; steady
  | |- steady (ret _) _ => first [apply steady_ret | apply steady_ret_any]
  | |- steady get _ => apply steady_get
  | |- steady (log _ _ _ _) _ => apply steady_log
  | |- steady (emit _) _ => apply steady_emit; reflexivity
  | |- steady (byte_at _) _ => apply steady_byte_at; lia
  | |- steady (set_byte _ _) _ => apply steady_set_byte; lia
  | |- steady (hana_at _) _ => apply steady_hana_at; assumption
  | |- steady (set_hana_at _ _) _ => apply steady_set_hana_at; assumption
  | |- steady zero_buffer _ => apply steady_zero_buffer
  | |- steady hana_at_byte6 _ => unfold hana_at_byte6; steady
  | |- steady i2c_address _ => unfold i2c_address; steady
  | |- steady (i2c_read_write _) _ => unfold i2c_read_write; steady
  end.

Section WithCommands.

Context {U : Type} `{HW_UART U}.
Variable cmd_code : SMC_FIFO_CMD -> Z.
Hypothesis cmd_code_inj : forall a b, cmd_code a = cmd_code b -> a = b.

Lemma cmd_case_code (c : SMC_FIFO_CMD) : cmd_case cmd_code (cmd_code c) = Some c.
Proof. apply find_code; [exact cmd_code_inj | apply all_cmds_complete]. Qed.

(** The switch takes the [SMC_SET_FP_LEDS] label exactly on that
    command's identifier. *)
Lemma cmd_case_fp_leds (id : Z) :
  (id =? cmd_code SMC_SET_FP_LEDS)
  = match cmd_case cmd_code id with
    | Some SMC_SET_FP_LEDS => true
    | _ => false
    end.
Proof.
  destruct (id =? cmd_code SMC_SET_FP_LEDS) eqn:E.
  - apply Z.eqb_eq in E. subst id. now rewrite cmd_case_code.
  - apply Z.eqb_neq in E.
    destruct (cmd_case cmd_code id) as [c|] eqn:Ec; [|reflexivity].
    apply find_code_sound in Ec.
    destruct c; try reflexivity. now elim E.
Qed.

Lemma i2c_read_write_steady :
  steady (U := U) (i2c_read_write cmd_code) (fun _ => True).
Proof. steady. Qed.

(** Every command is processed without fault; the dispatch touches only
    the buffer and the HANA image, and [noResponse] is set by
    [SMC_SET_FP_LEDS] alone. *)
Lemma dispatch_command_steady (s : State U) (id : Z) :
  well_formed s ->
  fifoDataBuffer s !! 0%nat = Some id ->
  exists noResponse s' evs,
    dispatch_command cmd_code s = Some (noResponse, s', evs) /\
    well_formed s' /\
    smcPCIState s' = smcPCIState s /\
    config s' = config s /\
    forallb (fun e => negb (is_handover e)) evs = true /\
    noResponse = (id =? cmd_code SMC_SET_FP_LEDS).
Proof.
  intros Hwf Hid. rewrite cmd_case_fp_leds.
  unfold dispatch_command.
  erewrite bind_run
    by (unfold byte_at; erewrite bind_run by reflexivity;
        unfold lift; rewrite Hid; reflexivity).
  cbv beta.
  assert (Hrun : forall (m : M (State U) bool) (r : bool),
             steady m (fun a => a = r) ->
             exists noResponse s' evs,
               match m s with
               | Some (b, s2, e2) => Some (b, s2, [] ++ [] ++ e2)
               | None => None
               end = Some (noResponse, s', evs) /\
               well_formed s' /\ smcPCIState s' = smcPCIState s /\
               config s' = config s /\
               forallb (fun e => negb (is_handover e)) evs = true /\
               noResponse = r).
  { intros m r Hm.
    destruct (Hm s Hwf) as (a & s' & evs & E & Hwf' & Hr & Hc & Hq & Ha).
    exists a, s', evs. rewrite E. simpl app.
    split; [reflexivity|]. split; [exact Hwf'|].
    split; [exact Hr|]. split; [exact Hc|]. split; [exact Hq | exact Ha]. }
  destruct (cmd_case cmd_code id) as [c|]; [destruct c|];
    apply Hrun; steady.
Qed.

Lemma store_run (s : State U) (r : SMCReg) (v : Z) :
  store r v s = Some (tt, set_reg s r v, [SMC_REG_STORE r v]).
Proof. reflexivity. Qed.

End WithCommands.

(** With [FIFO_IN_STATUS] other than [BUSY] the FIFO half of a turn does
    nothing. *)
Lemma smcFifoStep_idle
    {U : Type} `{HW_UART U} (cmd_code : SMC_FIFO_CMD -> Z) (s : State U) :
  smcPCIState s fifoInStatusReg <> FIFO_STATUS_BUSY ->
  smcFifoStep cmd_code s = Some (tt, s, []).
Proof.
  intros Hidle. apply Z.eqb_neq in Hidle. unfold smcFifoStep.
  erewrite bind_run by reflexivity. now rewrite Hidle.
Qed.

End ThreadFacts.

(** ** SMC: the HANA register file over the FIFO *)

Module HanaFacts.
Import Types Mem MemFacts Prog ProgFacts SMC Guest ThreadFacts.
Local Open Scope prog_scope.

Lemma u8_land_FF (x : Z) : u8 (Z.land x 0xFF) = Z.land x 0xFF.
Proof.
  apply TypesFacts.u8_small. change 0xFF with (Z.ones 8).
  rewrite Z.land_ones by lia. apply Z.mod_pos_bound. reflexivity.
Qed.

Lemma land_FF_is_byte (x : Z) : is_byte (Z.land x 0xFF).
Proof.
  unfold is_byte. change 0xFF with (Z.ones 8).
  rewrite Z.land_ones by lia. apply Z.mod_pos_bound. reflexivity.
Qed.

Section WithBackend.

Context {U : Type} `{HW_UART U}.

Lemma byte_at_run (s : State U) (i : nat) (b : Z) :
  fifoDataBuffer s !! i = Some b -> byte_at i s = Some (b, s, []).
Proof.
  intros Hb. unfold byte_at. erewrite bind_run by reflexivity.
  unfold lift. now rewrite Hb.
Qed.

Lemma set_byte_run (s : State U) (i : nat) (v : Z) :
  (i <? length (fifoDataBuffer s))%nat = true ->
  set_byte i v s = Some (tt, set_fifo s (<[i := u8 v]> (fifoDataBuffer s)), []).
Proof.
  intros Hi. unfold set_byte. erewrite bind_run by reflexivity. now rewrite Hi.
Qed.

Lemma hana_at_run (s : State U) (i h : Z) :
  hanaState s !! Z.to_nat i = Some h -> hana_at i s = Some (h, s, []).
Proof.
  intros Hh. unfold hana_at. erewrite bind_run by reflexivity.
  unfold lift. now rewrite Hh.
Qed.

Lemma hana_at_byte6_run (s : State U) (i h : Z) :
  fifoDataBuffer s !! 6%nat = Some i ->
  hanaState s !! Z.to_nat i = Some h ->
  hana_at_byte6 s = Some (h, s, []).
Proof.
  intros Hi Hh. unfold hana_at_byte6.
  rewrite (bind_run _ _ _ _ _ _ (byte_at_run s 6 i Hi)).
  now rewrite (hana_at_run s i h Hh).
Qed.

Lemma set_hana_at_run (s : State U) (i v : Z) :
  (Z.to_nat i < length (hanaState s))%nat ->
  set_hana_at i v s
  = Some (tt, set_hana s (<[Z.to_nat i := u32 v]> (hanaState s)), []).
Proof.
  intros Hi. unfold set_hana_at. erewrite bind_run by reflexivity.
  apply Nat.ltb_lt in Hi. now rewrite Hi.
Qed.

End WithBackend.

(** Run the next statement of a program whose buffer is explicit. *)
Ltac run_statement :=
  first [ apply byte_at_run; reflexivity
        | apply set_byte_run; reflexivity
        | eapply hana_at_byte6_run; [reflexivity | eassumption]
        | reflexivity ].

Ltac run := repeat (erewrite bind_run by run_statement; cbv beta iota).

(** Run a block that ends in a store to the buffer. *)
Ltac run_last := run; erewrite set_byte_run by reflexivity; reflexivity.

Section WithCommands.

Context {U : Type} `{HW_UART U}.
Variable cmd_code : SMC_FIFO_CMD -> Z.
Hypothesis cmd_code_inj : forall a b, cmd_code a = cmd_code b -> a = b.

(** Sub-operation [0x60] stores the assembled word in register [i]. *)
Lemma dispatch_smbus_write (s : State U) (i b8 b9 b10 b11 : Z) :
  is_byte i ->
  length (hanaState s) = 256%nat ->
  exists buf,
    dispatch_command cmd_code
      (set_fifo s (smbus_write_msg (cmd_code SMC_I2C_READ_WRITE) i b8 b9 b10 b11))
    = Some (false,
            set_hana (set_fifo s buf)
              (<[Z.to_nat i := smbus_word b8 b9 b10 b11]> (hanaState s)),
            []).
Proof.
  intros Hi Hlen. unfold is_byte in Hi. eexists.
  unfold dispatch_command, smbus_write_msg.
  erewrite bind_run by run_statement. cbv beta iota.
  rewrite (cmd_case_code cmd_code cmd_code_inj). cbv beta iota.
  unfold i2c_read_write.
  erewrite (bind_run (bind _ _)).
  2:{ run. FifoFacts.decide_labels. run.
      erewrite set_hana_at_run by (cbn [hanaState set_fifo]; lia).
      reflexivity. }
  reflexivity.
Qed.

(** Sub-operation [0x10] with byte 5 = [0xF0]: bytes 4, 5 and 6 come
    from register [i]; byte 7 comes from the register whose index is the
    new byte 6. *)
Lemma dispatch_smbus_read (s : State U) (i h h' : Z) :
  hanaState s !! Z.to_nat i = Some h ->
  hanaState s !! Z.to_nat (Z.land (Z.shiftr h 16) 0xFF) = Some h' ->
  exists buf,
    dispatch_command cmd_code
      (set_fifo s (smbus_read_msg (cmd_code SMC_I2C_READ_WRITE) i))
    = Some (false, set_fifo s buf, []) /\
    take 4 (drop 4 buf)
    = [Z.land h 0xFF; Z.land (Z.shiftr h 8) 0xFF; Z.land (Z.shiftr h 16) 0xFF;
       Z.land (Z.shiftr h' 24) 0xFF].
Proof.
  intros Hh Hh'. rewrite <- (u8_land_FF (Z.shiftr h 16)) in Hh'.
  eexists. split.
  - unfold dispatch_command, smbus_read_msg.
    erewrite bind_run by run_statement. cbv beta iota.
    rewrite (cmd_case_code cmd_code cmd_code_inj). cbv beta iota.
    unfold i2c_read_write.
    erewrite (bind_run (bind _ _)).
    2:{ run. FifoFacts.decide_labels. run. FifoFacts.decide_labels.
        erewrite (bind_run (bind hana_at_byte6 _)) by run_last.
        erewrite (bind_run (bind hana_at_byte6 _)) by run_last.
        erewrite (bind_run (bind hana_at_byte6 _)) by run_last.
        run_last. }
    reflexivity.
  - cbn [take drop]. now rewrite !u8_land_FF.
Qed.

End WithCommands.

(** C2, what the code does: after the SMC has processed the write of
    [V = byte8 | byte9<<8 | byte10<<16 | byte11<<24] to HANA register
    [i] (sub-operation [0x60]), processing the read of register [i]
    (sub-operation [0x10], byte 5 = [0xF0]) leaves [V & 0xFF],
    [(V>>8) & 0xFF] and [(V>>16) & 0xFF] in response bytes 4, 5 and 6, but
    byte 7 is [(W>>24) & 0xFF] for [W] the content of HANA register
    [(V>>16) & 0xFF]: byte 6, the register index, has been overwritten
    before byte 7 is fetched.  The round trip returns [V] only when that
    other register happens to have the top byte of [V]. *)
Theorem hana_read_back_takes_byte7_from_other_register
    {U : Type} `{HW_UART U} (cmd_code : SMC_FIFO_CMD -> Z) (s : State U)
    (i b8 b9 b10 b11 : Z) :
  (forall a b, cmd_code a = cmd_code b -> a = b) ->
  is_byte i ->
  length (hanaState s) = 256%nat ->
  exists s1 s2 W,
    dispatch_command cmd_code
      (set_fifo s (smbus_write_msg (cmd_code SMC_I2C_READ_WRITE) i b8 b9 b10 b11))
    = Some (false, s1, []) /\
    hanaState s1 = <[Z.to_nat i := smbus_word b8 b9 b10 b11]> (hanaState s) /\
    hanaState s1 !! Z.to_nat (Z.land (Z.shiftr (smbus_word b8 b9 b10 b11) 16) 0xFF)
    = Some W /\
    dispatch_command cmd_code
      (set_fifo s1 (smbus_read_msg (cmd_code SMC_I2C_READ_WRITE) i))
    = Some (false, s2, []) /\
    take 4 (drop 4 (fifoDataBuffer s2))
    = [Z.land (smbus_word b8 b9 b10 b11) 0xFF;
       Z.land (Z.shiftr (smbus_word b8 b9 b10 b11) 8) 0xFF;
       Z.land (Z.shiftr (smbus_word b8 b9 b10 b11) 16) 0xFF;
       Z.land (Z.shiftr W 24) 0xFF].
Proof.
  intros Hinj Hi Hlen.
  destruct (dispatch_smbus_write cmd_code Hinj s i b8 b9 b10 b11 Hi Hlen)
    as (buf1 & Ew).
  set (V := smbus_word b8 b9 b10 b11) in *.
  set (s1 := set_hana (set_fifo s buf1) (<[Z.to_nat i := V]> (hanaState s))) in *.
  assert (Hlen1 : length (hanaState s1) = 256%nat)
    by (cbn [s1 hanaState set_hana]; now rewrite length_insert).
  assert (Hi1 : hanaState s1 !! Z.to_nat i = Some V).
  { cbn [s1 hanaState set_hana]. apply list_lookup_insert_eq.
    unfold is_byte in Hi. lia. }
  destruct (lookup_lt_is_Some_2 (hanaState s1)
              (Z.to_nat (Z.land (Z.shiftr V 16) 0xFF))) as [W HW].
  { pose proof (land_FF_is_byte (Z.shiftr V 16)) as Hb. unfold is_byte in Hb. lia. }
  destruct (dispatch_smbus_read cmd_code Hinj s1 i V W Hi1 HW) as (buf2 & Er & Hbytes).
  exists s1, (set_fifo s1 buf2), W.
  split; [exact Ew|]. split; [reflexivity|]. split; [exact HW|].
  split; [exact Er | exact Hbytes].
Qed.

(** The failing input: [0xDEADBEEF] written to register [0x12] of a
    zeroed HANA image reads back as [0xEF, 0xBE, 0xAD, 0x00]. *)
Lemma hana_read_back_takes_byte7_from_other_register_witness :
  exists s1 s2,
    dispatch_command Sample.cmd_code (set_fifo Sample.smc0 Sample.hana_write_msg)
    = Some (false, s1, []) /\
    dispatch_command Sample.cmd_code (set_fifo s1 Sample.hana_read_msg)
    = Some (false, s2, []) /\
    take 4 (drop 4 (fifoDataBuffer s2)) = [0xEF; 0xBE; 0xAD; 0x00].
Proof.
  destruct (hana_read_back_takes_byte7_from_other_register
              Sample.cmd_code Sample.smc0 0x12 0xEF 0xBE 0xAD 0xDE
              sample_cmd_code_inj)
    as (s1 & s2 & W & Ew & Hh & HW & Er & Hbytes);
    [unfold is_byte; lia | reflexivity |].
  exists s1, s2. split; [exact Ew|]. split; [exact Er|].
  rewrite Hbytes. rewrite Hh in HW. vm_compute in HW. injection HW as <-.
  reflexivity.
Defined.

(** The same through the guest's side of the protocol, for any HANA
    image: the last byte of the response is the top byte of register
    [0xAD]. *)
Lemma hana_round_trip_through_fifo (devSizes hana : list Z) :
  length hana = 256%nat ->
  option_map (fun r => take 4 (drop 4 (fst (fst r))))
    ((transact Sample.cmd_code Sample.hana_write_msg ;;;
      transact Sample.cmd_code Sample.hana_read_msg) (Sample.smc devSizes hana))
  = Some [0xEF; 0xBE; 0xAD; u8 (Z.land (Z.shiftr (nth 0xAD hana 0) 24) 0xFF)].
Proof.
  intros Hlen.
  do 256 (destruct hana as [|? hana]; [discriminate Hlen|]).
  destruct hana; [|discriminate Hlen]. clear Hlen.
  vm_compute. reflexivity.
Qed.

End HanaFacts.

(** ** SMC: the response a command leaves in the buffer *)

Module ResponseFacts.
Import Types Mem MemFacts Prog ProgFacts SMC Guest ThreadFacts HanaFacts.
Local Open Scope prog_scope.

Section WithCommands.

Context {U : Type} `{HW_UART U}.
Variable cmd_code : SMC_FIFO_CMD -> Z.
Hypothesis cmd_code_inj : forall a b, cmd_code a = cmd_code b -> a = b.

(** The result of a run whose buffer is explicit. *)
Ltac response_found :=
  eexists; eexists; split; [reflexivity|];
  cbn [fifoDataBuffer set_fifo set_hana config hanaState list_insert];
  rewrite ?u8_land_FF; reflexivity.

Lemma i2c_read_write_response (s : State U) :
  well_formed s ->
  fifoDataBuffer s !! 0%nat = Some (cmd_code SMC_I2C_READ_WRITE) ->
  exists s1 evs,
    i2c_read_write cmd_code s = Some (tt, s1, evs) /\
    fifoDataBuffer s1 = i2c_response (hanaState s) (fifoDataBuffer s).
Proof.
  intros (Hlen & Hbytes & Hhana) H0.
  destruct s as [c regs buf pos u cfg sizes hana]. simpl in Hlen, Hbytes, Hhana, H0.
  do 16 (destruct buf as [|? buf]; [discriminate Hlen|]).
  destruct buf; [|discriminate Hlen]. injection H0 as H0. clear Hlen.
  assert (Hid : u8 (cmd_code SMC_I2C_READ_WRITE) = cmd_code SMC_I2C_READ_WRITE).
  { apply TypesFacts.u8_small. rewrite <- H0. exact (Forall_inv Hbytes). }
  rewrite H0 in *. clear H0.
  unfold i2c_read_write, i2c_response. cbn [fifoDataBuffer hanaState nth].
  erewrite bind_run by run_statement. cbv beta iota.
  destruct (z0 =? 0x3); [run; rewrite Hid; response_found|].
  destruct (z0 =? 0x5); [run; rewrite Hid; response_found|].
  destruct (z0 =? 0x10).
  { run. rewrite Hid.
    destruct (z4 =? 0xF0).
    - assert (Hb6 : is_byte z5) by (repeat (apply Forall_cons in Hbytes as [? Hbytes]); assumption).
      destruct (lookup_lt_is_Some_2 hana (Z.to_nat z5)) as [h Hh];
        [unfold is_byte in Hb6; lia|].
      destruct (lookup_lt_is_Some_2 hana (Z.to_nat (Z.land (Z.shiftr h 16) 0xFF)))
        as [h' Hh'].
      { pose proof (land_FF_is_byte (Z.shiftr h 16)) as Hb. unfold is_byte in Hb. lia. }
      rewrite (nth_lookup_Some _ _ 0 _ Hh), (nth_lookup_Some _ _ 0 _ Hh').
      rewrite <- (u8_land_FF (Z.shiftr h 16)) in Hh'.
      erewrite (bind_run (bind hana_at_byte6 _)) by run_last.
      erewrite (bind_run (bind hana_at_byte6 _)) by run_last.
      erewrite (bind_run (bind hana_at_byte6 _)) by run_last.
      erewrite (bind_run hana_at_byte6) by run_statement. cbv beta iota.
      erewrite set_byte_run by reflexivity.
      response_found.
    - unfold i2c_address. run.
      destruct (z5 + (if z2 =? 141 then 512 else 256) =? 258); run; response_found. }
  destruct (z0 =? 0x11); [run; rewrite Hid; response_found|].
  destruct (z0 =? 0x20); [unfold i2c_address; run; rewrite Hid; response_found|].
  destruct (z0 =? 0x21); [run; rewrite Hid; response_found|].
  destruct (z0 =? 0x60).
  { assert (Hb6 : is_byte z5) by (repeat (apply Forall_cons in Hbytes as [? Hbytes]); assumption).
    run. rewrite Hid.
    erewrite set_hana_at_run by (cbn [hanaState set_fifo]; unfold is_byte in Hb6; lia).
    response_found. }
  run; rewrite Hid; response_found.
Qed.


Lemma dispatch_command_response (s : State U) (id : Z) :
  well_formed s ->
  fifoDataBuffer s !! 0%nat = Some id ->
  exists noResponse s1 evs,
    dispatch_command cmd_code s = Some (noResponse, s1, evs) /\
    fifoDataBuffer s1 = response cmd_code s.
Proof.
  intros Hwf H0.
  destruct (cmd_case cmd_code id) as [cmd|] eqn:Ec.
  2:{ unfold dispatch_command, response.
      rewrite (bind_run _ _ _ _ _ _ (byte_at_run s 0 id H0)).
      rewrite (nth_lookup_Some _ _ 0 _ H0), Ec.
      eexists; eexists; eexists; split; reflexivity. }
  pose proof (find_code_sound _ _ _ _ Ec) as Hc.
  assert (Hcmd : cmd = SMC_I2C_READ_WRITE \/ cmd <> SMC_I2C_READ_WRITE)
    by (destruct cmd; first [left; reflexivity | right; discriminate]).
  destruct Hcmd as [->|Hcmd].
  { rewrite <- Hc in H0.
    destruct (i2c_read_write_response s Hwf H0) as (s1 & evs & Ei & Hbuf).
    unfold dispatch_command, response.
    rewrite (bind_run _ _ _ _ _ _ (byte_at_run s 0 _ H0)).
    rewrite (nth_lookup_Some _ _ 0 _ H0), cmd_case_code by exact cmd_code_inj.
    rewrite (bind_run _ _ _ _ _ _ Ei).
    eexists; eexists; eexists; split; [reflexivity | exact Hbuf]. }
  destruct Hwf as (Hlen & Hbytes & _).
  destruct s as [c regs buf pos u cfg sizes hana]. simpl in Hlen, Hbytes, H0.
  do 16 (destruct buf as [|? buf]; [discriminate Hlen|]).
  destruct buf; [|discriminate Hlen]. injection H0 as ->. clear Hlen.
  assert (Hid : u8 id = id)
    by (apply TypesFacts.u8_small; exact (Forall_inv Hbytes)).
  unfold dispatch_command, response.
  erewrite bind_run by run_statement. cbv beta iota.
  cbn [fifoDataBuffer nth]. rewrite Ec.
  destruct cmd; try (now destruct Hcmd); rewrite ?Hc;
    try (eexists; eexists; eexists; split; reflexivity);
    try (run; eexists; eexists; eexists; split; [reflexivity|];
         cbn [fifoDataBuffer set_fifo config]; rewrite ?Hc, ?Hid; reflexivity).
  run. destruct (z0 =? 0x01); [|destruct (z0 =? 0x04)]; run;
    eexists; eexists; eexists; (split; [reflexivity|]);
    cbn [fifoDataBuffer set_fifo list_insert]; rewrite Hid; reflexivity.
Qed.

(** The first byte of the response is the command byte. *)
Lemma response_command_byte (s : State U) (id : Z) :
  length (fifoDataBuffer s) = 16%nat ->
  fifoDataBuffer s !! 0%nat = Some id ->
  response cmd_code s !! 0%nat = Some id.
Proof.
  intros Hlen H0. unfold response.
  rewrite (nth_lookup_Some _ _ 0 _ H0).
  destruct (fifoDataBuffer s) as [|b0 buf] eqn:Eb; [discriminate H0|].
  injection H0 as ->.
  destruct (cmd_case cmd_code id) as [[]|]; try reflexivity.
  unfold i2c_response. cbn [nth].
  do 15 (destruct buf as [|? buf]; [discriminate Hlen|]).
  repeat match goal with
         | |- context [if ?c then _ else _] => destruct c
         end; reflexivity.
Qed.

End WithCommands.

(** C4: when the thread finds [FIFO_IN_STATUS = BUSY] it stores [BUSY]
    to [FIFO_OUT_STATUS], then [READY] to [FIFO_IN_STATUS], dispatches
    on byte 0 of the message and writes the response into the same
    16-byte buffer: after the step the buffer holds [response], the
    bytes the command's case assigns over those of the message (the
    dispatch writes nothing else but the HANA image, and hands nothing
    over); then it stores [READY] to [FIFO_OUT_STATUS]; if
    [smiIntEnabledReg & SMI_INT_ENABLED] is non-zero and the command is
    not [SET_FP_LEDS] it then stores [SMI_INT_PENDING] to
    [smiIntPendingReg] and calls [RouteInterrupt(PRIO_SMM)]; after
    [SET_FP_LEDS], or with the bits clear, it does neither. *)
Theorem smcFifoStep_hands_over_and_raises_smi
    {U : Type} `{HW_UART U} (cmd_code : SMC_FIFO_CMD -> Z) (s : State U) (id : Z) :
  (forall a b, cmd_code a = cmd_code b -> a = b) ->
  well_formed s ->
  smcPCIState s fifoInStatusReg = FIFO_STATUS_BUSY ->
  fifoDataBuffer s !! 0%nat = Some id ->
  exists noResponse s1 evs s',
    dispatch_command cmd_code
      (set_reg (set_reg s fifoOutStatusReg FIFO_STATUS_BUSY)
         fifoInStatusReg FIFO_STATUS_READY)
    = Some (noResponse, s1, evs) /\
    noResponse = (id =? cmd_code SMC_SET_FP_LEDS) /\
    forallb (fun e => negb (is_handover e)) evs = true /\
    smcFifoStep cmd_code s
    = Some (tt, s',
            [SMC_REG_STORE fifoOutStatusReg FIFO_STATUS_BUSY;
             SMC_REG_STORE fifoInStatusReg FIFO_STATUS_READY]
            ++ evs
            ++ [SMC_REG_STORE fifoOutStatusReg FIFO_STATUS_READY]
            ++ (if smi_raised cmd_code s id
                then [SMC_REG_STORE smiIntPendingReg SMI_INT_PENDING;
                      PCIBridge_RouteInterrupt PRIO_SMM]
                else [])) /\
    fifoDataBuffer s' = fifoDataBuffer s1 /\
    fifoDataBuffer s' = response cmd_code s /\
    length (response cmd_code s) = 16%nat /\
    response cmd_code s !! 0%nat = Some id /\
    well_formed s' /\
    smcPCIState s' fifoOutStatusReg = FIFO_STATUS_READY /\
    smcPCIState s' fifoInStatusReg = FIFO_STATUS_READY /\
    smcPCIState s' smiIntPendingReg
    = (if smi_raised cmd_code s id
       then SMI_INT_PENDING
       else smcPCIState s smiIntPendingReg).
Proof.
  intros Hinj Hwf Hbusy Hid.
  set (s0 := set_reg (set_reg s fifoOutStatusReg FIFO_STATUS_BUSY)
               fifoInStatusReg FIFO_STATUS_READY).
  destruct (dispatch_command_steady cmd_code Hinj s0 id Hwf Hid)
    as (noResponse & s1 & evs & Ed & Hwf1 & Hregs & _ & Hquiet & Hno).
  assert (Hresp : fifoDataBuffer s1 = response cmd_code s).
  { destruct (dispatch_command_response cmd_code Hinj s0 id Hwf Hid)
      as (n' & s1' & evs' & Ed' & Hbuf).
    rewrite Ed in Ed'. injection Ed' as _ <- _. exact Hbuf. }
  assert (Hlen : length (response cmd_code s) = 16%nat)
    by (rewrite <- Hresp; exact (proj1 Hwf1)).
  assert (Hecho : response cmd_code s !! 0%nat = Some id).
  { apply response_command_byte; [exact (proj1 Hwf) | exact Hid]. }
  assert (Henabled : smcPCIState s1 smiIntEnabledReg = smcPCIState s smiIntEnabledReg)
    by (rewrite Hregs; reflexivity).
  assert (Hpending : smcPCIState s1 smiIntPendingReg = smcPCIState s smiIntPendingReg)
    by (rewrite Hregs; reflexivity).
  assert (Hcond : to_bool (Z.land (smcPCIState s1 smiIntEnabledReg) SMI_INT_ENABLED)
                  && Bool.eqb noResponse false
                  = smi_raised cmd_code s id).
  { unfold smi_raised. rewrite Henabled, Hno.
    now destruct (id =? cmd_code SMC_SET_FP_LEDS). }
  exists noResponse, s1, evs.
  unfold smcFifoStep. erewrite bind_run by reflexivity. rewrite Hbusy.
  change (FIFO_STATUS_BUSY =? FIFO_STATUS_BUSY) with true. cbv iota.
  unfold process_fifo_command.
  rewrite (bind_run _ _ _ _ _ _ (store_run s fifoOutStatusReg FIFO_STATUS_BUSY)).
  rewrite (bind_run _ _ _ _ _ _ (store_run _ fifoInStatusReg FIFO_STATUS_READY)).
  fold s0. rewrite (bind_run _ _ _ _ _ _ Ed).
  rewrite (bind_run _ _ _ _ _ _ (store_run s1 fifoOutStatusReg FIFO_STATUS_READY)).
  erewrite bind_run by reflexivity.
  change (smcPCIState (set_reg s1 fifoOutStatusReg FIFO_STATUS_READY) smiIntEnabledReg)
    with (smcPCIState s1 smiIntEnabledReg).
  rewrite Hcond.
  assert (Hin : smcPCIState s1 fifoInStatusReg = FIFO_STATUS_READY)
    by (rewrite Hregs; reflexivity).
  destruct (smi_raised cmd_code s id).
  - rewrite (bind_run _ _ _ _ _ _ (store_run _ smiIntPendingReg SMI_INT_PENDING)).
    eexists. split; [exact Ed|]. split; [exact Hno|]. split; [exact Hquiet|].
    split; [unfold emit; simpl; rewrite ?app_nil_r; reflexivity|].
    split; [reflexivity|]. split; [exact Hresp|]. split; [exact Hlen|].
    split; [exact Hecho|]. split; [exact Hwf1|].
    split; [reflexivity|]. split; [exact Hin | reflexivity].
  - eexists. split; [exact Ed|]. split; [exact Hno|]. split; [exact Hquiet|].
    split; [unfold ret; simpl; rewrite ?app_nil_r; reflexivity|].
    split; [reflexivity|]. split; [exact Hresp|]. split; [exact Hlen|].
    split; [exact Hecho|]. split; [exact Hwf1|].
    split; [reflexivity|]. split; [exact Hin | exact Hpending].
Qed.

(** On the SMC with SMI interrupts enabled, [PWRON_TYPE] leaves the
    command byte, the power-on reason and zeros in the buffer and ends
    with the pending store and the interrupt request. *)
Lemma smcFifoStep_hands_over_and_raises_smi_witness :
  option_map (fun r => (fifoDataBuffer (snd (fst r)), snd r))
    (smcFifoStep Sample.cmd_code
       (Sample.smc_busy [Sample.cmd_code SMC_PWRON_TYPE; 1; 2; 3; 4; 5; 6; 7;
                         8; 9; 10; 11; 12; 13; 14; 15]))
  = Some ([Sample.cmd_code SMC_PWRON_TYPE; 0x11; 0; 0; 0; 0; 0; 0;
           0; 0; 0; 0; 0; 0; 0; 0],
          [SMC_REG_STORE fifoOutStatusReg FIFO_STATUS_BUSY;
           SMC_REG_STORE fifoInStatusReg FIFO_STATUS_READY;
           SMC_REG_STORE fifoOutStatusReg FIFO_STATUS_READY;
           SMC_REG_STORE smiIntPendingReg SMI_INT_PENDING;
           PCIBridge_RouteInterrupt PRIO_SMM]).
Proof.
  destruct (smcFifoStep_hands_over_and_raises_smi Sample.cmd_code
              (Sample.smc_busy [Sample.cmd_code SMC_PWRON_TYPE; 1; 2; 3; 4; 5; 6; 7;
                                8; 9; 10; 11; 12; 13; 14; 15])
              (Sample.cmd_code SMC_PWRON_TYPE) sample_cmd_code_inj)
    as (noResponse & s1 & evs & s' & Ed & _ & _ & Estep & _ & Hresp & _);
    [ repeat split; simpl; repeat constructor; unfold is_byte; simpl; lia
    | reflexivity | reflexivity | ].
  rewrite Estep. cbn [option_map fst snd]. rewrite Hresp.
  vm_compute in Ed. injection Ed as <- <- <-. reflexivity.
Defined.

End ResponseFacts.

(** ** PCIBridge: cancelling interrupts *)

Module CancelFacts.
Import Types Mem MemFacts PCIBridge.

Section WithPriorities.

Variable prio_code : Prio -> Z.
Hypothesis prio_code_inj : forall a b, prio_code a = prio_code b -> a = b.

Lemma cancel_case_code (p : Prio) :
  p <> PRIO_XPS -> cancel_case prio_code (prio_code p) = Some p.
Proof.
  intros Hp. apply find_code; [exact prio_code_inj|].
  destruct p; simpl; tauto.
Qed.

Lemma cancel_case_XPS : cancel_case prio_code (prio_code PRIO_XPS) = None.
Proof.
  destruct (cancel_case prio_code (prio_code PRIO_XPS)) as [p|] eqn:E; [|reflexivity].
  apply List.find_some in E as [Hin Heq].
  apply Z.eqb_eq, prio_code_inj in Heq. subst p.
  simpl in Hin. intuition discriminate.
Qed.

Lemma CancelInterrupt_registered (st : PCI_BRIDGE_STATE) (p : Prio) (r : PrioRegName) :
  p <> PRIO_XPS ->
  source_reg p = Some r ->
  CancelInterrupt prio_code st (prio_code p) = cancel_if_enabled prio_code st r p.
Proof.
  intros Hp Hr. unfold CancelInterrupt. rewrite (cancel_case_code p Hp).
  destruct p; simpl in Hr; try discriminate Hr; injection Hr as <-; reflexivity.
Qed.

End WithPriorities.

Lemma reg_at_not_graphics (address : Z) :
  reg_at address <> Some (R_PRIO PRIO_REG_GRAPHICS).
Proof.
  unfold reg_at.
  repeat match goal with |- context [if ?c then _ else _] => destruct c end;
    discriminate.
Qed.

Lemma reg_at_in_window (address : Z) (r : BridgeReg) :
  reg_at address = Some r -> in_own_window address = true.
Proof.
  unfold reg_at, in_own_window, PCI_BRIDGE_BASE_ADDRESS, PCI_BRIDGE_BASE_END_ADDRESS.
  repeat match goal with
         | |- context [if ?a =? ?b then _ else _] => destruct (Z.eqb_spec a b)
         end; try discriminate; intros _; subst; reflexivity.
Qed.

Section WithDevices.

Context {D : Type} `{PCIDevice D} `{PCIDevice_MemSet D}.

Lemma store_reg_keeps_graphics st r data size e l t c st' :
  r <> R_PRIO PRIO_REG_GRAPHICS ->
  store_reg st r data size e l t c = Some st' ->
  prioReg st' PRIO_REG_GRAPHICS = prioReg st PRIO_REG_GRAPHICS.
Proof.
  intros Hr. unfold store_reg.
  destruct (memcpy _ _ _) as [w|]; [|discriminate]. simpl. intros [= <-].
  destruct r as [| | |p]; try reflexivity.
  destruct p; try reflexivity. now elim Hr.
Qed.

Lemma fill_reg_keeps_graphics st r data size e l t c st' :
  r <> R_PRIO PRIO_REG_GRAPHICS ->
  fill_reg st r data size e l t c = Some st' ->
  prioReg st' PRIO_REG_GRAPHICS = prioReg st PRIO_REG_GRAPHICS.
Proof.
  intros Hr. unfold fill_reg.
  destruct (memset _ _ _) as [w|]; [|discriminate]. simpl. intros [= <-].
  destruct r as [| | |p]; try reflexivity.
  destruct p; try reflexivity. now elim Hr.
Qed.

Lemma Write_keeps_graphics (b b' : Bridge D) address data size flag evs :
  Write b address data size = Some (b', flag, evs) ->
  prioReg (pciBridgeState b') PRIO_REG_GRAPHICS
  = prioReg (pciBridgeState b) PRIO_REG_GRAPHICS.
Proof.
  unfold Write. destruct (memcpy _ _ _) as [tmp|]; [|discriminate]. simpl.
  destruct (in_own_window address).
  - destruct (reg_at address) as [r|] eqn:Hr.
    + destruct (store_reg _ _ _ _ _ _ _ _) as [st'|] eqn:Hst; [|discriminate].
      simpl. intros [= <- _ _]. simpl.
      eapply store_reg_keeps_graphics; [|exact Hst].
      intros ->. exact (reg_at_not_graphics address Hr).
    + now intros [= <- _ _].
  - destruct (first_device _ _) as [[[i name] dev]|].
    + destruct (dev_Write _ _ _ _) as [[dev' evs']|]; [|discriminate].
      simpl. now intros [= <- _ _].
    + now intros [= <- _ _].
Qed.

Lemma MemSet_keeps_graphics (b b' : Bridge D) address data size flag evs :
  MemSet b address data size = Some (b', flag, evs) ->
  prioReg (pciBridgeState b') PRIO_REG_GRAPHICS
  = prioReg (pciBridgeState b) PRIO_REG_GRAPHICS.
Proof.
  unfold MemSet. destruct (memset _ _ _) as [tmp|]; [|discriminate]. simpl.
  destruct (in_own_window address).
  - destruct (reg_at address) as [r|] eqn:Hr.
    + destruct (fill_reg _ _ _ _ _ _ _ _) as [st'|] eqn:Hst; [|discriminate].
      simpl. intros [= <- _ _]. simpl.
      eapply fill_reg_keeps_graphics; [|exact Hst].
      intros ->. exact (reg_at_not_graphics address Hr).
    + now intros [= <- _ _].
  - destruct (first_device _ _) as [[[i name] dev]|].
    + destruct (dev_MemSet _ _ _ _) as [[dev' evs']|]; [|discriminate].
      simpl. now intros [= <- _ _].
    + now intros [= <- _ _].
Qed.

End WithDevices.

(** X1: for every source with a priority register other than the
    graphics one, [CancelInterrupt] mirrors [RouteInterrupt]: with the
    register's [intEnabled] set, routing calls
    [genInterrupt(prio, targetCPU)] and cancelling calls
    [cancelInterrupt(prio, targetCPU)] with the same priority and the
    same CPU from the register; with [intEnabled] clear both do nothing. *)
Theorem CancelInterrupt_mirrors_RouteInterrupt
    (prio_code : Prio -> Z) (st : PCI_BRIDGE_STATE) (p : Prio) (r : PrioRegName)
    (override : Z) :
  (forall a b, prio_code a = prio_code b -> a = b) ->
  is_graphics p = false ->
  source_reg p = Some r ->
  RouteInterrupt prio_code st (prio_code p) override
  = (false,
     if intEnabled (prioReg st r)
     then [IIC_genInterrupt (prio_code p) (targetCPU (prioReg st r))]
     else []) /\
  CancelInterrupt prio_code st (prio_code p)
  = (if intEnabled (prioReg st r)
     then [IIC_cancelInterrupt (prio_code p) (targetCPU (prioReg st r))]
     else []).
Proof.
  intros Hinj Hg Hr. split.
  - now rewrite (RouteFacts.RouteInterrupt_registered prio_code Hinj st p r override Hg Hr).
  - apply CancelInterrupt_registered; [exact Hinj | | exact Hr].
    intros ->. discriminate Hg.
Qed.

Lemma CancelInterrupt_mirrors_RouteInterrupt_witness :
  RouteInterrupt Sample.prio_code (pciBridgeState Sample.bridge_smm)
    (Sample.prio_code PRIO_SMM) 0xFF
  = (false, [IIC_genInterrupt (Sample.prio_code PRIO_SMM) 2]) /\
  CancelInterrupt Sample.prio_code (pciBridgeState Sample.bridge_smm)
    (Sample.prio_code PRIO_SMM)
  = [IIC_cancelInterrupt (Sample.prio_code PRIO_SMM) 2].
Proof.
  exact (CancelInterrupt_mirrors_RouteInterrupt Sample.prio_code
           (pciBridgeState Sample.bridge_smm) PRIO_SMM PRIO_REG_SMM 0xFF
           RouteFacts.sample_prio_code_inj eq_refl eq_refl).
Defined.

(** X2: [CancelInterrupt] has no case for [PRIO_XPS]: an XPS interrupt
    that [RouteInterrupt] raises on the caller's CPU can not be
    cancelled; the call only logs "Unknown interrupt being cancelled"
    and never reaches the interrupt controller. *)
Theorem XPS_interrupt_is_raised_but_never_cancelled
    (prio_code : Prio -> Z) (st : PCI_BRIDGE_STATE) (cpu : Z) :
  (forall a b, prio_code a = prio_code b -> a = b) ->
  cpu <> 0xFF ->
  RouteInterrupt prio_code st (prio_code PRIO_XPS) cpu
  = (false, [IIC_genInterrupt (prio_code PRIO_XPS) cpu]) /\
  CancelInterrupt prio_code st (prio_code PRIO_XPS)
  = [LOG Log.Error "PCIBridge" "Unknown interrupt being cancelled: 0x{:X}"
       [Log.Num (prio_code PRIO_XPS)]].
Proof.
  intros Hinj Hcpu. split.
  - rewrite (RouteFacts.RouteInterrupt_graphics prio_code Hinj st PRIO_XPS cpu eq_refl).
    apply Z.eqb_neq in Hcpu. now rewrite Hcpu.
  - unfold CancelInterrupt. now rewrite (cancel_case_XPS prio_code Hinj).
Qed.

Lemma XPS_interrupt_is_raised_but_never_cancelled_witness :
  RouteInterrupt Sample.prio_code Sample.bridge_state (Sample.prio_code PRIO_XPS) 1
  = (false, [IIC_genInterrupt (Sample.prio_code PRIO_XPS) 1]) /\
  CancelInterrupt Sample.prio_code Sample.bridge_state (Sample.prio_code PRIO_XPS)
  = [LOG Log.Error "PCIBridge" "Unknown interrupt being cancelled: 0x{:X}"
       [Log.Num (Sample.prio_code PRIO_XPS)]].
Proof.
  apply (XPS_interrupt_is_raised_but_never_cancelled Sample.prio_code
           Sample.bridge_state 1 RouteFacts.sample_prio_code_inj).
  discriminate.
Defined.

Section Stores.

Context {D : Type} `{PCIDevice D} `{PCIDevice_MemSet D}.

Lemma stores_keep_graphics (l : list Store) :
  forall b b' : Bridge D,
    stores b l = Some b' ->
    prioReg (pciBridgeState b') PRIO_REG_GRAPHICS
    = prioReg (pciBridgeState b) PRIO_REG_GRAPHICS.
Proof.
  induction l as [|st l IH]; intros b b'; simpl.
  - now intros [= <-].
  - destruct st as [a d n|a c n].
    + destruct (Write b a d n) as [[[b1 flag] evs]|] eqn:E; [|discriminate].
      simpl. intros Hrest. rewrite (IH _ _ Hrest).
      exact (Write_keeps_graphics _ _ _ _ _ _ _ E).
    + destruct (MemSet b a c n) as [[[b1 flag] evs]|] eqn:E; [|discriminate].
      simpl. intros Hrest. rewrite (IH _ _ Hrest).
      exact (MemSet_keeps_graphics _ _ _ _ _ _ _ E).
Qed.

End Stores.

(** X3: [CancelInterrupt(PRIO_GRAPHICS)] consults
    [PRIO_REG_GRAPHICS], and neither [Write] nor [MemSet] has a case
    that stores to that register: after any sequence of stores through
    the bridge the register is as before, so the cancel behaves as
    before; if the register's [intEnabled] was clear, cancelling a
    graphics interrupt does nothing whatever the guest has written. *)
Theorem graphics_cancel_is_beyond_the_guest_s_stores
    {D : Type} `{PCIDevice D} `{PCIDevice_MemSet D}
    (prio_code : Prio -> Z) (b b' : Bridge D) (l : list Store) :
  (forall x y, prio_code x = prio_code y -> x = y) ->
  stores b l = Some b' ->
  prioReg (pciBridgeState b') PRIO_REG_GRAPHICS
  = prioReg (pciBridgeState b) PRIO_REG_GRAPHICS /\
  CancelInterrupt prio_code (pciBridgeState b') (prio_code PRIO_GRAPHICS)
  = CancelInterrupt prio_code (pciBridgeState b) (prio_code PRIO_GRAPHICS) /\
  (intEnabled (prioReg (pciBridgeState b) PRIO_REG_GRAPHICS) = false ->
   CancelInterrupt prio_code (pciBridgeState b') (prio_code PRIO_GRAPHICS) = []).
Proof.
  intros Hinj Hrun. pose proof (stores_keep_graphics l b b' Hrun) as E.
  split; [exact E|].
  rewrite !(CancelInterrupt_registered prio_code Hinj _ PRIO_GRAPHICS PRIO_REG_GRAPHICS)
    by (discriminate || reflexivity).
  unfold cancel_if_enabled. rewrite E. split; [reflexivity|].
  now intros ->.
Qed.

Lemma graphics_cancel_is_beyond_the_guest_s_stores_witness :
  exists b',
    stores Sample.bridge
      [Store_Write 0xEA000010 [0xFF; 0xFF; 0xFF; 0xFF] 4;
       Store_MemSet 0xEA000044 0xFF 4] = Some b' /\
    CancelInterrupt Sample.prio_code (pciBridgeState b')
      (Sample.prio_code PRIO_GRAPHICS) = [].
Proof.
  destruct (stores Sample.bridge
              [Store_Write 0xEA000010 [0xFF; 0xFF; 0xFF; 0xFF] 4;
               Store_MemSet 0xEA000044 0xFF 4]) as [b'|] eqn:E;
    [|vm_compute in E; discriminate E].
  exists b'. split; [reflexivity|].
  apply (graphics_cancel_is_beyond_the_guest_s_stores Sample.prio_code Sample.bridge b'
           _ RouteFacts.sample_prio_code_inj E).
  reflexivity.
Defined.

End CancelFacts.

(** ** PCIBridge: the registers of the own window *)

Module WindowFacts.
Import Types Mem MemFacts PCIBridge.

Lemma land_pow2 (x k : Z) :
  0 <= k -> Z.land x (2 ^ k) = if Z.testbit x k then 2 ^ k else 0.
Proof.
  intros Hk. apply Z.bits_inj'. intros n Hn.
  rewrite Z.land_spec, Z.pow2_bits_eqb by lia.
  destruct (Z.eqb_spec k n) as [->|Hne].
  - destruct (Z.testbit x n); [now rewrite Z.pow2_bits_true | now rewrite Z.bits_0].
  - rewrite andb_false_r.
    destruct (Z.testbit x k); [now rewrite Z.pow2_bits_false | now rewrite Z.bits_0].
Qed.

Lemma enabled_bit (w : Z) :
  to_bool (Z.shiftr (Z.land w 0x00800000) 20) = Z.testbit w 23.
Proof.
  change 0x00800000 with (2 ^ 23). rewrite land_pow2 by lia.
  now destruct (Z.testbit w 23).
Qed.

Lemma latched_bit (w : Z) :
  to_bool (Z.shiftr (Z.land w 0x00200000) 20) = Z.testbit w 21.
Proof.
  change 0x00200000 with (2 ^ 21). rewrite land_pow2 by lia.
  now destruct (Z.testbit w 21).
Qed.

Lemma targetCPU_field (w : Z) :
  u8 (Z.shiftr (Z.land w 0x00003F00) 8) = (w / 256) mod 64.
Proof.
  rewrite Z.shiftr_land. change (Z.shiftr 0x3F00 8) with (Z.ones 6).
  rewrite Z.land_ones, Z.shiftr_div_pow2 by lia.
  change (2 ^ 8) with 256. change (2 ^ 6) with 64.
  apply TypesFacts.u8_small.
  pose proof (Z.mod_pos_bound (w / 256) 64). lia.
Qed.

Lemma cpuIRQ_field (w : Z) :
  u8 (Z.shiftl (Z.land w 0x0000003F) 2) = 4 * (w mod 64).
Proof.
  change 0x3F with (Z.ones 6).
  rewrite Z.land_ones, Z.shiftl_mul_pow2 by lia.
  change (2 ^ 6) with 64. change (2 ^ 2) with 4.
  rewrite TypesFacts.u8_small; [lia|].
  pose proof (Z.mod_pos_bound w 64). lia.
Qed.

Lemma word_image (w : Z) : 0 <= w < 2 ^ 32 -> le_value (le_bytes 4 w) = w.
Proof.
  intros Hw. rewrite le_value_le_bytes. apply Z.mod_small.
  change (2 ^ (8 * Z.of_nat 4)) with (2 ^ 32). lia.
Qed.

Lemma PrioRegName_eqb_refl (p : PrioRegName) : PrioRegName_eqb p p = true.
Proof. now destruct p. Qed.

Lemma PrioRegName_eqb_eq (p q : PrioRegName) : PrioRegName_eqb p q = true -> p = q.
Proof. destruct p, q; simpl; intros E; try reflexivity; discriminate E. Qed.

Section WithDevices.

Context {D : Type} `{PCIDevice D}.

Lemma Write_prio_run (b : Bridge D) (address : Z) (p : PrioRegName) (w : Z) :
  reg_at address = Some (R_PRIO p) ->
  0 <= w < 2 ^ 32 ->
  Write b address (le_bytes 4 w) 4
  = Some (set_state b (set_prioReg (pciBridgeState b) p (decoded w)), true, []).
Proof.
  intros Hr Hw. unfold Write.
  destruct (ConfigFacts.tmp_of_word w Hw) as (bs & Hbs & Hval).
  change (Nat.min 4 8) with 4%nat. rewrite Hbs. simpl mbind. cbv zeta.
  rewrite Hval, (CancelFacts.reg_at_in_window address _ Hr), Hr.
  unfold store_reg. change (Nat.min 4 4) with 4%nat.
  unfold memcpy. simpl.
  rewrite enabled_bit, latched_bit, targetCPU_field, cpuIRQ_field.
  pose proof (word_image w Hw) as Hwi. cbn [le_value le_bytes] in Hwi.
  rewrite Hwi. reflexivity.
Qed.

Lemma Write_plain_run (b : Bridge D) (address : Z) (r : BridgeReg) (w : Z) :
  reg_at address = Some r ->
  0 <= w < 2 ^ 32 ->
  exists st',
    Write b address (le_bytes 4 w) 4 = Some (set_state b st', true, []) /\
    reg_word st' r = w.
Proof.
  intros Hr Hw. destruct r as [| | |p].
  4:{ eexists. split; [apply (Write_prio_run b address p w Hr Hw)|].
      simpl. now rewrite PrioRegName_eqb_refl. }
  all: unfold Write;
    destruct (ConfigFacts.tmp_of_word w Hw) as (bs & Hbs & Hval);
    change (Nat.min 4 8) with 4%nat; rewrite Hbs; simpl mbind; cbv zeta;
    rewrite (CancelFacts.reg_at_in_window address _ Hr), Hr;
    pose proof (word_image w Hw) as Hwi; cbn [le_value le_bytes] in Hwi;
    eexists; (split; [reflexivity|]); simpl; exact Hwi.
Qed.

Lemma first_device_none (p : string -> D -> bool) (devs : list (string * D)) :
  Forall (fun nd => p nd.1 nd.2 = false) devs -> first_device p devs = None.
Proof.
  induction 1 as [|[name dev] devs Hd _ IH]; [reflexivity|].
  simpl in *. now rewrite Hd, IH.
Qed.

End WithDevices.

Lemma small_has_no_high_bit (x k n : Z) :
  0 <= x < 2 ^ k -> 0 <= k <= n -> Z.testbit x n = false.
Proof.
  intros Hx Hk. rewrite Z.testbit_odd, Z.shiftr_div_pow2 by lia.
  rewrite Z.div_small; [reflexivity|].
  split; [lia|]. apply Z.lt_le_trans with (2 ^ k); [lia|].
  apply Z.pow_le_mono_r; lia.
Qed.

(** X4: a 32-bit [Write] of the word [w] to the address of a priority
    register stores [w] as the raw word and re-derives the fields from
    it: [intEnabled] is bit 23, [latched] is bit 21, [targetCPU] is bits
    8 to 13 and [cpuIRQ] is bits 0 to 5 shifted left by two.  Every
    other register of the bridge keeps its value. *)
Theorem Write_priority_register_decodes_word
    {D : Type} `{PCIDevice D} (b : Bridge D) (address : Z) (p : PrioRegName) (w : Z) :
  reg_at address = Some (R_PRIO p) ->
  0 <= w < 2 ^ 32 ->
  exists st',
    Write b address (le_bytes 4 w) 4 = Some (set_state b st', true, []) /\
    prioReg st' p = decoded w /\
    (forall q, q <> p -> prioReg st' q = prioReg (pciBridgeState b) q) /\
    REG_EA000000 st' = REG_EA000000 (pciBridgeState b) /\
    REG_EA000004 st' = REG_EA000004 (pciBridgeState b) /\
    REG_EA00000C st' = REG_EA00000C (pciBridgeState b).
Proof.
  intros Hr Hw. eexists. split; [apply (Write_prio_run b address p w Hr Hw)|].
  split; [simpl; now rewrite PrioRegName_eqb_refl|].
  split; [|repeat split].
  intros q Hq. simpl.
  destruct (PrioRegName_eqb p q) eqn:E; [|reflexivity].
  apply PrioRegName_eqb_eq in E. congruence.
Qed.

Lemma Write_priority_register_decodes_word_witness :
  exists st',
    Write Sample.bridge 0xEA00001C (le_bytes 4 0x00800213) 4
    = Some (set_state Sample.bridge st', true, []) /\
    prioReg st' PRIO_REG_SMM
    = {| hexData := 0x00800213; intEnabled := true; latched := false;
         targetCPU := 2; cpuIRQ := 0x4C |}.
Proof.
  destruct (Write_priority_register_decodes_word Sample.bridge 0xEA00001C
              PRIO_REG_SMM 0x00800213 eq_refl ltac:(lia))
    as (st' & E & Hp & _).
  exists st'. split; [exact E|]. rewrite Hp. reflexivity.
Defined.

(** X5: what the guest writes decides the routing: after a 32-bit
    [Write] of [w] to the priority register of a source,
    [RouteInterrupt] for that source calls
    [genInterrupt(prio, (w >> 8) & 0x3F)] if bit 23 of [w] is set and
    does nothing if it is clear, whatever the override. *)
Theorem written_word_arms_the_source
    {D : Type} `{PCIDevice D} (prio_code : Prio -> Z) (b : Bridge D)
    (address : Z) (p : Prio) (r : PrioRegName) (w override : Z) :
  (forall x y, prio_code x = prio_code y -> x = y) ->
  reg_at address = Some (R_PRIO r) ->
  source_reg p = Some r ->
  0 <= w < 2 ^ 32 ->
  exists b',
    Write b address (le_bytes 4 w) 4 = Some (b', true, []) /\
    RouteInterrupt prio_code (pciBridgeState b') (prio_code p) override
    = (false,
       if Z.testbit w 23
       then [IIC_genInterrupt (prio_code p) ((w / 256) mod 64)]
       else []).
Proof.
  intros Hinj Hr Hp Hw. eexists. split; [apply (Write_prio_run b address r w Hr Hw)|].
  assert (Hg : is_graphics p = false).
  { destruct p; try reflexivity; simpl in Hp; [|discriminate Hp].
    injection Hp as <-. elim (CancelFacts.reg_at_not_graphics address Hr). }
  rewrite (RouteFacts.RouteInterrupt_registered prio_code Hinj _ p r override Hg Hp).
  unfold route_if_enabled. simpl. now rewrite PrioRegName_eqb_refl.
Qed.

Lemma written_word_arms_the_source_witness :
  exists b',
    Write Sample.bridge 0xEA000010 (le_bytes 4 0x00800304) 4 = Some (b', true, []) /\
    RouteInterrupt Sample.prio_code (pciBridgeState b') (Sample.prio_code PRIO_CLOCK) 0xFF
    = (false, [IIC_genInterrupt (Sample.prio_code PRIO_CLOCK) 3]).
Proof.
  exact (written_word_arms_the_source Sample.prio_code Sample.bridge 0xEA000010
           PRIO_CLOCK PRIO_REG_CLCK 0x00800304 0xFF
           RouteFacts.sample_prio_code_inj eq_refl eq_refl ltac:(lia)).
Defined.

(** X7: every register of the bridge's own window reads back the word
    written to it: after a 32-bit [Write] of [w], a 32-bit [Read] of the
    same address returns the four bytes of [w]. *)
Theorem window_register_reads_back_written_word
    {D : Type} `{PCIDevice D} (b : Bridge D) (address : Z) (r : BridgeReg) (w : Z)
    (out : list Z) :
  reg_at address = Some r ->
  0 <= w < 2 ^ 32 ->
  (4 <= length out)%nat ->
  exists b',
    Write b address (le_bytes 4 w) 4 = Some (b', true, []) /\
    Read b' address out 4 = Some (b', le_bytes 4 w ++ drop 4 out, true, []).
Proof.
  intros Hr Hw Hout.
  destruct (Write_plain_run b address r w Hr Hw) as (st' & E & Hword).
  eexists. split; [exact E|].
  unfold Read. rewrite (CancelFacts.reg_at_in_window address _ Hr), Hr.
  cbn [pciBridgeState set_state]. rewrite Hword.
  unfold memcpy. rewrite le_bytes_length.
  assert (E4 : (4 <=? length out)%nat = true) by (apply Nat.leb_le; lia).
  rewrite E4. reflexivity.
Qed.

Lemma window_register_reads_back_written_word_witness :
  exists b',
    Write Sample.bridge 0xEA00000C (le_bytes 4 0x12345678) 4 = Some (b', true, []) /\
    Read b' 0xEA00000C [0; 0; 0; 0] 4 = Some (b', [0x78; 0x56; 0x34; 0x12], true, []).
Proof.
  exact (window_register_reads_back_written_word Sample.bridge 0xEA00000C R_EA00000C
           0x12345678 [0; 0; 0; 0] eq_refl ltac:(lia) ltac:(simpl; lia)).
Defined.

(** X6: a [Write] of at most two bytes to a priority register clears
    [intEnabled] and [latched], since the fields are derived from the
    written bytes extended with zeros, while the upper half of the raw
    word keeps its old bits: the word read back may still show bit 23
    set for a source that no longer raises interrupts. *)
Theorem short_write_disables_the_source
    {D : Type} `{PCIDevice D} (b : Bridge D) (address : Z) (p : PrioRegName)
    (data : list Z) (size : nat) :
  reg_at address = Some (R_PRIO p) ->
  (size <= 2)%nat ->
  (size <= length data)%nat ->
  Forall is_byte data ->
  0 <= hexData (prioReg (pciBridgeState b) p) < 2 ^ 32 ->
  exists st',
    Write b address data size = Some (set_state b st', true, []) /\
    intEnabled (prioReg st' p) = false /\
    latched (prioReg st' p) = false /\
    hexData (prioReg st' p) / 2 ^ 16
    = hexData (prioReg (pciBridgeState b) p) / 2 ^ 16.
Proof.
  intros Hr Hsize Hlen Hbytes Hold.
  set (old := hexData (prioReg (pciBridgeState b) p)) in *.
  assert (Hcases : exists lo rest,
             data = lo ++ rest /\ size = length lo /\ Forall is_byte lo).
  { exists (take size data), (drop size data).
    split; [now rewrite take_drop|]. split; [rewrite length_take; lia|].
    now apply Forall_take. }
  destruct Hcases as (lo & rest & -> & Hlo & Hblo).
  assert (Htmp : memcpy (le_bytes 8 0) (lo ++ rest) (Nat.min size 8)
                 = Some (lo ++ drop size (le_bytes 8 0))).
  { unfold memcpy. rewrite le_bytes_length.
    replace (Nat.min size 8) with size by lia.
    assert (E1 : (size <=? length (lo ++ rest))%nat = true) by (apply Nat.leb_le; lia).
    assert (E2 : (size <=? 8)%nat = true) by (apply Nat.leb_le; lia).
    rewrite E1, E2. simpl. now rewrite take_app_length' by exact Hlo. }
  assert (Hreg : memcpy (le_bytes 4 old) (lo ++ rest) (Nat.min size 4)
                 = Some (lo ++ drop size (le_bytes 4 old))).
  { unfold memcpy. rewrite le_bytes_length.
    replace (Nat.min size 4) with size by lia.
    assert (E1 : (size <=? length (lo ++ rest))%nat = true) by (apply Nat.leb_le; lia).
    assert (E2 : (size <=? 4)%nat = true) by (apply Nat.leb_le; lia).
    rewrite E1, E2. simpl. now rewrite take_app_length' by exact Hlo. }
  unfold Write. rewrite Htmp. simpl mbind. cbv zeta.
  rewrite (CancelFacts.reg_at_in_window address _ Hr), Hr.
  unfold store_reg. cbn [reg_word]. fold old. rewrite Hreg. simpl mbind.
  eexists. split; [reflexivity|].
  cbn [prioReg set_prioReg]. rewrite PrioRegName_eqb_refl.
  cbn [intEnabled latched hexData].
  rewrite enabled_bit, latched_bit.
  destruct lo as [|a [|c [|? ?]]]; simpl in Hlo; subst size; try lia;
    repeat match goal with
           | Hb : Forall is_byte (_ :: _) |- _ =>
               apply Forall_cons in Hb as [? Hb]
           end;
    unfold is_byte in *; cbv beta in *;
    cbn [app drop le_bytes le_value length];
    repeat change (0 / 256) with 0; repeat change (0 mod 256) with 0.
  all: split; [apply (small_has_no_high_bit _ 16); [|lia]; change (2^16) with 65536; lia|].
  all: split; [apply (small_has_no_high_bit _ 16); [|lia]; change (2^16) with 65536; lia|].
  all: change (2 ^ 16) with 65536; change (2 ^ 32) with 4294967296 in Hold.
  all: Z.div_mod_to_equations; lia.
Qed.

Lemma short_write_disables_the_source_witness :
  exists st',
    Write Sample.bridge_smm 0xEA00001C [0x05] 1
    = Some (set_state Sample.bridge_smm st', true, []) /\
    intEnabled (prioReg st' PRIO_REG_SMM) = false /\
    Z.testbit (hexData (prioReg st' PRIO_REG_SMM)) 23 = true.
Proof.
  destruct (short_write_disables_the_source Sample.bridge_smm 0xEA00001C
              PRIO_REG_SMM [0x05] 1
              eq_refl ltac:(lia) ltac:(simpl; lia)
              ltac:(repeat constructor; unfold is_byte; lia)
              ltac:(simpl; lia))
    as (st' & E & He & _ & _).
  exists st'. split; [exact E|]. split; [exact He|].
  vm_compute in E. injection E as <-. reflexivity.
Defined.

(** X8: an address outside the bridge's own window that no attached
    device maps: [Read] fills the buffer with [0xFF] and returns
    [false]; [Write] and [MemSet] return [false]; the bridge is
    unchanged and nothing is logged. *)
Theorem unmapped_access_reads_FF_and_drops_stores
    {D : Type} `{PCIDevice D} `{PCIDevice_MemSet D}
    (b : Bridge D) (address : Z) (data : list Z) (c : Z) (size : nat) :
  in_own_window address = false ->
  Forall (fun nd => dev_IsAddressMappedInBAR nd.2 (u32 address) = false)
    (connectedPCIDevices b) ->
  (size <= length data)%nat ->
  Read b address data size
  = Some (b, replicate size 0xFF ++ drop size data, false, []) /\
  Write b address data size = Some (b, false, []) /\
  MemSet b address c size = Some (b, false, []).
Proof.
  intros Hwin Hdevs Hsize.
  pose proof (first_device_none
                (fun _ dev => dev_IsAddressMappedInBAR dev (u32 address))
                (connectedPCIDevices b) Hdevs) as Hnone.
  split; [|split].
  - unfold Read. rewrite Hwin, Hnone. unfold memset.
    apply Nat.leb_le in Hsize. rewrite Hsize. reflexivity.
  - unfold Write, memcpy. rewrite le_bytes_length.
    assert (E1 : (Nat.min size 8 <=? length data)%nat = true) by (apply Nat.leb_le; lia).
    assert (E2 : (Nat.min size 8 <=? 8)%nat = true) by (apply Nat.leb_le; lia).
    rewrite E1, E2. simpl. now rewrite Hwin, Hnone.
  - unfold MemSet, memset. rewrite le_bytes_length.
    assert (E2 : (Nat.min size 8 <=? 8)%nat = true) by (apply Nat.leb_le; lia).
    rewrite E2. simpl. now rewrite Hwin, Hnone.
Qed.

Lemma unmapped_access_reads_FF_and_drops_stores_witness :
  Read Sample.bridge 0xC8000000 [0; 0; 0; 0] 4
  = Some (Sample.bridge, [0xFF; 0xFF; 0xFF; 0xFF], false, []) /\
  Write Sample.bridge 0xC8000000 [0; 0; 0; 0] 4 = Some (Sample.bridge, false, []) /\
  MemSet Sample.bridge 0xC8000000 0 4 = Some (Sample.bridge, false, []).
Proof.
  apply (unmapped_access_reads_FF_and_drops_stores Sample.bridge 0xC8000000
           [0; 0; 0; 0] 0 4);
    [reflexivity | constructor | simpl; lia].
Defined.

Lemma memset_as_memcpy (dest : list Z) (c : Z) (n : nat) (src : list Z) :
  take n src = replicate n (c mod 256) ->
  (n <= length src)%nat ->
  memcpy dest src n = memset dest c n.
Proof.
  intros Hsrc Hlen. unfold memcpy, memset.
  apply Nat.leb_le in Hlen. rewrite Hlen. simpl. now rewrite Hsrc.
Qed.

(** X9: in the bridge's own window [MemSet(address, c, size)] does
    what [Write] does with a buffer of [size] copies of the byte [c]. *)
Theorem bridge_MemSet_is_Write_of_repeated_byte
    {D : Type} `{PCIDevice D} `{PCIDevice_MemSet D}
    (b : Bridge D) (address c : Z) (size : nat) :
  in_own_window address = true ->
  MemSet b address c size = Write b address (replicate size (c mod 256)) size.
Proof.
  intros Hwin. unfold MemSet, Write.
  rewrite (memset_as_memcpy (le_bytes 8 0) c (Nat.min size 8)
             (replicate size (c mod 256)))
    by (rewrite ?take_replicate, ?length_replicate; f_equal; lia).
  destruct (memset _ _ _) as [tmp|]; [|reflexivity]. simpl.
  rewrite Hwin. destruct (reg_at address) as [r|]; [|reflexivity].
  unfold fill_reg, store_reg.
  rewrite (memset_as_memcpy (le_bytes 4 (reg_word (pciBridgeState b) r)) c (Nat.min size 4)
             (replicate size (c mod 256)))
    by (rewrite ?take_replicate, ?length_replicate; f_equal; lia).
  reflexivity.
Qed.

Lemma bridge_MemSet_is_Write_of_repeated_byte_witness :
  MemSet Sample.bridge 0xEA00001C 0xFF 4
  = Write Sample.bridge 0xEA00001C [0xFF; 0xFF; 0xFF; 0xFF] 4.
Proof.
  exact (bridge_MemSet_is_Write_of_repeated_byte Sample.bridge 0xEA00001C 0xFF 4 eq_refl).
Defined.

(** X10: the bridge's own configuration space (bus 0, device 0) reads
    back what was written: after a [ConfigWrite] of [data] that fits
    the space, a [ConfigRead] of the same address and size returns
    [data]; no attached device is consulted. *)
Theorem bridge_config_space_round_trip
    {D : Type} `{PCIDevice D} (b : Bridge D) (address : Z) (data out : list Z) :
  busNum (u32 address) = 0 ->
  devNum (u32 address) = 0 ->
  (Z.to_nat (regOffset (u32 address)) + length data <= length (pciBridgeConfig b))%nat ->
  length out = length data ->
  exists cfg,
    ConfigWrite b address data (length data) = Some (set_config b cfg, true, []) /\
    ConfigRead (set_config b cfg) address out (length data)
    = Some (set_config b cfg, data, true, []) /\
    length cfg = length (pciBridgeConfig b).
Proof.
  intros Hbus Hdev Hfit Hout.
  unfold ConfigWrite, ConfigRead. rewrite Hbus, Hdev. simpl andb. cbv iota.
  destruct (memcpy_at (pciBridgeConfig b) (Z.to_nat (regOffset (u32 address)))
              data (length data)) as [cfg|] eqn:Hcfg.
  - exists cfg. simpl. split; [reflexivity|].
    rewrite (memcpy_at_read_back _ _ _ _ _ out Hcfg Hout). simpl.
    rewrite firstn_all. split; [reflexivity|].
    exact (memcpy_at_length _ _ _ _ _ Hcfg).
  - exfalso. unfold memcpy_at, memcpy in Hcfg.
    rewrite length_drop in Hcfg.
    assert (E1 : (Z.to_nat (regOffset (u32 address)) <=? length (pciBridgeConfig b))%nat
                 = true) by (apply Nat.leb_le; lia).
    assert (E2 : (length data <=? length data)%nat = true) by (apply Nat.leb_le; lia).
    assert (E3 : (length data
                  <=? length (pciBridgeConfig b)
                      - Z.to_nat (regOffset (u32 address)))%nat = true)
      by (apply Nat.leb_le; lia).
    rewrite E1, E2, E3 in Hcfg. discriminate Hcfg.
Qed.

Lemma bridge_config_space_round_trip_witness :
  exists cfg,
    ConfigWrite Sample.bridge 0x10 [0x00; 0x00; 0x00; 0xEA] 4
    = Some (set_config Sample.bridge cfg, true, []) /\
    ConfigRead (set_config Sample.bridge cfg) 0x10 [0; 0; 0; 0] 4
    = Some (set_config Sample.bridge cfg, [0x00; 0x00; 0x00; 0xEA], true, []).
Proof.
  destruct (bridge_config_space_round_trip Sample.bridge 0x10
              [0x00; 0x00; 0x00; 0xEA] [0; 0; 0; 0])
    as (cfg & Ew & Er & _); [reflexivity | reflexivity | simpl; lia | reflexivity |].
  exists cfg. split; [exact Ew | exact Er].
Defined.

End WindowFacts.

(** ** SMC: register access *)

Module RegisterFacts.
Import Types Mem MemFacts Prog ProgFacts SMC Guest FifoFacts.
Local Open Scope prog_scope.

Section WithBackend.

Context {U : Type} `{HW_UART U}.

Lemma copy_to_reg_word (s : State U) (r : SMCReg) (v : Z) :
  0 <= v < 2 ^ 32 ->
  copy_to_reg r (le_bytes 4 v) 4 s = Some (tt, set_reg s r v, []).
Proof.
  intros Hv. unfold copy_to_reg.
  erewrite bind_run by reflexivity.
  erewrite bind_run by reflexivity.
  unfold put. cbn [app].
  pose proof (WindowFacts.word_image v Hv) as Hwi. cbn [le_value le_bytes] in Hwi.
  cbn [take drop app le_bytes le_value]. now rewrite Hwi.
Qed.

Lemma copy_from_reg_word (s : State U) (r : SMCReg) (out : list Z) :
  length out = 4%nat ->
  copy_from_reg r out 4 s = Some (le_bytes 4 (smcPCIState s r), s, []).
Proof.
  intros Hout. unfold copy_from_reg.
  erewrite bind_run by reflexivity.
  unfold lift, memcpy. rewrite le_bytes_length, Hout. simpl.
  now rewrite drop_ge by lia.
Qed.

Lemma setupUART_keeps_registers (s : State U) (uartConfig : Z) :
  exists s' evs,
    setupUART uartConfig s = Some (tt, s', evs) /\
    smcPCIState s' = smcPCIState s /\
    fifoDataBuffer s' = fifoDataBuffer s /\
    fifoBufferPos s' = fifoBufferPos s.
Proof.
  unfold setupUART, log.
  erewrite bind_run by reflexivity.
  erewrite bind_run by reflexivity.
  destruct (currentUARTSystem (config s)), (win32 (config s));
    eexists; eexists; (split; [reflexivity|]); repeat split.
Qed.

Lemma Write_stores_word (s : State U) (address : Z) (r : SMCReg) (v : Z) :
  In (u8 address, r) read_write_registers ->
  0 <= v < 2 ^ 32 ->
  length (fifoDataBuffer s) = 16%nat ->
  exists s1 evs,
    write32 address v s = Some (tt, s1, evs) /\
    smcPCIState s1 r = v.
Proof.
  intros Hin Hv Hlen. unfold write32, Write.
  simpl in Hin.
  destruct Hin as [E|[E|[E|[E|[E|[E|[]]]]]]]; injection E as Ha <-;
    rewrite <- Ha; decide_labels;
    try (rewrite (copy_to_reg_word s _ v Hv); eexists; eexists;
         split; [reflexivity | simpl; reflexivity]).
  - rewrite (bind_run _ _ _ _ _ _ (copy_to_reg_word s _ v Hv)).
    erewrite bind_run by reflexivity.
    destruct (uart_SetupNeeded _).
    + erewrite bind_run by reflexivity.
      destruct (setupUART_keeps_registers (set_reg s uartConfigReg v)
                  (le_value (take 4 (le_bytes 4 v) ++ drop 4 (le_bytes 8 0))))
        as (s' & evs & E & Hregs & _).
      rewrite E. eexists. eexists. split; [reflexivity|]. now rewrite Hregs.
    + eexists. eexists. split; reflexivity.
  - rewrite (bind_run _ _ _ _ _ _ (copy_to_reg_word s _ v Hv)).
    erewrite bind_run by reflexivity.
    destruct (_ =? FIFO_STATUS_READY).
    + unfold memset. cbn [fifoDataBuffer set_reg]. rewrite Hlen. simpl Nat.leb. cbv iota.
      eexists. eexists. split; reflexivity.
    + eexists. eexists. split; reflexivity.
  - rewrite (bind_run _ _ _ _ _ _ (copy_to_reg_word s _ v Hv)).
    erewrite bind_run by reflexivity.
    destruct (_ =? FIFO_STATUS_READY); eexists; eexists; split; reflexivity.
Qed.

Lemma Read_loads_word (s : State U) (address : Z) (r : SMCReg) :
  In (u8 address, r) read_write_registers ->
  read32 address s = Some (le_bytes 4 (smcPCIState s r), s, []).
Proof.
  intros Hin. unfold read32, Read. simpl in Hin.
  destruct Hin as [E|[E|[E|[E|[E|[E|[]]]]]]]; injection E as Ha <-;
    rewrite <- Ha; decide_labels; now apply copy_from_reg_word.
Qed.

End WithBackend.

(** X11: the SMC registers that both [Read] and [Write] have a case
    for ([UART_CONFIG], [SMI_INT_STATUS], [SMI_INT_ACK],
    [SMI_INT_ENABLED], [FIFO_IN_STATUS], [FIFO_OUT_STATUS]) read back
    the 32-bit word written to them, and the read leaves the device as
    it is. *)
Theorem register_reads_back_written_word
    {U : Type} `{HW_UART U} (s : State U) (address : Z) (r : SMCReg) (v : Z) :
  In (u8 address, r) read_write_registers ->
  0 <= v < 2 ^ 32 ->
  length (fifoDataBuffer s) = 16%nat ->
  exists s1 evs,
    write32 address v s = Some (tt, s1, evs) /\
    read32 address s1 = Some (le_bytes 4 v, s1, []).
Proof.
  intros Hin Hv Hlen.
  destruct (Write_stores_word s address r v Hin Hv Hlen) as (s1 & evs & Ew & Hreg).
  exists s1, evs. split; [exact Ew|].
  rewrite (Read_loads_word s1 address r Hin). now rewrite Hreg.
Qed.

Lemma register_reads_back_written_word_witness :
  exists s1 evs,
    write32 0xEA00105C 0x0000000C Sample.smc0 = Some (tt, s1, evs) /\
    read32 0xEA00105C s1 = Some ([0x0C; 0; 0; 0], s1, []).
Proof.
  apply (register_reads_back_written_word Sample.smc0 0xEA00105C smiIntEnabledReg 0xC);
    [simpl; tauto | lia | reflexivity].
Defined.

(** X12: the clock registers are write-only through the window: a
    32-bit [Write] to [CLCK_INT_ENABLED] or [CLCK_INT_STATUS] stores the
    word, but [Read] has no case for these offsets: it logs "Unknown
    register being read" and leaves the caller's buffer untouched. *)
Theorem clock_registers_are_write_only
    {U : Type} `{HW_UART U} (s : State U) (address : Z) (r : SMCReg) (v : Z)
    (out : list Z) :
  In (u8 address, r) write_only_registers ->
  0 <= v < 2 ^ 32 ->
  write32 address v s = Some (tt, set_reg s r v, []) /\
  Read address out 4 (set_reg s r v)
  = Some (out, set_reg s r v,
          [LOG Log.Error "SMC" "Unknown register being read, offset 0x{:X}"
             [Log.Num (u8 address)]]).
Proof.
  intros Hin Hv. simpl in Hin. split.
  - unfold write32, Write.
    destruct Hin as [E|[E|[]]]; injection E as Ha <-; rewrite <- Ha; decide_labels;
      apply (copy_to_reg_word s _ v Hv).
  - apply SMCRegisterFacts.Read_unknown_register.
    destruct Hin as [E|[E|[]]]; injection E as Ha <-; rewrite <- Ha;
      vm_compute; intuition discriminate.
Qed.

Lemma clock_registers_are_write_only_witness :
  write32 0xEA001064 0x10000000 Sample.smc0
  = Some (tt, set_reg Sample.smc0 clockIntEnabledReg 0x10000000, []) /\
  Read 0xEA001064 [0; 0; 0; 0] 4 (set_reg Sample.smc0 clockIntEnabledReg 0x10000000)
  = Some ([0; 0; 0; 0], set_reg Sample.smc0 clockIntEnabledReg 0x10000000,
          [LOG Log.Error "SMC" "Unknown register being read, offset 0x{:X}"
             [Log.Num 0x64]]).
Proof.
  apply (clock_registers_are_write_only Sample.smc0 0xEA001064 clockIntEnabledReg
           0x10000000 [0; 0; 0; 0]); [simpl; tauto | lia].
Defined.

Section MemSetFacts.

Context {U : Type} `{HW_UART U}.

Lemma fill_reg_as_copy (s : State U) (r : SMCReg) (c : Z) (size : nat) :
  fill_reg r c size s = copy_to_reg r (replicate size (c mod 256)) size s.
Proof.
  unfold fill_reg, copy_to_reg, bind, get, lift.
  rewrite (WindowFacts.memset_as_memcpy _ c size (replicate size (c mod 256)))
    by (rewrite ?take_replicate, ?length_replicate; f_equal; lia).
  reflexivity.
Qed.

End MemSetFacts.

(** X13: for every offset but [UART_BYTE_IN] and [UART_CONFIG],
    [SMC::MemSet(address, c, size)] does what [SMC::Write] does with a
    buffer of [size] copies of the byte [c], the FIFO cursor and the
    unknown-register log included. *)
Theorem SMC_MemSet_is_Write_of_repeated_byte
    {U : Type} `{HW_UART U} (s : State U) (address c : Z) (size : nat) :
  u8 address <> UART_BYTE_IN_REG ->
  u8 address <> UART_CONFIG_REG ->
  MemSet address c size s = Write address (replicate size (c mod 256)) size s.
Proof.
  intros Hin Hcfg. apply Z.eqb_neq in Hin, Hcfg.
  unfold MemSet, Write. rewrite Hin, Hcfg.
  repeat match goal with
         | |- context [if ?a =? ?b then _ else _] =>
             lazymatch a with
             | u8 address => destruct (a =? b)
             end
         end;
    try apply fill_reg_as_copy.
  - unfold bind. rewrite fill_reg_as_copy. reflexivity.
  - unfold bind. rewrite fill_reg_as_copy. reflexivity.
  - unfold bind, get, lift.
    destruct (buffer_from _ _) as [dest|]; [|reflexivity]. cbn [ret].
    rewrite (WindowFacts.memset_as_memcpy dest c size (replicate size (c mod 256)))
      by (rewrite ?take_replicate, ?length_replicate; f_equal; lia).
    reflexivity.
  - unfold bind, lift.
    rewrite (WindowFacts.memset_as_memcpy (le_bytes 8 0) c size
               (replicate size (c mod 256)))
      by (rewrite ?take_replicate, ?length_replicate; f_equal; lia).
    reflexivity.
Qed.

Lemma SMC_MemSet_is_Write_of_repeated_byte_witness :
  MemSet 0xEA001080 0x5A 4 Sample.smc0
  = Write 0xEA001080 [0x5A; 0x5A; 0x5A; 0x5A] 4 Sample.smc0.
Proof.
  apply (SMC_MemSet_is_Write_of_repeated_byte Sample.smc0 0xEA001080 0x5A 4);
    vm_compute; discriminate.
Defined.

End RegisterFacts.

(** ** SMC: the clock interrupt *)

Module ClockFacts.
Import Types Mem MemFacts Prog ProgFacts SMC Guest FifoFacts.
Local Open Scope prog_scope.

Section WithBackend.

Context {U : Type} `{HW_UART U}.

Lemma smcClockStep_tick (s : State U) (period timerStart timerNow restart : Z) :
  smcPCIState s clockIntEnabledReg = CLCK_INT_ENABLED ->
  smcPCIState s clockIntStatusReg = CLCK_INT_READY ->
  timerStart + period <= timerNow ->
  smcClockStep period timerStart timerNow restart s
  = Some (restart, set_reg s clockIntStatusReg CLCK_INT_TAKEN,
          [SMC_REG_STORE clockIntStatusReg CLCK_INT_TAKEN;
           PCIBridge_RouteInterrupt PRIO_CLOCK]).
Proof.
  intros He Hs Ht. unfold smcClockStep.
  erewrite bind_run by reflexivity. rewrite He, Hs.
  change (CLCK_INT_ENABLED =? CLCK_INT_ENABLED) with true.
  change (CLCK_INT_READY =? CLCK_INT_READY) with true. cbv iota.
  assert (E : (timerNow >=? timerStart + period) = true) by lia.
  rewrite E. reflexivity.
Qed.

Lemma smcClockStep_idle (s : State U) (period timerStart timerNow restart : Z) :
  smcPCIState s clockIntEnabledReg <> CLCK_INT_ENABLED \/
  smcPCIState s clockIntStatusReg <> CLCK_INT_READY \/
  timerNow < timerStart + period ->
  smcClockStep period timerStart timerNow restart s = Some (timerStart, s, []).
Proof.
  intros Hidle. unfold smcClockStep.
  erewrite bind_run by reflexivity.
  destruct (Z.eqb_spec (smcPCIState s clockIntEnabledReg) CLCK_INT_ENABLED) as [He|He];
    [|reflexivity].
  destruct (Z.eqb_spec (smcPCIState s clockIntStatusReg) CLCK_INT_READY) as [Hs|Hs];
    [|reflexivity].
  assert (E : (timerNow >=? timerStart + period) = false) by lia.
  now rewrite E.
Qed.

End WithBackend.

(** X14: the clock interrupt fires once per arming.  With the clock
    interrupt enabled and [CLCK_INT_STATUS] ready, a turn taken at least
    [period] after [timerStart] stores [CLCK_INT_TAKEN], requests
    [PRIO_CLOCK] and restarts the timer; after that no turn fires,
    whatever the time, until the guest writes [CLCK_INT_READY] to
    [CLCK_INT_STATUS]; then the next turn fires once [period] has
    elapsed since the restart, and not before. *)
Theorem clock_interrupt_fires_once_per_arming
    {U : Type} `{HW_UART U} (s : State U) (address : Z)
    (period timerStart timerNow restart : Z) :
  u8 address = CLCK_INT_STATUS_REG ->
  smcPCIState s clockIntEnabledReg = CLCK_INT_ENABLED ->
  smcPCIState s clockIntStatusReg = CLCK_INT_READY ->
  timerStart + period <= timerNow ->
  exists s1 s2,
    smcClockStep period timerStart timerNow restart s
    = Some (restart, s1,
            [SMC_REG_STORE clockIntStatusReg CLCK_INT_TAKEN;
             PCIBridge_RouteInterrupt PRIO_CLOCK]) /\
    (forall start now next,
       smcClockStep period start now next s1 = Some (start, s1, [])) /\
    write32 address CLCK_INT_READY s1 = Some (tt, s2, []) /\
    (forall now next,
       restart + period <= now ->
       exists s3,
         smcClockStep period restart now next s2
         = Some (next, s3,
                 [SMC_REG_STORE clockIntStatusReg CLCK_INT_TAKEN;
                  PCIBridge_RouteInterrupt PRIO_CLOCK])) /\
    (forall now next,
       now < restart + period ->
       smcClockStep period restart now next s2 = Some (restart, s2, [])).
Proof.
  intros Haddr He Hs Ht.
  exists (set_reg s clockIntStatusReg CLCK_INT_TAKEN),
         (set_reg (set_reg s clockIntStatusReg CLCK_INT_TAKEN)
            clockIntStatusReg CLCK_INT_READY).
  split; [now apply smcClockStep_tick|].
  split; [intros; apply smcClockStep_idle; right; left; simpl; discriminate|].
  split.
  { unfold write32, Write. rewrite Haddr. decide_labels.
    apply RegisterFacts.copy_to_reg_word. unfold CLCK_INT_READY. lia. }
  split.
  - intros now next Hnow. eexists.
    apply smcClockStep_tick; [exact He | reflexivity | exact Hnow].
  - intros now next Hnow. apply smcClockStep_idle. right. right. exact Hnow.
Qed.

Lemma clock_interrupt_fires_once_per_arming_witness :
  exists s1,
    smcClockStep 500 0 500 501 Sample.smc_clock
    = Some (501, s1,
            [SMC_REG_STORE clockIntStatusReg CLCK_INT_TAKEN;
             PCIBridge_RouteInterrupt PRIO_CLOCK]) /\
    smcClockStep 500 501 2000 2001 s1 = Some (501, s1, []).
Proof.
  destruct (clock_interrupt_fires_once_per_arming Sample.smc_clock
              CLCK_INT_STATUS_REG 500 0 500 501)
    as (s1 & s2 & E1 & Hidle & _); [reflexivity | reflexivity | reflexivity | lia |].
  exists s1. split; [exact E1 | apply Hidle].
Defined.

End ClockFacts.

(** ** SMC: the HANA image at start-up *)

Module StartFacts.
Import Types Mem MemFacts SMC.

(** Storing byte 2 of a 32-bit word replaces bits 16 to 23. *)
Lemma store_byte2 (w c : Z) :
  0 <= w < 2 ^ 32 -> 0 <= c < 256 ->
  le_value (<[2%nat := c]> (le_bytes 4 w))
  = w mod 2 ^ 16 + 2 ^ 16 * c + 2 ^ 24 * (w / 2 ^ 24).
Proof.
  intros Hw Hc. cbn [le_bytes le_value]. simpl.
  change (2 ^ 32) with 4294967296 in Hw.
  Z.div_mod_to_equations. lia.
Qed.

Lemma store_u8_FE (words : list Z) (w c : Z) :
  words !! 63%nat = Some w ->
  0 <= w < 2 ^ 32 -> 0 <= c < 256 ->
  store_u8 words 0xFE c
  = Some (<[63%nat := w mod 2 ^ 16 + 2 ^ 16 * c + 2 ^ 24 * (w / 2 ^ 24)]> words).
Proof.
  intros Hw Hr Hc. unfold store_u8.
  change (254 / 4)%nat with 63%nat. change (254 mod 4)%nat with 2%nat.
  rewrite Hw. cbn [mbind option_bind]. rewrite (TypesFacts.u8_small c Hc).
  now rewrite (store_byte2 w c Hr Hc).
Qed.

(** X15: at the start of the thread the revision byte is stored at
    byte [0xFE] of the selected table, that is in bits 16 to 23 of HANA
    register [0x3F]: every other register (register [0xFE] included) and
    the other three bytes of register [0x3F] keep the table's values;
    for [Zephyr] the table is taken as it is. *)
Theorem revision_byte_lands_in_register_3F
    (rev : eConsoleRevision) (FAT_HANA_State HANA_State : list Z) :
  (63 < length FAT_HANA_State)%nat ->
  (63 < length HANA_State)%nat ->
  Forall (fun w => 0 <= w < 2 ^ 32) FAT_HANA_State ->
  Forall (fun w => 0 <= w < 2 ^ 32) HANA_State ->
  exists h w,
    select_hana rev FAT_HANA_State HANA_State = Some h /\
    (if is_fat rev then FAT_HANA_State else HANA_State) !! 63%nat = Some w /\
    length h = length (if is_fat rev then FAT_HANA_State else HANA_State) /\
    (forall i, i <> 63%nat ->
       h !! i = (if is_fat rev then FAT_HANA_State else HANA_State) !! i) /\
    h !! 63%nat
    = Some match revision_byte rev with
           | Some c => w mod 2 ^ 16 + 2 ^ 16 * c + 2 ^ 24 * (w / 2 ^ 24)
           | None => w
           end.
Proof.
  intros Hfat Hslim Hrf Hrs.
  set (base := if is_fat rev then FAT_HANA_State else HANA_State).
  assert (Hlen : (63 < length base)%nat) by (subst base; now destruct (is_fat rev)).
  assert (Hrange : Forall (fun w => 0 <= w < 2 ^ 32) base)
    by (subst base; now destruct (is_fat rev)).
  destruct (lookup_lt_is_Some_2 base 63 Hlen) as [w Hw].
  pose proof (Forall_lookup_1 _ _ _ _ Hrange Hw) as Hr. cbv beta in Hr.
  assert (Hsel : select_hana rev FAT_HANA_State HANA_State
                 = match revision_byte rev with
                   | Some c => Some (<[63%nat := w mod 2 ^ 16 + 2 ^ 16 * c
                                                  + 2 ^ 24 * (w / 2 ^ 24)]> base)
                   | None => Some base
                   end).
  { subst base. destruct rev; cbn [select_hana revision_byte is_fat] in *;
      try reflexivity; apply store_u8_FE; try assumption; lia. }
  rewrite Hsel. destruct (revision_byte rev) as [c|].
  - eexists. exists w. split; [reflexivity|]. split; [exact Hw|].
    split; [now rewrite length_insert|].
    split; [intros i Hi; now apply list_lookup_insert_ne|].
    now apply list_lookup_insert_eq.
  - exists base, w. repeat split; assumption.
Qed.

Lemma revision_byte_lands_in_register_3F_witness :
  exists h,
    select_hana Jasper (replicate 256 0x11223344) (replicate 256 0) = Some h /\
    h !! 0x3F%nat = Some 0x11213344 /\
    h !! 0xFE%nat = Some 0x11223344.
Proof.
  destruct (revision_byte_lands_in_register_3F Jasper
              (replicate 256 0x11223344) (replicate 256 0))
    as (h & w & E & Hw & _ & Hother & H3F);
    [simpl; lia | simpl; lia
     | apply Forall_replicate; lia | apply Forall_replicate; lia |].
  exists h. split; [exact E|].
  injection Hw as <-. split; [exact H3F|].
  rewrite Hother by discriminate. reflexivity.
Defined.

End StartFacts.

(** ** SMC: what every command keeps *)

Module KeepFacts.
Import Types Mem MemFacts Prog ProgFacts SMC Guest ThreadFacts HanaFacts.
Local Open Scope prog_scope.

Section WellFormed.

Context {U : Type}.

Lemma wf_set_byte (s : State U) (i : nat) (v : Z) :
  well_formed s -> well_formed (set_fifo s (<[i := u8 v]> (fifoDataBuffer s))).
Proof.
  intros (Hlen & Hbytes & Hhana). split; [|split]; simpl.
  - now rewrite length_insert.
  - apply Forall_insert; [assumption | apply TypesFacts.u8_range].
  - exact Hhana.
Qed.

Lemma wf_zero_buffer (s : State U) :
  well_formed s ->
  well_formed (set_fifo s (replicate 16 0 ++ drop 16 (fifoDataBuffer s))).
Proof.
  intros (Hlen & Hbytes & Hhana). split; [|split]; cbn [fifoDataBuffer hanaState set_fifo].
  - rewrite length_app, length_replicate, length_drop. lia.
  - apply Forall_app. split; [|now apply Forall_drop].
    apply Forall_replicate. unfold is_byte. lia.
  - exact Hhana.
Qed.

Lemma wf_set_hana (s : State U) (i : nat) (v : Z) :
  well_formed s -> well_formed (set_hana s (<[i := v]> (hanaState s))).
Proof.
  intros (Hlen & Hbytes & Hhana). split; [|split]; simpl; try assumption.
  now rewrite length_insert.
Qed.

End WellFormed.

Section Keeps.

Context {U : Type} `{HW_UART U}.
Variable ok : Event -> bool.
Variable I : State U -> Prop.
Hypothesis I_wf : forall s, I s -> well_formed s.

Local Abbreviation SMCProg := (M (State U)).

Lemma keeps_ret {A} (x : A) : runs ok I (ret x) (fun a s => I s /\ a = x).
Proof. intros s Hs. exists x, s, []. now repeat split. Qed.

Lemma keeps_ret_any {A} (x : A) : runs ok I (ret x) (fun _ s => I s /\ True).
Proof. intros s Hs. exists x, s, []. now repeat split. Qed.

Lemma keeps_get : runs ok I get (fun _ s => I s /\ True).
Proof. intros s Hs. exists s, s, []. now repeat split. Qed.

Lemma keeps_emit (e : Event) :
  ok e = true -> runs ok I (emit e) (fun _ s => I s /\ True).
Proof.
  intros He s Hs. exists tt, s, [e]. unfold emit.
  split; [reflexivity|]. split; [simpl; now rewrite He | now split].
Qed.

Lemma keeps_bind {A B} (m : SMCProg A) (k : A -> SMCProg B) (Q : A -> Prop)
    (R : B -> Prop) :
  runs ok I m (fun a s => I s /\ Q a) ->
  (forall a, Q a -> runs ok I (k a) (fun b s => I s /\ R b)) ->
  runs ok I (bind m k) (fun b s => I s /\ R b).
Proof.
  intros Hm Hk s Hs.
  destruct (Hm s Hs) as (a & s1 & e1 & E1 & Hok1 & Hs1 & HQ).
  destruct (Hk a HQ s1 Hs1) as (b & s2 & e2 & E2 & Hok2 & Hs2 & HR).
  exists b, s2, (e1 ++ e2). rewrite (bind_ok _ _ _ _ _ _ _ _ _ E1 E2).
  split; [reflexivity|]. split; [|now split].
  rewrite forallb_app. now rewrite Hok1, Hok2.
Qed.

Lemma keeps_byte_at (i : nat) :
  (i < 16)%nat -> runs ok I (byte_at i) (fun a s => I s /\ is_byte a).
Proof.
  intros Hi s Hs. pose proof (I_wf s Hs) as (Hlen & Hbytes & Hhana).
  destruct (lookup_lt_is_Some_2 (fifoDataBuffer s) i) as [b Hb]; [lia|].
  exists b, s, []. rewrite (byte_at_run s i b Hb).
  split; [reflexivity|]. split; [reflexivity|]. split; [exact Hs|].
  exact (Forall_lookup_1 _ _ _ _ Hbytes Hb).
Qed.

Lemma keeps_byte_at_known (i : nat) (b : Z) :
  (forall s, I s -> fifoDataBuffer s !! i = Some b) ->
  runs ok I (byte_at i) (fun a s => I s /\ a = b).
Proof.
  intros Hb s Hs. exists b, s, []. rewrite (byte_at_run s i b (Hb s Hs)).
  now repeat split.
Qed.

Lemma keeps_set_byte (i : nat) (v : Z) :
  (i < 16)%nat ->
  (forall s, I s -> I (set_fifo s (<[i := u8 v]> (fifoDataBuffer s)))) ->
  runs ok I (set_byte i v) (fun _ s => I s /\ True).
Proof.
  intros Hi Hstable s Hs. pose proof (I_wf s Hs) as (Hlen & _).
  eexists. eexists. eexists.
  rewrite set_byte_run by (apply Nat.ltb_lt; lia).
  split; [reflexivity|]. split; [reflexivity|]. split; [now apply Hstable | exact Logic.I].
Qed.

Lemma keeps_hana_at (i : Z) :
  is_byte i -> runs ok I (hana_at i) (fun _ s => I s /\ True).
Proof.
  intros Hi s Hs. pose proof (I_wf s Hs) as (_ & _ & Hhana). unfold is_byte in Hi.
  destruct (lookup_lt_is_Some_2 (hanaState s) (Z.to_nat i)) as [h Hh]; [lia|].
  exists h, s, []. rewrite (hana_at_run s i h Hh). now repeat split.
Qed.

Lemma keeps_set_hana_at (i v : Z) :
  is_byte i ->
  (forall s, I s -> I (set_hana s (<[Z.to_nat i := u32 v]> (hanaState s)))) ->
  runs ok I (set_hana_at i v) (fun _ s => I s /\ True).
Proof.
  intros Hi Hstable s Hs. pose proof (I_wf s Hs) as (_ & _ & Hhana).
  unfold is_byte in Hi.
  eexists. eexists. eexists. rewrite set_hana_at_run by lia.
  split; [reflexivity|]. split; [reflexivity|]. split; [now apply Hstable | exact Logic.I].
Qed.

Lemma zero_buffer_run (s : State U) :
  well_formed s ->
  zero_buffer s
  = Some (tt, set_fifo s (replicate 16 0 ++ drop 16 (fifoDataBuffer s)), []).
Proof.
  intros (Hlen & _). unfold zero_buffer. erewrite bind_run by reflexivity.
  unfold memset. rewrite Hlen. reflexivity.
Qed.

Lemma keeps_zero_buffer :
  (forall s, I s -> I (set_fifo s (replicate 16 0 ++ drop 16 (fifoDataBuffer s)))) ->
  runs ok I zero_buffer (fun _ s => I s /\ True).
Proof.
  intros Hstable s Hs. eexists. eexists. eexists.
  rewrite (zero_buffer_run s (I_wf s Hs)).
  split; [reflexivity|]. split; [reflexivity|]. split; [now apply Hstable | exact Logic.I].
Qed.

(** The buffer is cleared and its first byte set: the invariant need
    only hold after the two. *)
Lemma keeps_zero_then_set0 {B} (v : Z) (k : SMCProg B) (R : B -> Prop) :
  (forall s, I s ->
     I (set_fifo s (<[0%nat := u8 v]> (replicate 16 0 ++ drop 16 (fifoDataBuffer s))))) ->
  runs ok I k (fun b s => I s /\ R b) ->
  runs ok I (bind zero_buffer (fun _ => bind (set_byte 0 v) (fun _ => k)))
    (fun b s => I s /\ R b).
Proof.
  intros Hstable Hk s Hs.
  pose proof (I_wf s Hs) as Hwf.
  rewrite (bind_run _ _ _ _ _ _ (zero_buffer_run s Hwf)).
  rewrite (bind_run (set_byte 0 v) _ _ tt
             (set_fifo s (<[0%nat := u8 v]>
                            (replicate 16 0 ++ drop 16 (fifoDataBuffer s)))) []).
  2:{ rewrite set_byte_run; [reflexivity|].
      cbn [fifoDataBuffer set_fifo]. apply Nat.ltb_lt.
      rewrite length_app, length_replicate. lia. }
  destruct (Hk _ (Hstable s Hs)) as (b & s2 & e2 & E2 & Hok2 & Hs2 & HR).
  exists b, s2, e2. rewrite E2. now repeat split.
Qed.

End Keeps.

(** Follow the program's structure; [tac] shows that a store keeps the
    invariant. *)
Ltac keeps tac :=
  lazymatch goal with
  | |- runs _ _ (bind zero_buffer (fun _ => bind (set_byte 0 _) _)) _ =>
      first [ eapply keeps_bind; [solve [keeps tac] | intros; keeps tac]
            | eapply keeps_zero_then_set0; [assumption | solve [tac] | keeps tac] ]
  | |- runs _ _ (bind _ _) _ => eapply keeps_bind; [keeps tac | intros; keeps tac]
  | |- runs _ _ (if ?c then _ else _) _ => destruct c; keeps tac
  | |- runs _ _ (ret _) _ => first [apply keeps_ret | apply keeps_ret_any]
  | |- runs _ _ get _ => apply keeps_get
  | |- runs _ _ (log _ _ _ _) _ => apply keeps_emit; reflexivity
  | |- runs _ _ (emit _) _ => apply keeps_emit; reflexivity
  | |- runs _ _ (byte_at _) _ => apply keeps_byte_at; [assumption | lia]
  | |- runs _ _ (set_byte _ _) _ => apply keeps_set_byte; [assumption | lia | solve [tac]]
  | |- runs _ _ (hana_at _) _ => apply keeps_hana_at; assumption
  | |- runs _ _ (set_hana_at _ _) _ =>
      apply keeps_set_hana_at; [assumption | assumption | solve [tac]]
  | |- runs _ _ zero_buffer _ => apply keeps_zero_buffer; [assumption | solve [tac]]
  | |- runs _ _ hana_at_byte6 _ => unfold hana_at_byte6; keeps tac
  | |- runs _ _ i2c_address _ => unfold i2c_address; keeps tac
  | |- runs _ _ (i2c_read_write _) _ => unfold i2c_read_write; keeps tac
  end.

Section Switch.

Context {U : Type} `{HW_UART U}.
Variable ok : Event -> bool.

Local Abbreviation SMCProg := (M (State U)).

(** Sequencing when the statement establishes another invariant. *)
Lemma runs_bind {A B} (P P' : State U -> Prop) (m : SMCProg A) (k : A -> SMCProg B)
    (Q : A -> Prop) (R : B -> State U -> Prop) :
  runs ok P m (fun a s => P' s /\ Q a) ->
  (forall a, Q a -> runs ok P' (k a) R) ->
  runs ok P (bind m k) R.
Proof.
  intros Hm Hk s Hs.
  destruct (Hm s Hs) as (a & s1 & e1 & E1 & Hok1 & Hs1 & HQ).
  destruct (Hk a HQ s1 Hs1) as (b & s2 & e2 & E2 & Hok2 & HR).
  exists b, s2, (e1 ++ e2). rewrite (bind_ok _ _ _ _ _ _ _ _ _ E1 E2).
  split; [reflexivity|]. split; [|exact HR].
  rewrite forallb_app. now rewrite Hok1, Hok2.
Qed.

Lemma runs_set_byte (P P' : State U -> Prop) (i : nat) (v : Z) :
  (forall s, P s -> well_formed s) ->
  (i < 16)%nat ->
  (forall s, P s -> P' (set_fifo s (<[i := u8 v]> (fifoDataBuffer s)))) ->
  runs ok P (set_byte i v) (fun _ s => P' s /\ True).
Proof.
  intros Hwf Hi Hswitch s Hs. pose proof (Hwf s Hs) as (Hlen & _).
  eexists. eexists. eexists.
  rewrite set_byte_run by (apply Nat.ltb_lt; lia).
  split; [reflexivity|]. split; [reflexivity|]. split; [now apply Hswitch | exact I].
Qed.

End Switch.

(** The same for a block that stores the status byte: before the store
    the invariant is [P], after it [P']. *)
Ltac status P' tac :=
  lazymatch goal with
  | |- runs _ _ (bind (set_byte 1 _) _) _ =>
      eapply (runs_bind _ _ P');
      [apply runs_set_byte; [assumption | lia | solve [tac]] | intros; keeps tac]
  | |- runs _ _ (set_byte 1 _) _ =>
      apply runs_set_byte; [assumption | lia | solve [tac]]
  | |- runs _ ?P (bind _ _) _ =>
      eapply (runs_bind _ P P); [keeps tac | intros; status P' tac]
  | |- runs _ _ (if ?c then _ else _) _ => destruct c; status P' tac
  end.

Section Dispatch.

Context {U : Type} `{HW_UART U}.
Variable cmd_code : SMC_FIFO_CMD -> Z.

(** The status byte of [SMC_I2C_READ_WRITE]: 0 for the sub-operations
    the switch knows, 1 for the others. *)
Lemma i2c_status_byte (sub : Z) :
  runs (fun _ => true)
    (fun s : State U => well_formed s /\ fifoDataBuffer s !! 1%nat = Some sub)
    (i2c_read_write cmd_code)
    (fun _ s =>
       (well_formed s /\
        fifoDataBuffer s !! 1%nat = Some (if i2c_known sub then 0 else 1)) /\ True).
Proof.
  set (P := fun s : State U => well_formed s /\ fifoDataBuffer s !! 1%nat = Some sub).
  assert (P_wf : forall s, P s -> well_formed s) by (intros s Hs; apply Hs).
  assert (Hstatus : forall b v, v = b -> 0 <= b < 256 -> forall s, P s ->
             well_formed (set_fifo s (<[1%nat := u8 v]> (fifoDataBuffer s))) /\
             fifoDataBuffer (set_fifo s (<[1%nat := u8 v]> (fifoDataBuffer s))) !! 1%nat
             = Some b).
  { intros b v -> Hb s [Hwf _]. split; [now apply wf_set_byte|].
    simpl. rewrite (TypesFacts.u8_small b Hb).
    apply list_lookup_insert_eq. destruct Hwf as (Hlen & _). lia. }
  assert (Hkeep : forall b (i : nat) v, i <> 1%nat -> forall s : State U,
             well_formed s /\ fifoDataBuffer s !! 1%nat = Some b ->
             well_formed (set_fifo s (<[i := u8 v]> (fifoDataBuffer s))) /\
             fifoDataBuffer (set_fifo s (<[i := u8 v]> (fifoDataBuffer s))) !! 1%nat
             = Some b).
  { intros b i v Hi s [Hwf H1]. split; [now apply wf_set_byte|].
    simpl. now rewrite list_lookup_insert_ne. }
  assert (Hhana : forall b i v (s : State U),
             well_formed s /\ fifoDataBuffer s !! 1%nat = Some b ->
             well_formed (set_hana s (<[i := v]> (hanaState s))) /\
             fifoDataBuffer (set_hana s (<[i := v]> (hanaState s))) !! 1%nat = Some b).
  { intros b i v s [Hwf H1]. split; [now apply wf_set_hana | exact H1]. }
  set (P0 := fun s : State U => well_formed s /\ fifoDataBuffer s !! 1%nat = Some 0).
  set (P1 := fun s : State U => well_formed s /\ fifoDataBuffer s !! 1%nat = Some 1).
  assert (P0_wf : forall s, P0 s -> well_formed s) by (intros s Hs; apply Hs).
  assert (P1_wf : forall s, P1 s -> well_formed s) by (intros s Hs; apply Hs).
  unfold i2c_read_write, i2c_known. cbn [existsb].
  eapply (runs_bind _ P P);
    [apply (keeps_byte_at_known _ P 1 sub); intros s Hs; apply Hs|].
  intros a ->.
  repeat match goal with
         | |- context [sub =? ?c] => destruct (sub =? c)
         end;
    cbn [orb];
    first [ status P0 ltac:(first [ apply Hkeep; discriminate
                                  | apply Hhana
                                  | apply Hstatus; [reflexivity | lia] ])
          | status P1 ltac:(first [ apply Hkeep; discriminate
                                  | apply Hhana
                                  | apply Hstatus; [reflexivity | lia] ]) ].
Qed.

End Dispatch.

Section Dispatch2.

Context {U : Type} `{HW_UART U}.
Variable cmd_code : SMC_FIFO_CMD -> Z.

(** What every command keeps: the buffer's size and byte 0; the HANA
    image unless the command is [SMC_I2C_READ_WRITE]; and no command
    but [SMC_SET_STANDBY] produces a power event. *)
Lemma dispatch_keeps (power hana : bool) (id : Z) (h0 : list Z) :
  is_byte id ->
  (power = false -> id <> cmd_code SMC_SET_STANDBY) ->
  (hana = false -> id <> cmd_code SMC_I2C_READ_WRITE) ->
  runs (fun e => negb (is_power_event e) || power)
    (fun s : State U =>
       well_formed s /\ fifoDataBuffer s !! 0%nat = Some id /\
       (hana = false -> hanaState s = h0))
    (dispatch_command cmd_code)
    (fun _ s =>
       (well_formed s /\ fifoDataBuffer s !! 0%nat = Some id /\
        (hana = false -> hanaState s = h0)) /\ True).
Proof.
  intros Hid Hpower Hhana.
  set (I := fun s : State U =>
              well_formed s /\ fifoDataBuffer s !! 0%nat = Some id /\
              (hana = false -> hanaState s = h0)).
  assert (I_wf : forall s, I s -> well_formed s) by (intros s Hs; apply Hs).
  assert (Hother : forall (i : nat) v, i <> 0%nat -> forall s, I s ->
             I (set_fifo s (<[i := u8 v]> (fifoDataBuffer s)))).
  { intros i v Hi s (Hwf & H0 & Hh). split; [now apply wf_set_byte|].
    split; [|exact Hh]. simpl. now rewrite list_lookup_insert_ne. }
  assert (Hsame : forall v, v = id -> forall s, I s ->
             I (set_fifo s (<[0%nat := u8 v]> (fifoDataBuffer s)))).
  { intros v -> s (Hwf & H0 & Hh). split; [now apply wf_set_byte|].
    split; [|exact Hh]. simpl. rewrite (TypesFacts.u8_small id Hid).
    apply list_lookup_insert_eq. destruct Hwf as (Hlen & _). lia. }
  assert (Hzero : forall v, v = id -> forall s, I s ->
             I (set_fifo s (<[0%nat := u8 v]>
                              (replicate 16 0 ++ drop 16 (fifoDataBuffer s))))).
  { intros v -> s (Hwf & H0 & Hh).
    pose proof (wf_set_byte _ 0 id (wf_zero_buffer s Hwf)) as Hwf'.
    split; [exact Hwf'|]. split; [|exact Hh].
    simpl. now rewrite (TypesFacts.u8_small id Hid). }
  assert (Hstore : hana = true -> forall i v s, I s ->
             I (set_hana s (<[i := v]> (hanaState s)))).
  { intros -> i v s (Hwf & H0 & Hh).
    split; [now apply wf_set_hana|]. split; [exact H0 | discriminate]. }
  unfold dispatch_command.
  eapply keeps_bind;
    [apply (keeps_byte_at_known _ I 0 id); intros s Hs; apply Hs|].
  intros a ->.
  destruct (cmd_case cmd_code id) as [c|] eqn:Ec.
  - apply find_code_sound in Ec.
    destruct power, hana;
      destruct c;
      first [ exfalso; apply Hpower; [reflexivity | symmetry; exact Ec]
            | exfalso; apply Hhana; [reflexivity | symmetry; exact Ec]
            | keeps ltac:(first [ apply Hother; discriminate
                                | apply Hsame; exact Ec
                                | apply Hzero; exact Ec
                                | apply Hstore; reflexivity ]) ].
  - destruct power; keeps idtac.
Qed.

End Dispatch2.

Section Protocol.

Context {U : Type} `{HW_UART U}.
Variable cmd_code : SMC_FIFO_CMD -> Z.

(** The guest's four data writes deliver the message. *)
Lemma send_run (s : State U) (msg : list Z) :
  length (fifoDataBuffer s) = 16%nat ->
  length msg = 16%nat ->
  exists s1,
    send msg s = Some (tt, s1, []) /\
    fifoDataBuffer s1 = msg /\
    smcPCIState s1 fifoInStatusReg = FIFO_STATUS_BUSY /\
    (forall r, r <> fifoInStatusReg -> smcPCIState s1 r = smcPCIState s r) /\
    config s1 = config s /\
    hanaState s1 = hanaState s.
Proof.
  intros Hbuf Hmsg.
  destruct s as [c regs buf pos u cfg sizes hana]. simpl in Hbuf.
  do 16 (destruct buf as [|? buf]; [discriminate Hbuf|]).
  destruct buf; [|discriminate Hbuf].
  do 16 (destruct msg as [|? msg]; [discriminate Hmsg|]).
  destruct msg; [|discriminate Hmsg].
  eexists. split; [vm_compute; reflexivity|].
  split; [reflexivity|]. split; [reflexivity|].
  split; [|split; reflexivity].
  intros r Hr. destruct r; try reflexivity. now elim Hr.
Qed.

(** The guest's four data reads collect the buffer. *)
Lemma receive_run (s : State U) :
  length (fifoDataBuffer s) = 16%nat ->
  exists s',
    receive s = Some (fifoDataBuffer s, s', []) /\
    fifoDataBuffer s' = fifoDataBuffer s /\
    config s' = config s /\
    hanaState s' = hanaState s.
Proof.
  intros Hbuf.
  destruct s as [c regs buf pos u cfg sizes hana]. simpl in Hbuf.
  do 16 (destruct buf as [|? buf]; [discriminate Hbuf|]).
  destruct buf; [|discriminate Hbuf].
  eexists. split; [vm_compute; reflexivity|].
  repeat split.
Qed.

(** The turn of the thread on a handed-over message, given what the
    dispatch does on it: the events around the dispatch's own are
    hand-over events, and the turn leaves the buffer, the configuration
    and the HANA image as the dispatch left them. *)
Lemma smcFifoStep_run (s : State U) (noResponse : bool) (s2 : State U)
    (evs : list Event) :
  smcPCIState s fifoInStatusReg = FIFO_STATUS_BUSY ->
  dispatch_command cmd_code
    (set_reg (set_reg s fifoOutStatusReg FIFO_STATUS_BUSY)
       fifoInStatusReg FIFO_STATUS_READY)
  = Some (noResponse, s2, evs) ->
  exists s3 tail,
    smcFifoStep cmd_code s
    = Some (tt, s3,
            [SMC_REG_STORE fifoOutStatusReg FIFO_STATUS_BUSY;
             SMC_REG_STORE fifoInStatusReg FIFO_STATUS_READY] ++ evs ++ tail) /\
    forallb is_handover tail = true /\
    fifoDataBuffer s3 = fifoDataBuffer s2 /\
    config s3 = config s2 /\
    hanaState s3 = hanaState s2 /\
    smcPCIState s3 fifoInStatusReg = smcPCIState s2 fifoInStatusReg.
Proof.
  intros Hbusy Ed.
  unfold smcFifoStep. erewrite bind_run by reflexivity. rewrite Hbusy.
  change (FIFO_STATUS_BUSY =? FIFO_STATUS_BUSY) with true. cbv iota.
  unfold process_fifo_command.
  rewrite (bind_run _ _ _ _ _ _ (store_run s fifoOutStatusReg FIFO_STATUS_BUSY)).
  rewrite (bind_run _ _ _ _ _ _ (store_run _ fifoInStatusReg FIFO_STATUS_READY)).
  rewrite (bind_run _ _ _ _ _ _ Ed).
  rewrite (bind_run _ _ _ _ _ _ (store_run s2 fifoOutStatusReg FIFO_STATUS_READY)).
  erewrite bind_run by reflexivity.
  destruct (_ && _).
  - rewrite (bind_run _ _ _ _ _ _ (store_run _ smiIntPendingReg SMI_INT_PENDING)).
    eexists.
    exists [SMC_REG_STORE fifoOutStatusReg FIFO_STATUS_READY;
            SMC_REG_STORE smiIntPendingReg SMI_INT_PENDING;
            PCIBridge_RouteInterrupt PRIO_SMM].
    split; [unfold emit; simpl; reflexivity|]. repeat split.
  - eexists. exists [SMC_REG_STORE fifoOutStatusReg FIFO_STATUS_READY].
    split; [unfold ret; simpl; rewrite ?app_nil_r; reflexivity|].
    repeat split.
Qed.

(** One command through the guest's side of the protocol, given what
    the dispatch does on the delivered message: the guest reads the
    buffer the dispatch left. *)
Lemma transact_run (s : State U) (msg : list Z) :
  well_formed s ->
  length msg = 16%nat ->
  Forall is_byte msg ->
  exists s0 : State U,
    well_formed s0 /\
    fifoDataBuffer s0 = msg /\
    config s0 = config s /\
    hanaState s0 = hanaState s /\
    forall noResponse (s2 : State U) evs,
      dispatch_command cmd_code s0 = Some (noResponse, s2, evs) ->
      length (fifoDataBuffer s2) = 16%nat ->
      exists s' tail,
        transact cmd_code msg s
        = Some (fifoDataBuffer s2, s',
                [SMC_REG_STORE fifoOutStatusReg FIFO_STATUS_BUSY;
                 SMC_REG_STORE fifoInStatusReg FIFO_STATUS_READY] ++ evs ++ tail) /\
        forallb is_handover tail = true /\
        fifoDataBuffer s' = fifoDataBuffer s2 /\
        config s' = config s2 /\
        hanaState s' = hanaState s2.
Proof.
  intros Hwf Hmsg Hbytes. pose proof Hwf as (Hlen & _ & Hhana).
  destruct (send_run s msg Hlen Hmsg) as (s1 & Esend & Hbuf1 & Hbusy & _ & Hc1 & Hh1).
  set (s0 := set_reg (set_reg s1 fifoOutStatusReg FIFO_STATUS_BUSY)
               fifoInStatusReg FIFO_STATUS_READY).
  exists s0.
  split; [split; [|split]; simpl; rewrite ?Hbuf1, ?Hh1; assumption|].
  split; [exact Hbuf1|]. split; [exact Hc1|]. split; [exact Hh1|].
  intros noResponse s2 evs Ed Hlen2.
  unfold transact. rewrite (bind_run _ _ _ _ _ _ Esend).
  destruct (smcFifoStep_run s1 noResponse s2 evs Hbusy Ed)
    as (s3 & tail & Estep & Htail & Hbuf3 & Hc3 & Hh3 & _).
  rewrite (bind_run _ _ _ _ _ _ Estep).
  destruct (receive_run s3) as (s' & Er & Hbuf' & Hc' & Hh'); [congruence|].
  rewrite Er. exists s', tail. rewrite Hbuf3, !app_nil_r.
  split; [reflexivity|]. split; [exact Htail|].
  split; [congruence|]. split; congruence.
Qed.

End Protocol.

End KeepFacts.

(** ** SMC: one command through the guest's side of the protocol *)

Module TransactFacts.
Import Types Mem MemFacts Prog ProgFacts SMC Guest ThreadFacts HanaFacts KeepFacts.
Local Open Scope prog_scope.

(** X16: every 16-byte message goes through the protocol without
    fault, whatever its command byte, and the 16-byte response the guest
    reads begins with the command byte of the request. *)
Theorem transact_echoes_the_command_byte
    {U : Type} `{HW_UART U} (cmd_code : SMC_FIFO_CMD -> Z) (s : State U)
    (msg : list Z) (id : Z) :
  well_formed s ->
  length msg = 16%nat ->
  Forall is_byte msg ->
  msg !! 0%nat = Some id ->
  exists resp s' evs,
    transact cmd_code msg s = Some (resp, s', evs) /\
    length resp = 16%nat /\
    Forall is_byte resp /\
    resp !! 0%nat = Some id.
Proof.
  intros Hwf Hlen Hbytes Hid.
  destruct (transact_run cmd_code s msg Hwf Hlen Hbytes)
    as (s0 & Hwf0 & Hbuf0 & _ & _ & Hrun).
  assert (Hb : is_byte id) by exact (Forall_lookup_1 _ _ _ _ Hbytes Hid).
  destruct (dispatch_keeps cmd_code true true id [] Hb
              ltac:(discriminate) ltac:(discriminate) s0)
    as (nr & s2 & evs & Ed & _ & ((Hlen2 & Hbytes2 & _) & H0 & _) & _).
  { split; [exact Hwf0|]. split; [now rewrite Hbuf0 | discriminate]. }
  destruct (Hrun nr s2 evs Ed Hlen2) as (s' & tail & Et & _).
  eexists. eexists. eexists. split; [exact Et|].
  split; [exact Hlen2|]. split; [exact Hbytes2 | exact H0].
Qed.

Lemma transact_echoes_the_command_byte_witness :
  exists resp s' evs,
    transact Sample.cmd_code
      [0x12; 1; 2; 3; 4; 5; 6; 7; 8; 9; 10; 11; 12; 13; 14; 15] Sample.smc0
    = Some (resp, s', evs) /\
    resp !! 0%nat = Some 0x12.
Proof.
  destruct (transact_echoes_the_command_byte Sample.cmd_code Sample.smc0
              [0x12; 1; 2; 3; 4; 5; 6; 7; 8; 9; 10; 11; 12; 13; 14; 15] 0x12)
    as (resp & s' & evs & E & _ & _ & H0);
    [ repeat split; simpl; repeat constructor; unfold is_byte; lia
    | reflexivity
    | repeat constructor; unfold is_byte; lia
    | reflexivity | ].
  exists resp, s', evs. split; [exact E | exact H0].
Defined.

(** X20: no command other than [SMC_SET_STANDBY] switches the console
    off or restarts it: the transaction produces neither a store to
    [XeRunning] nor a call of [XeMain::Reboot]. *)
Theorem only_SET_STANDBY_switches_the_console
    {U : Type} `{HW_UART U} (cmd_code : SMC_FIFO_CMD -> Z) (s : State U)
    (msg : list Z) (id : Z) :
  well_formed s ->
  length msg = 16%nat ->
  Forall is_byte msg ->
  msg !! 0%nat = Some id ->
  id <> cmd_code SMC_SET_STANDBY ->
  exists resp s' evs,
    transact cmd_code msg s = Some (resp, s', evs) /\
    forallb (fun e => negb (is_power_event e)) evs = true.
Proof.
  intros Hwf Hlen Hbytes Hid Hne.
  destruct (transact_run cmd_code s msg Hwf Hlen Hbytes)
    as (s0 & Hwf0 & Hbuf0 & _ & _ & Hrun).
  assert (Hb : is_byte id) by exact (Forall_lookup_1 _ _ _ _ Hbytes Hid).
  destruct (dispatch_keeps cmd_code false true id [] Hb
              ltac:(intros _; exact Hne) ltac:(discriminate) s0)
    as (nr & s2 & evs & Ed & Hquiet & ((Hlen2 & _) & _) & _).
  { split; [exact Hwf0|]. split; [now rewrite Hbuf0 | discriminate]. }
  destruct (Hrun nr s2 evs Ed Hlen2) as (s' & tail & Et & Htail & _).
  eexists. eexists. eexists. split; [exact Et|].
  cbn [app forallb is_power_event negb andb].
  rewrite forallb_app. apply andb_true_iff. split.
  - rewrite forallb_forall. rewrite forallb_forall in Hquiet.
    intros e He. specialize (Hquiet e He). now rewrite orb_false_r in Hquiet.
  - rewrite forallb_forall. rewrite forallb_forall in Htail.
    intros e He. specialize (Htail e He). now destruct e.
Qed.

Lemma only_SET_STANDBY_switches_the_console_witness :
  exists resp s' evs,
    transact Sample.cmd_code
      [0x8C; 1; 0; 0; 0; 0; 0; 0; 0; 0; 0; 0; 0; 0; 0; 0] Sample.smc0
    = Some (resp, s', evs) /\
    forallb (fun e => negb (is_power_event e)) evs = true.
Proof.
  apply (only_SET_STANDBY_switches_the_console Sample.cmd_code Sample.smc0
           [0x8C; 1; 0; 0; 0; 0; 0; 0; 0; 0; 0; 0; 0; 0; 0; 0] 0x8C);
    [ repeat split; simpl; repeat constructor; unfold is_byte; lia
    | reflexivity
    | repeat constructor; unfold is_byte; lia
    | reflexivity
    | discriminate ].
Defined.

(** X22: only [SMC_I2C_READ_WRITE] touches the HANA image: after a
    transaction with any other command byte the image is as before. *)
Theorem only_I2C_commands_change_the_HANA_image
    {U : Type} `{HW_UART U} (cmd_code : SMC_FIFO_CMD -> Z) (s : State U)
    (msg : list Z) (id : Z) :
  well_formed s ->
  length msg = 16%nat ->
  Forall is_byte msg ->
  msg !! 0%nat = Some id ->
  id <> cmd_code SMC_I2C_READ_WRITE ->
  exists resp s' evs,
    transact cmd_code msg s = Some (resp, s', evs) /\
    hanaState s' = hanaState s.
Proof.
  intros Hwf Hlen Hbytes Hid Hne.
  destruct (transact_run cmd_code s msg Hwf Hlen Hbytes)
    as (s0 & Hwf0 & Hbuf0 & _ & Hh0 & Hrun).
  assert (Hb : is_byte id) by exact (Forall_lookup_1 _ _ _ _ Hbytes Hid).
  destruct (dispatch_keeps cmd_code true false id (hanaState s) Hb
              ltac:(discriminate) ltac:(intros _; exact Hne) s0)
    as (nr & s2 & evs & Ed & _ & ((Hlen2 & _) & _ & Hh2) & _).
  { split; [exact Hwf0|]. split; [now rewrite Hbuf0 | intros _; exact Hh0]. }
  destruct (Hrun nr s2 evs Ed Hlen2) as (s' & tail & Et & _ & _ & _ & Hh').
  eexists. eexists. eexists. split; [exact Et|].
  rewrite Hh'. now apply Hh2.
Qed.

Lemma only_I2C_commands_change_the_HANA_image_witness :
  exists resp s' evs,
    transact Sample.cmd_code
      [0x01; 0x60; 0; 0; 0; 0; 0x12; 0; 0xEF; 0xBE; 0xAD; 0xDE; 0; 0; 0; 0] Sample.smc0
    = Some (resp, s', evs) /\
    hanaState s' = hanaState Sample.smc0.
Proof.
  apply (only_I2C_commands_change_the_HANA_image Sample.cmd_code Sample.smc0
           [0x01; 0x60; 0; 0; 0; 0; 0x12; 0; 0xEF; 0xBE; 0xAD; 0xDE; 0; 0; 0; 0] 0x01);
    [ repeat split; simpl; repeat constructor; unfold is_byte; lia
    | reflexivity
    | repeat constructor; unfold is_byte; lia
    | reflexivity
    | discriminate ].
Defined.

Section Responses.

Context {U : Type} `{HW_UART U}.
Variable cmd_code : SMC_FIFO_CMD -> Z.
Hypothesis cmd_code_inj : forall a b, cmd_code a = cmd_code b -> a = b.

Lemma dispatch_pwron (s : State U) :
  length (fifoDataBuffer s) = 16%nat ->
  fifoDataBuffer s !! 0%nat = Some (cmd_code SMC_PWRON_TYPE) ->
  dispatch_command cmd_code s
  = Some (false,
          set_fifo s (u8 (cmd_code SMC_PWRON_TYPE)
                      :: u8 (currPowerOnReason (config s)) :: replicate 14 0),
          []).
Proof.
  intros Hlen H0.
  destruct s as [c regs buf pos u cfg sizes hana]. simpl in Hlen, H0.
  do 16 (destruct buf as [|? buf]; [discriminate Hlen|]).
  destruct buf; [|discriminate Hlen]. injection H0 as ->.
  unfold dispatch_command.
  erewrite bind_run by run_statement. cbv beta iota.
  rewrite (cmd_case_code cmd_code cmd_code_inj). cbv beta iota.
  run. reflexivity.
Qed.

Lemma dispatch_not_implemented (s : State U) (id : Z) :
  fifoDataBuffer s !! 0%nat = Some id ->
  match cmd_case cmd_code id with
  | Some c => implemented c = false
  | None => True
  end ->
  exists noResponse ev,
    dispatch_command cmd_code s = Some (noResponse, s, [ev]) /\
    is_handover ev = false /\ is_power_event ev = false.
Proof.
  intros H0 Hstub. unfold dispatch_command.
  rewrite (bind_run _ _ _ _ _ _ (byte_at_run s 0 id H0)).
  destruct (cmd_case cmd_code id) as [c|].
  - destruct c; try discriminate Hstub;
      eexists; eexists; (split; [reflexivity|]); split; reflexivity.
  - eexists; eexists; (split; [reflexivity|]); split; reflexivity.
Qed.

Lemma dispatch_standby (s : State U) (sub b2 : Z) :
  length (fifoDataBuffer s) = 16%nat ->
  fifoDataBuffer s !! 0%nat = Some (cmd_code SMC_SET_STANDBY) ->
  fifoDataBuffer s !! 1%nat = Some sub ->
  fifoDataBuffer s !! 2%nat = Some b2 ->
  exists s2 evs,
    dispatch_command cmd_code s = Some (false, s2, evs) /\
    length (fifoDataBuffer s2) = 16%nat /\
    List.filter is_power_event evs
    = (if sub =? 0x01 then [XeRunning_store false]
       else if sub =? 0x04 then [XeMain_Reboot b2]
       else []).
Proof.
  intros Hlen H0 H1 H2.
  destruct s as [c regs buf pos u cfg sizes hana]. simpl in Hlen, H0, H1, H2.
  do 16 (destruct buf as [|? buf]; [discriminate Hlen|]).
  destruct buf; [|discriminate Hlen].
  injection H0 as ->. injection H1 as ->. injection H2 as ->.
  unfold dispatch_command.
  erewrite bind_run by run_statement. cbv beta iota.
  rewrite (cmd_case_code cmd_code cmd_code_inj). cbv beta iota.
  run.
  destruct (sub =? 0x01); [|destruct (sub =? 0x04)]; run;
    eexists; eexists; (split; [reflexivity|]); split; reflexivity.
Qed.

Lemma handover_is_no_power_event (evs : list Event) :
  forallb is_handover evs = true -> List.filter is_power_event evs = [].
Proof.
  induction evs as [|e evs IH]; [reflexivity|]. simpl.
  intros Hall. apply andb_true_iff in Hall as [He Hall].
  rewrite (IH Hall). now destruct e.
Qed.

End Responses.

(** X17: [SMC_PWRON_TYPE] answers with the command byte, the power-on
    reason and fourteen zero bytes, whatever the other bytes of the
    request were. *)
Theorem PWRON_TYPE_answers_with_the_power_on_reason
    {U : Type} `{HW_UART U} (cmd_code : SMC_FIFO_CMD -> Z) (s : State U)
    (msg : list Z) :
  (forall a b, cmd_code a = cmd_code b -> a = b) ->
  well_formed s ->
  length msg = 16%nat ->
  Forall is_byte msg ->
  msg !! 0%nat = Some (cmd_code SMC_PWRON_TYPE) ->
  exists s' evs,
    transact cmd_code msg s
    = Some (cmd_code SMC_PWRON_TYPE :: u8 (currPowerOnReason (config s))
            :: replicate 14 0, s', evs).
Proof.
  intros Hinj Hwf Hlen Hbytes Hid.
  destruct (transact_run cmd_code s msg Hwf Hlen Hbytes)
    as (s0 & (Hlen0 & _) & Hbuf0 & Hc0 & _ & Hrun).
  pose proof (dispatch_pwron cmd_code Hinj s0 Hlen0 ltac:(now rewrite Hbuf0)) as Ed.
  destruct (Hrun _ _ _ Ed eq_refl) as (s' & tail & Et & _).
  exists s'. eexists. rewrite Et. cbn [fifoDataBuffer set_fifo]. rewrite Hc0.
  rewrite (TypesFacts.u8_small (cmd_code SMC_PWRON_TYPE))
    by exact (Forall_lookup_1 _ _ _ _ Hbytes Hid).
  reflexivity.
Qed.

Lemma PWRON_TYPE_answers_with_the_power_on_reason_witness :
  exists s' evs,
    transact Sample.cmd_code
      [0x01; 9; 9; 9; 9; 9; 9; 9; 9; 9; 9; 9; 9; 9; 9; 9] Sample.smc0
    = Some ([0x01; 0x11; 0; 0; 0; 0; 0; 0; 0; 0; 0; 0; 0; 0; 0; 0], s', evs).
Proof.
  apply (PWRON_TYPE_answers_with_the_power_on_reason Sample.cmd_code Sample.smc0
           [0x01; 9; 9; 9; 9; 9; 9; 9; 9; 9; 9; 9; 9; 9; 9; 9]
           sample_cmd_code_inj);
    [ repeat split; simpl; repeat constructor; unfold is_byte; lia
    | reflexivity
    | repeat constructor; unfold is_byte; lia
    | reflexivity ].
Defined.

(** X18: a command the switch does not know, or one whose case only
    logs, is answered with the request itself: the guest reads back the
    sixteen bytes it sent, the HANA image is unchanged and the console
    is neither switched off nor restarted. *)
Theorem unimplemented_command_is_answered_with_the_request
    {U : Type} `{HW_UART U} (cmd_code : SMC_FIFO_CMD -> Z) (s : State U)
    (msg : list Z) (id : Z) :
  well_formed s ->
  length msg = 16%nat ->
  Forall is_byte msg ->
  msg !! 0%nat = Some id ->
  match cmd_case cmd_code id with
  | Some c => implemented c = false
  | None => True
  end ->
  exists s' evs,
    transact cmd_code msg s = Some (msg, s', evs) /\
    hanaState s' = hanaState s /\
    forallb (fun e => negb (is_power_event e)) evs = true.
Proof.
  intros Hwf Hlen Hbytes Hid Hstub.
  destruct (transact_run cmd_code s msg Hwf Hlen Hbytes)
    as (s0 & (Hlen0 & _) & Hbuf0 & _ & Hh0 & Hrun).
  destruct (dispatch_not_implemented cmd_code s0 id ltac:(now rewrite Hbuf0) Hstub)
    as (nr & ev & Ed & _ & Hev).
  destruct (Hrun _ _ _ Ed Hlen0) as (s' & tail & Et & Htail & _ & _ & Hh').
  exists s'. eexists. rewrite Et, Hbuf0.
  split; [reflexivity|]. split; [congruence|].
  cbn [app forallb is_power_event negb andb]. rewrite Hev. cbn [negb andb].
  rewrite forallb_forall. rewrite forallb_forall in Htail.
  intros e He. specialize (Htail e He). now destruct e.
Qed.

Lemma unimplemented_command_is_answered_with_the_request_witness :
  exists s' evs,
    transact Sample.cmd_code
      [0xEE; 1; 2; 3; 4; 5; 6; 7; 8; 9; 10; 11; 12; 13; 14; 15] Sample.smc0
    = Some ([0xEE; 1; 2; 3; 4; 5; 6; 7; 8; 9; 10; 11; 12; 13; 14; 15], s', evs).
Proof.
  destruct (unimplemented_command_is_answered_with_the_request Sample.cmd_code
              Sample.smc0 [0xEE; 1; 2; 3; 4; 5; 6; 7; 8; 9; 10; 11; 12; 13; 14; 15] 0xEE)
    as (s' & evs & E & _);
    [ repeat split; simpl; repeat constructor; unfold is_byte; lia
    | reflexivity
    | repeat constructor; unfold is_byte; lia
    | reflexivity
    | exact I | ].
  exists s', evs. exact E.
Defined.

(** X21: [SMC_SET_STANDBY] with sub-type [0x01] stores [false] to
    [XeRunning], with sub-type [0x04] calls [XeMain::Reboot] with byte 2
    of the message, and with any other sub-type does neither; in each
    case it does so once. *)
Theorem SET_STANDBY_requests_shutdown_or_reboot
    {U : Type} `{HW_UART U} (cmd_code : SMC_FIFO_CMD -> Z) (s : State U)
    (msg : list Z) (sub b2 : Z) :
  (forall a b, cmd_code a = cmd_code b -> a = b) ->
  well_formed s ->
  length msg = 16%nat ->
  Forall is_byte msg ->
  msg !! 0%nat = Some (cmd_code SMC_SET_STANDBY) ->
  msg !! 1%nat = Some sub ->
  msg !! 2%nat = Some b2 ->
  exists resp s' evs,
    transact cmd_code msg s = Some (resp, s', evs) /\
    List.filter is_power_event evs
    = (if sub =? 0x01 then [XeRunning_store false]
       else if sub =? 0x04 then [XeMain_Reboot b2]
       else []).
Proof.
  intros Hinj Hwf Hlen Hbytes H0 H1 H2.
  destruct (transact_run cmd_code s msg Hwf Hlen Hbytes)
    as (s0 & (Hlen0 & _) & Hbuf0 & _ & _ & Hrun).
  destruct (dispatch_standby cmd_code Hinj s0 sub b2 Hlen0)
    as (s2 & evs & Ed & Hlen2 & Hpower); try (now rewrite Hbuf0).
  destruct (Hrun _ _ _ Ed Hlen2) as (s' & tail & Et & Htail & _).
  eexists. exists s'. eexists. split; [exact Et|].
  cbn [app List.filter is_power_event].
  rewrite List.filter_app, Hpower, (handover_is_no_power_event tail Htail).
  now rewrite app_nil_r.
Qed.

Lemma SET_STANDBY_requests_shutdown_or_reboot_witness :
  exists resp s' evs,
    transact Sample.cmd_code
      [0x82; 0x04; 0x30; 0; 0; 0; 0; 0; 0; 0; 0; 0; 0; 0; 0; 0] Sample.smc0
    = Some (resp, s', evs) /\
    List.filter is_power_event evs = [XeMain_Reboot 0x30].
Proof.
  apply (SET_STANDBY_requests_shutdown_or_reboot Sample.cmd_code Sample.smc0
           [0x82; 0x04; 0x30; 0; 0; 0; 0; 0; 0; 0; 0; 0; 0; 0; 0; 0] 0x04 0x30
           sample_cmd_code_inj);
    [ repeat split; simpl; repeat constructor; unfold is_byte; lia
    | reflexivity
    | repeat constructor; unfold is_byte; lia
    | reflexivity | reflexivity | reflexivity ].
Defined.

(** X19: byte 1 of the response to [SMC_I2C_READ_WRITE] is the
    status: 0 for the sub-operations the switch has a case for ([0x03],
    [0x05], [0x10], [0x11], [0x20], [0x21], [0x60]) and 1 for every
    other. *)
Theorem I2C_status_byte_tells_known_sub_operations
    {U : Type} `{HW_UART U} (cmd_code : SMC_FIFO_CMD -> Z) (s : State U)
    (msg : list Z) (sub : Z) :
  (forall a b, cmd_code a = cmd_code b -> a = b) ->
  well_formed s ->
  length msg = 16%nat ->
  Forall is_byte msg ->
  msg !! 0%nat = Some (cmd_code SMC_I2C_READ_WRITE) ->
  msg !! 1%nat = Some sub ->
  exists resp s' evs,
    transact cmd_code msg s = Some (resp, s', evs) /\
    resp !! 1%nat = Some (if i2c_known sub then 0 else 1).
Proof.
  intros Hinj Hwf Hlen Hbytes H0 H1.
  destruct (transact_run cmd_code s msg Hwf Hlen Hbytes)
    as (s0 & Hwf0 & Hbuf0 & _ & _ & Hrun).
  destruct (i2c_status_byte cmd_code sub s0) as (a & s2 & evs & Ei & _ & (Hwf2 & Hb1) & _).
  { split; [exact Hwf0 | now rewrite Hbuf0]. }
  assert (Ed : dispatch_command cmd_code s0 = Some (false, s2, evs ++ [])).
  { unfold dispatch_command.
    rewrite (bind_run _ _ _ _ _ _
               (byte_at_run s0 0 _ ltac:(rewrite Hbuf0; exact H0))).
    rewrite (cmd_case_code cmd_code Hinj). cbv beta iota.
    rewrite (bind_run _ _ _ _ _ _ Ei). reflexivity. }
  destruct (Hrun _ _ _ Ed ltac:(apply Hwf2)) as (s' & tail & Et & _).
  eexists. exists s'. eexists. split; [exact Et | exact Hb1].
Qed.

Lemma I2C_status_byte_tells_known_sub_operations_witness :
  exists resp s' evs,
    transact Sample.cmd_code
      [0x11; 0x42; 0; 0; 0; 0; 0; 0; 0; 0; 0; 0; 0; 0; 0; 0] Sample.smc0
    = Some (resp, s', evs) /\
    resp !! 1%nat = Some 1.
Proof.
  apply (I2C_status_byte_tells_known_sub_operations Sample.cmd_code Sample.smc0
           [0x11; 0x42; 0; 0; 0; 0; 0; 0; 0; 0; 0; 0; 0; 0; 0; 0] 0x42
           sample_cmd_code_inj);
    [ repeat split; simpl; repeat constructor; unfold is_byte; lia
    | reflexivity
    | repeat constructor; unfold is_byte; lia
    | reflexivity | reflexivity ].
Defined.

Section Turns.

Context {U : Type} `{HW_UART U}.
Variable cmd_code : SMC_FIFO_CMD -> Z.

(** The clock half of a turn produces only clock events and changes
    nothing but [CLCK_INT_STATUS]. *)
Lemma smcClockStep_frame (s : State U) (period timerStart timerNow restart : Z) :
  exists started s' evs,
    smcClockStep period timerStart timerNow restart s = Some (started, s', evs) /\
    forallb is_clock_event evs = true /\
    fifoDataBuffer s' = fifoDataBuffer s /\
    hanaState s' = hanaState s /\
    config s' = config s /\
    (forall r, r <> clockIntStatusReg -> smcPCIState s' r = smcPCIState s r) /\
    (smcPCIState s clockIntEnabledReg <> CLCK_INT_ENABLED -> s' = s /\ evs = []).
Proof.
  unfold smcClockStep. erewrite bind_run by reflexivity.
  destruct (Z.eqb_spec (smcPCIState s clockIntEnabledReg) CLCK_INT_ENABLED) as [He|He].
  2:{ exists timerStart, s, []. repeat split. }
  destruct (smcPCIState s clockIntStatusReg =? CLCK_INT_READY).
  2:{ exists timerStart, s, []. repeat split; intros; contradiction. }
  destruct (timerNow >=? timerStart + period).
  2:{ exists timerStart, s, []. repeat split; intros; contradiction. }
  exists restart, (set_reg s clockIntStatusReg CLCK_INT_TAKEN). eexists.
  split; [reflexivity|]. repeat split; try contradiction.
  intros r Hr. cbn [smcPCIState set_reg]. destruct r; try reflexivity. now destruct Hr.
Qed.

(** With no message handed over, the turns that follow leave the FIFO
    alone. *)
Lemma smcTurns_idle (period : Z) (readings : list (Z * Z)) :
  forall (s : State U) (timerStart : Z),
  smcPCIState s fifoInStatusReg <> FIFO_STATUS_BUSY ->
  exists last s' evs,
    smcTurns cmd_code period readings timerStart s = Some (last, s', evs) /\
    forallb is_clock_event evs = true /\
    fifoDataBuffer s' = fifoDataBuffer s /\
    hanaState s' = hanaState s /\
    config s' = config s /\
    (forall r, r <> clockIntStatusReg -> smcPCIState s' r = smcPCIState s r) /\
    (smcPCIState s clockIntEnabledReg <> CLCK_INT_ENABLED -> s' = s /\ evs = []).
Proof.
  induction readings as [|[timerNow restart] rest IH]; intros s timerStart Hidle.
  - exists timerStart, s, []. repeat split.
  - destruct (smcClockStep_frame s period timerStart timerNow restart)
      as (t1 & s1 & e1 & E1 & Hev1 & Hb1 & Hh1 & Hc1 & Hr1 & Hoff1).
    assert (Hidle1 : smcPCIState s1 fifoInStatusReg <> FIFO_STATUS_BUSY)
      by (rewrite Hr1 by discriminate; exact Hidle).
    destruct (IH s1 t1 Hidle1) as (t2 & s2 & e2 & E2 & Hev2 & Hb2 & Hh2 & Hc2 & Hr2 & Hoff2).
    exists t2, s2, (e1 ++ e2). split.
    { cbn [smcTurns]. unfold smcTurn.
      erewrite (bind_run (bind _ _)).
      2:{ rewrite (bind_run _ _ _ _ _ _ (smcFifoStep_idle cmd_code s Hidle)).
          rewrite E1. reflexivity. }
      rewrite E2. reflexivity. }
    split; [rewrite forallb_app, Hev1, Hev2; reflexivity|].
    split; [congruence|]. split; [congruence|]. split; [congruence|].
    split; [intros r Hr; rewrite Hr2, Hr1 by exact Hr; reflexivity|].
    intros Hoff. destruct (Hoff1 Hoff) as [-> ->].
    destruct (Hoff2 Hoff) as [-> ->]. split; reflexivity.
Qed.

End Turns.

(** X27: a handed-over message is processed once.  The turn that finds
    [FIFO_IN_STATUS] busy stores [READY] to [FIFO_OUT_STATUS] and ends
    with [FIFO_IN_STATUS] ready; over the turns that follow, however many
    and whatever the clock reads, the thread leaves the buffer, the HANA
    image, the configuration and every register but [CLCK_INT_STATUS] as
    they are, and its only events are those of the clock interrupt; with
    the clock interrupt not enabled these turns do nothing at all. *)
Theorem handed_over_message_is_processed_once
    {U : Type} `{HW_UART U} (cmd_code : SMC_FIFO_CMD -> Z) (s : State U) (id : Z)
    (period timerStart timerNow restart : Z) (readings : list (Z * Z)) :
  (forall a b, cmd_code a = cmd_code b -> a = b) ->
  well_formed s ->
  smcPCIState s fifoInStatusReg = FIFO_STATUS_BUSY ->
  fifoDataBuffer s !! 0%nat = Some id ->
  exists started s' evs last s'' evs',
    smcTurn cmd_code period timerStart timerNow restart s = Some (started, s', evs) /\
    In (SMC_REG_STORE fifoOutStatusReg FIFO_STATUS_READY) evs /\
    smcPCIState s' fifoInStatusReg = FIFO_STATUS_READY /\
    smcTurns cmd_code period readings started s' = Some (last, s'', evs') /\
    forallb is_clock_event evs' = true /\
    fifoDataBuffer s'' = fifoDataBuffer s' /\
    hanaState s'' = hanaState s' /\
    config s'' = config s' /\
    (forall r, r <> clockIntStatusReg -> smcPCIState s'' r = smcPCIState s' r) /\
    (smcPCIState s' clockIntEnabledReg <> CLCK_INT_ENABLED -> s'' = s' /\ evs' = []).
Proof.
  intros Hinj Hwf Hbusy Hid.
  destruct (dispatch_command_steady cmd_code Hinj
              (set_reg (set_reg s fifoOutStatusReg FIFO_STATUS_BUSY)
                 fifoInStatusReg FIFO_STATUS_READY) id Hwf Hid)
    as (nr & s2 & evs & Ed & _ & Hregs & _).
  destruct (smcFifoStep_run cmd_code s nr s2 evs Hbusy Ed)
    as (s3 & tail & Estep & Htail & _ & _ & _ & Hin).
  assert (Hready : smcPCIState s3 fifoInStatusReg = FIFO_STATUS_READY)
    by (rewrite Hin, Hregs; reflexivity).
  assert (Hout : In (SMC_REG_STORE fifoOutStatusReg FIFO_STATUS_READY) tail).
  { unfold smcFifoStep in Estep. clear - Estep Hbusy Ed.
    revert Estep. erewrite bind_run by reflexivity. rewrite Hbusy.
    change (FIFO_STATUS_BUSY =? FIFO_STATUS_BUSY) with true. cbv iota.
    unfold process_fifo_command.
    rewrite (bind_run _ _ _ _ _ _ (store_run s fifoOutStatusReg FIFO_STATUS_BUSY)).
    rewrite (bind_run _ _ _ _ _ _ (store_run _ fifoInStatusReg FIFO_STATUS_READY)).
    rewrite (bind_run _ _ _ _ _ _ Ed).
    rewrite (bind_run _ _ _ _ _ _ (store_run s2 fifoOutStatusReg FIFO_STATUS_READY)).
    erewrite bind_run by reflexivity.
    destruct (_ && _).
    + rewrite (bind_run _ _ _ _ _ _ (store_run _ smiIntPendingReg SMI_INT_PENDING)).
      unfold emit. simpl. intros [= _ E]. apply app_inv_head in E. subst tail. now left.
    + unfold ret. simpl. intros [= _ E]. apply app_inv_head in E. subst tail. now left. }
  destruct (smcClockStep_frame s3 period timerStart timerNow restart)
    as (started & s' & ec & Ec & _ & _ & _ & _ & Hrc & _).
  assert (Hready' : smcPCIState s' fifoInStatusReg = FIFO_STATUS_READY)
    by (rewrite Hrc by discriminate; exact Hready).
  destruct (smcTurns_idle cmd_code period readings s' started)
    as (last & s'' & evs' & Et & Hev & Hb & Hh & Hc & Hr & Hoff);
    [rewrite Hready'; discriminate|].
  exists started, s'. eexists. exists last, s'', evs'.
  split.
  { unfold smcTurn. rewrite (bind_run _ _ _ _ _ _ Estep). rewrite Ec. reflexivity. }
  split.
  { apply in_or_app. left. apply in_or_app. right. apply in_or_app. right.
    exact Hout. }
  split; [exact Hready'|]. split; [exact Et|]. split; [exact Hev|].
  split; [exact Hb|]. split; [exact Hh|]. split; [exact Hc|].
  split; [exact Hr | exact Hoff].
Qed.

(** On the SMC with the clock interrupt armed: the turn that processes
    the message also fires the clock at reading 600; three more turns
    with the guest re-arming nothing produce no event. *)
Lemma handed_over_message_is_processed_once_witness :
  exists started s' evs last s'' evs',
    smcTurn Sample.cmd_code 500 0 600 601
      (set_reg (set_reg
         (Sample.smc_busy [0x12; 0; 0; 0; 0; 0; 0; 0; 0; 0; 0; 0; 0; 0; 0; 0])
         clockIntEnabledReg CLCK_INT_ENABLED) clockIntStatusReg CLCK_INT_READY)
    = Some (started, s', evs) /\
    In (PCIBridge_RouteInterrupt PRIO_CLOCK) evs /\
    smcTurns Sample.cmd_code 500 [(1200, 1201); (1800, 1801); (2400, 2401)] started s'
    = Some (last, s'', evs') /\
    fifoDataBuffer s'' = fifoDataBuffer s'.
Proof.
  destruct (handed_over_message_is_processed_once Sample.cmd_code
              (set_reg (set_reg
                 (Sample.smc_busy [0x12; 0; 0; 0; 0; 0; 0; 0; 0; 0; 0; 0; 0; 0; 0; 0])
                 clockIntEnabledReg CLCK_INT_ENABLED) clockIntStatusReg CLCK_INT_READY)
              0x12 500 0 600 601 [(1200, 1201); (1800, 1801); (2400, 2401)]
              sample_cmd_code_inj)
    as (started & s' & evs & last & s'' & evs' & E & _ & _ & Et & _ & Hb & _);
    [ repeat split; simpl; repeat constructor; unfold is_byte; simpl; lia
    | reflexivity | reflexivity | ].
  exists started, s', evs, last, s'', evs'.
  split; [exact E|]. split; [|split; [exact Et | exact Hb]].
  vm_compute in E. injection E as _ _ <-. simpl. tauto.
Defined.

End TransactFacts.

(** ** Xenos: endianness swaps *)

Module XenosFacts.
Import Types Mem MemFacts Xenos.

Lemma testbit_cons (b X n : Z) :
  is_byte b -> 0 <= n ->
  Z.testbit (b + 256 * X) n = if n <? 8 then Z.testbit b n else Z.testbit X (n - 8).
Proof.
  intros Hb Hn. unfold is_byte in Hb.
  destruct (Z.ltb_spec n 8) as [Hlt|Hge].
  - rewrite <- (Z.mod_pow2_bits_low (b + 256 * X) 8 n) by lia.
    change (2 ^ 8) with 256.
    replace (b + 256 * X) with (b + X * 256) by lia.
    rewrite Z.mod_add by lia. now rewrite Z.mod_small by lia.
  - replace n with ((n - 8) + 8) at 1 by lia.
    rewrite <- Z.div_pow2_bits by lia. change (2 ^ 8) with 256.
    replace (b + 256 * X) with (b + X * 256) by lia.
    rewrite Z.div_add by lia. now rewrite Z.div_small by lia.
Qed.

Lemma below_32 (n : Z) :
  0 <= n < 32 -> In n (map Z.of_nat (seq 0 32)).
Proof.
  intros Hn. apply List.in_map_iff. exists (Z.to_nat n). split; [lia|].
  apply List.in_seq. lia.
Qed.

Lemma word_bits (x y : Z) :
  0 <= x < 2 ^ 32 -> 0 <= y < 2 ^ 32 ->
  (forall n, In n (map Z.of_nat (seq 0 32)) -> Z.testbit x n = Z.testbit y n) ->
  x = y.
Proof.
  intros Hx Hy Hbits. apply Z.bits_inj'. intros n Hn.
  destruct (Z.lt_ge_cases n 32) as [Hlt|Hge].
  - apply Hbits, below_32. lia.
  - now rewrite !(WindowFacts.small_has_no_high_bit _ 32 n) by lia.
Qed.

Lemma le_value_word (a b c d : Z) :
  is_byte a -> is_byte b -> is_byte c -> is_byte d ->
  0 <= le_value [a; b; c; d] < 2 ^ 32.
Proof. unfold is_byte. intros. cbn [le_value]. lia. Qed.

(** Evaluate the bit of a word built from bytes, at a known position. *)
Ltac known_index :=
  repeat match goal with
         | |- context [Z.testbit _ (?a - ?b)] =>
             let r := eval vm_compute in (a - b) in change (a - b) with r
         | |- context [Z.testbit _ (?a + ?b)] =>
             let r := eval vm_compute in (a + b) in change (a + b) with r
         | |- context [if (?a <? ?b) then _ else _] =>
             let r := eval vm_compute in (a <? b) in
             lazymatch r with true => idtac | false => idtac end;
             change (a <? b) with r; cbv iota
         end.

Ltac negative_index :=
  repeat match goal with
         | |- context [Z.testbit ?x ?k] =>
             lazymatch eval vm_compute in (k <? 0) with
             | true => rewrite (Z.testbit_neg_r x k) by lia
             end
         end.

Ltac byte_bits :=
  cbn [le_value];
  repeat (rewrite testbit_cons by (assumption || lia); known_index);
  rewrite ?Z.testbit_0_l.

Ltac mask_bits :=
  repeat match goal with
         | |- context [Z.testbit 0xFF00FF00 ?k] =>
             let r := eval vm_compute in (Z.testbit 0xFF00FF00 k) in
             change (Z.testbit 0xFF00FF00 k) with r
         | |- context [Z.testbit 0x00FF00FF ?k] =>
             let r := eval vm_compute in (Z.testbit 0x00FF00FF k) in
             change (Z.testbit 0x00FF00FF k) with r
         | |- context [Z.testbit 0xFFFF ?k] =>
             let r := eval vm_compute in (Z.testbit 0xFFFF k) in
             change (Z.testbit 0xFFFF k) with r
         end.

Ltac word_bit :=
  unfold u32, u16, wrap;
  repeat first [ rewrite Z.lor_spec
               | rewrite Z.land_spec
               | rewrite Z.mod_pow2_bits_low by lia
               | rewrite Z.mod_pow2_bits_high by lia
               | rewrite Z.shiftl_spec by lia
               | rewrite Z.shiftr_spec by lia ];
  known_index;
  negative_index;
  mask_bits;
  byte_bits;
  rewrite ?andb_true_r, ?andb_false_r, ?orb_false_r, ?orb_false_l;
  reflexivity.

Section WithByteswap.

Variable byteswap_be : Z -> Z.

Lemma swap_8in16_bytes (a b c d : Z) :
  is_byte a -> is_byte b -> is_byte c -> is_byte d ->
  xeEndianSwap32 byteswap_be (le_value [a; b; c; d]) xe8in16 = le_value [b; a; d; c].
Proof.
  intros Ha Hb Hc Hd. unfold xeEndianSwap32. cbn [Z.eqb xe8in16 Pos.eqb].
  apply Z.bits_inj'. intros n Hn.
  destruct (Z.lt_ge_cases n 32) as [Hlt|Hge].
  - pose proof (below_32 n ltac:(lia)) as Hin. clear Hn Hlt.
    vm_compute in Hin.
    repeat (destruct Hin as [<-|Hin]; [word_bit|]). destruct Hin.
  - rewrite Z.lor_spec, !Z.land_spec.
    rewrite (WindowFacts.small_has_no_high_bit 0xFF00FF00 32 n),
      (WindowFacts.small_has_no_high_bit 0x00FF00FF 32 n),
      (WindowFacts.small_has_no_high_bit (le_value _) 32 n)
      by first [apply le_value_word; assumption | lia | now split].
    now rewrite !andb_false_r.
Qed.

Lemma swap_16in32_bytes (a b c d : Z) :
  is_byte a -> is_byte b -> is_byte c -> is_byte d ->
  xeEndianSwap32 byteswap_be (le_value [a; b; c; d]) xe16in32 = le_value [c; d; a; b].
Proof.
  intros Ha Hb Hc Hd. unfold xeEndianSwap32. cbn [Z.eqb xe8in16 xe8in32 xe16in32 Pos.eqb].
  apply Z.bits_inj'. intros n Hn.
  destruct (Z.lt_ge_cases n 32) as [Hlt|Hge].
  - pose proof (below_32 n ltac:(lia)) as Hin. clear Hn Hlt.
    vm_compute in Hin.
    repeat (destruct Hin as [<-|Hin]; [word_bit|]). destruct Hin.
  - rewrite Z.lor_spec, Z.land_spec. unfold u32, wrap.
    rewrite Z.mod_pow2_bits_high by lia.
    rewrite (WindowFacts.small_has_no_high_bit 0xFFFF 32 n),
      (WindowFacts.small_has_no_high_bit (le_value _) 32 n)
      by first [apply le_value_word; assumption | lia | now split].
    now rewrite andb_false_r.
Qed.

Lemma swap_bytes (v : Z) :
  0 <= v < 2 ^ 32 ->
  exists a b c d,
    is_byte a /\ is_byte b /\ is_byte c /\ is_byte d /\ v = le_value [a; b; c; d].
Proof.
  intros Hv.
  exists (v mod 256), (v / 256 mod 256), (v / 256 / 256 mod 256),
         (v / 256 / 256 / 256 mod 256).
  unfold is_byte.
  repeat (split; [apply Z.mod_pos_bound; lia|]).
  symmetry. exact (WindowFacts.word_image v Hv).
Qed.

End WithByteswap.

Lemma swap16_8in16_bytes (a b : Z) :
  is_byte a -> is_byte b ->
  xeEndianSwap16 (le_value [a; b]) xe8in16 = (le_value [b; a], []).
Proof.
  intros Ha Hb. unfold xeEndianSwap16. cbn [Z.eqb xeNone xe8in16 Pos.eqb].
  f_equal. apply Z.bits_inj'. intros n Hn.
  destruct (Z.lt_ge_cases n 32) as [Hlt|Hge].
  - pose proof (below_32 n ltac:(lia)) as Hin. clear Hn Hlt.
    vm_compute in Hin.
    repeat (destruct Hin as [<-|Hin]; [word_bit|]). 
    destruct Hin.
  - unfold u16, wrap. rewrite Z.mod_pow2_bits_high by lia.
    symmetry. apply (WindowFacts.small_has_no_high_bit _ 16); [|lia].
    unfold is_byte in *. cbn [le_value]. lia.
Qed.

(** X23: on a 32-bit word with bytes [a], [b], [c], [d] (least
    significant first) [xeEndianSwap] with [xe8in16] gives the bytes
    [b], [a], [d], [c] and with [xe16in32] the bytes [c], [d], [a], [b];
    the two composed, in either order, reverse the four bytes. *)
Theorem xeEndianSwap_permutes_the_bytes
    (byteswap_be : Z -> Z) (a b c d : Z) :
  is_byte a -> is_byte b -> is_byte c -> is_byte d ->
  xeEndianSwap32 byteswap_be (le_value [a; b; c; d]) xe8in16 = le_value [b; a; d; c] /\
  xeEndianSwap32 byteswap_be (le_value [a; b; c; d]) xe16in32 = le_value [c; d; a; b] /\
  xeEndianSwap32 byteswap_be
    (xeEndianSwap32 byteswap_be (le_value [a; b; c; d]) xe8in16) xe16in32
  = le_value [d; c; b; a] /\
  xeEndianSwap32 byteswap_be
    (xeEndianSwap32 byteswap_be (le_value [a; b; c; d]) xe16in32) xe8in16
  = le_value [d; c; b; a].
Proof.
  intros Ha Hb Hc Hd.
  repeat (rewrite ?swap_8in16_bytes, ?swap_16in32_bytes by assumption).
  repeat split.
Qed.

Lemma xeEndianSwap_permutes_the_bytes_witness :
  xeEndianSwap32 (fun v => v) 0x11223344 xe8in16 = 0x22114433 /\
  xeEndianSwap32 (fun v => v) 0x11223344 xe16in32 = 0x33441122.
Proof.
  destruct (xeEndianSwap_permutes_the_bytes (fun v => v) 0x44 0x33 0x22 0x11)
    as (W1 & W2 & _); try (unfold is_byte; lia).
  split; [exact W1 | exact W2].
Defined.

(** X24: the 32-bit [xeEndianSwap] is an involution for every
    endianness other than [xe8in32] (which is left to [byteswap_be]),
    values outside the enumeration included, and its result is again a
    32-bit word. *)
Theorem xeEndianSwap_is_an_involution
    (byteswap_be : Z -> Z) (value endianness : Z) :
  0 <= value < 2 ^ 32 ->
  endianness <> xe8in32 ->
  0 <= xeEndianSwap32 byteswap_be value endianness < 2 ^ 32 /\
  xeEndianSwap32 byteswap_be (xeEndianSwap32 byteswap_be value endianness) endianness
  = value.
Proof.
  intros Hv Hmode.
  destruct (swap_bytes value Hv) as (a & b & c & d & Ha & Hb & Hc & Hd & ->).
  destruct (Z.eq_dec endianness xe8in16) as [->|H1];
    [|destruct (Z.eq_dec endianness xe16in32) as [->|H3]].
  - rewrite !swap_8in16_bytes by assumption. split; [|reflexivity].
    now apply le_value_word.
  - rewrite !swap_16in32_bytes by assumption. split; [|reflexivity].
    now apply le_value_word.
  - unfold xeEndianSwap32.
    apply Z.eqb_neq in Hmode, H1, H3. rewrite H1, Hmode, H3.
    split; [exact Hv | reflexivity].
Qed.

Lemma xeEndianSwap_is_an_involution_witness :
  xeEndianSwap32 (fun v => v) (xeEndianSwap32 (fun v => v) 0xDEADBEEF xe16in32) xe16in32
  = 0xDEADBEEF.
Proof.
  apply (xeEndianSwap_is_an_involution (fun v => v) 0xDEADBEEF xe16in32);
    [lia | discriminate].
Defined.

(** X25: the 16-bit [xeEndianSwap] swaps the two bytes for [xe8in16];
    for [xe8in32], [xe16in32] and any value outside the enumeration it
    logs an error and returns the value unchanged. *)
Theorem xeEndianSwap_16_bit_swaps_only_8in16
    (a b endianness : Z) :
  is_byte a -> is_byte b ->
  xeEndianSwap16 (le_value [a; b]) xe8in16 = (le_value [b; a], []) /\
  (endianness <> xeNone -> endianness <> xe8in16 ->
   xeEndianSwap16 (le_value [a; b]) endianness
   = (le_value [a; b],
      [LOG Log.Error "Xenos" "GPUSwap: Invalid endianness was passed in." []])).
Proof.
  intros Ha Hb. split; [now apply swap16_8in16_bytes|].
  intros H0 H1. unfold xeEndianSwap16.
  apply Z.eqb_neq in H0, H1. now rewrite H0, H1.
Qed.

Lemma xeEndianSwap_16_bit_swaps_only_8in16_witness :
  xeEndianSwap16 0x1234 xe8in16 = (0x3412, []) /\
  xeEndianSwap16 0x1234 xe16in32
  = (0x1234, [LOG Log.Error "Xenos" "GPUSwap: Invalid endianness was passed in." []]).
Proof.
  destruct (xeEndianSwap_16_bit_swaps_only_8in16 0x34 0x12 xe16in32)
    as [W1 W2]; try (unfold is_byte; lia).
  split; [exact W1 | apply W2; discriminate].
Defined.

End XenosFacts.

(** ** Main: the shutdown handler *)

Module MainFacts.
Import Main.

(** Once [hupflag] is set the handler changes nothing and never calls
    [XeMain::Shutdown]. *)
Lemma signals_after_hangup (exit_code fexit_code : Z) (inputs : list (bool * bool))
    (g : Globals) :
  hupflag g <> 0 ->
  signals exit_code fexit_code inputs g
  = (g, snd (signals exit_code fexit_code inputs g)) /\
  List.filter is_Shutdown (snd (signals exit_code fexit_code inputs g)) = [].
Proof.
  intros Hup. apply Z.eqb_neq in Hup.
  induction inputs as [|[paused signaled] rest IH]; [split; reflexivity|].
  destruct IH as [Eg He]. cbn [signals]. unfold globalShutdownHandler.
  rewrite Hup.
  destruct paused; rewrite Eg; cbn [snd app List.filter is_Shutdown]; rewrite He;
    split; reflexivity.
Qed.

(** X26: however many times the handler runs, one run after the other,
    and whatever [XePaused] and [XeShutdonSignaled] hold each time, it
    calls [XeMain::Shutdown] at most once. *)
Theorem clean_shutdown_is_attempted_at_most_once
    (exit_code fexit_code : Z) (inputs : list (bool * bool)) (g : Globals) :
  (length (List.filter is_Shutdown (snd (signals exit_code fexit_code inputs g)))
   <= 1)%nat.
Proof.
  revert g. induction inputs as [|[paused signaled] rest IH]; intros g.
  - simpl. lia.
  - cbn [signals]. unfold globalShutdownHandler.
    destruct paused.
    + specialize (IH g).
      destruct (signals exit_code fexit_code rest g) as [g2 e2]. exact IH.
    + destruct (Z.eqb_spec (hupflag g) 0) as [Hz|Hnz].
      * destruct (signals_after_hangup exit_code fexit_code rest
                    {| hupflag := 1; XeRunning := false |} ltac:(discriminate))
          as [Eg He].
        destruct signaled; rewrite Eg; cbn [snd app List.filter is_Shutdown length];
          rewrite He; simpl; lia.
      * destruct (signals_after_hangup exit_code fexit_code rest g Hnz) as [Eg He].
        rewrite Eg. cbn [snd app List.filter is_Shutdown length]. rewrite He. simpl. lia.
Qed.

End MainFacts.
